(** * Command version manager and command validator: a shallow embedding

    The development follows [version_manager.py] (class [VersionManager])
    and [tests/test_framework.py] (classes [CommandValidator] and
    [WorkflowValidator]).

    Modelling conventions.
    - A Python [str] is a [string]; a character is a code point below 256.
      On that range the regular-expression class [\d] is exactly [0-9], and
      [\s], [str.isspace] agree (tab .. carriage return, 0x1c .. 0x1f,
      space, 0x85, 0xa0).
    - Python integers are unbounded: [N].
    - [self.metadata] is a [gmap string CommandMetadata]; the persisted
      store is kept as the snapshot of that mapping written by
      [_save_metadata] (the JSON text itself is not modelled).
    - A [Path] is represented by its string; text files live in one map from
      path strings to contents.
    - Methods run in a state-and-exception monad over [World]: a raised
      exception returns the world reached so far together with the
      exception. *)

From Stdlib Require Import Ascii String NArith Lia.
From stdpp Require Import base option list strings pretty gmap.

Local Open Scope N_scope.

(** ** Characters and strings *)

Module Str.

Definition nl : ascii := "010"%char.
Definition NL : string := String nl "".

Definition code (c : ascii) : N := N_of_ascii c.

(** [\d] on code points below 256. *)
Definition is_digit (c : ascii) : bool :=
  (48 <=? code c) && (code c <=? 57).

Definition digit_val (c : ascii) : N := code c - 48.

(** [\s] and [str.isspace] on code points below 256. *)
Definition is_space (c : ascii) : bool :=
  let n := code c in
  ((9 <=? n) && (n <=? 13)) || ((28 <=? n) && (n <=? 32))
  || (n =? 133) || (n =? 160).

(** [c.lower()] on code points below 256. *)
Definition lower_char (c : ascii) : ascii :=
  let n := code c in
  if ((65 <=? n) && (n <=? 90))
     || ((192 <=? n) && (n <=? 222) && negb (n =? 215))
  then ascii_of_N (n + 32) else c.

Fixpoint lower (s : string) : string :=
  match s with
  | "" => ""
  | String c s' => String (lower_char c) (lower s')
  end.

(** [s.startswith(p)] *)
Fixpoint startswith (p s : string) : bool :=
  match p, s with
  | "", _ => true
  | String a p', String b s' => if decide (a = b) then startswith p' s' else false
  | String _ _, "" => false
  end.

(** [p in s] *)
Fixpoint contains (p s : string) : bool :=
  startswith p s ||
  match s with
  | "" => false
  | String _ s' => contains p s'
  end.

Fixpoint drop (n : nat) (s : string) : string :=
  match n, s with
  | O, _ => s
  | S n', String _ s' => drop n' s'
  | S _, "" => ""
  end.

Fixpoint take (n : nat) (s : string) : string :=
  match n, s with
  | O, _ => ""
  | S n', String c s' => String c (take n' s')
  | S _, "" => ""
  end.

(** [s[i:j]] for [0 <= i], [0 <= j]. *)
Definition slice (i j : nat) (s : string) : string := take (j - i) (drop i s).

(** Index of the first occurrence of [p] in [s], counted from the start of
    [s]; [None] is Python's [-1]. *)
Fixpoint find0 (p s : string) : option nat :=
  if startswith p s then Some O
  else match s with
       | "" => None
       | String _ s' => S <$> find0 p s'
       end.

(** [s.find(p, start)] for [0 <= start]. *)
Definition find (p : string) (start : nat) (s : string) : option nat :=
  if decide (start <= String.length s)%nat
  then (fun i => (start + i)%nat) <$> find0 p (drop start s)
  else None.

(** [s.count(p)] for a non-empty [p]: occurrences are counted left to
    right without overlap. [skip] characters of a counted occurrence are
    still to be passed over. *)
Fixpoint count_go (p : string) (skip : nat) (s : string) : nat :=
  match s with
  | "" => O
  | String _ s' =>
      match skip with
      | S k => count_go p k s'
      | O => if startswith p s
             then S (count_go p (String.length p - 1) s')
             else count_go p O s'
      end
  end.

Definition count (p s : string) : nat := count_go p O s.

(** [s.rstrip()] *)
Fixpoint rstrip (s : string) : string :=
  match s with
  | "" => ""
  | String c s' =>
      match rstrip s' with
      | "" => if is_space c then "" else String c ""
      | r => String c r
      end
  end.

(** [s.split('\n')]: always at least one piece. *)
Fixpoint split_nl (s : string) : list string :=
  match s with
  | "" => [""]
  | String c s' =>
      if decide (c = nl) then "" :: split_nl s'
      else match split_nl s' with
           | l :: ls => String c l :: ls
           | [] => [String c ""]
           end
  end.

(** [sep.join(l)] *)
Fixpoint join (sep : string) (l : list string) : string :=
  match l with
  | [] => ""
  | [x] => x
  | x :: rest => x +:+ sep +:+ join sep rest
  end.

(** ["".join(l)] *)
Definition concat (l : list string) : string := foldr String.append "" l.

(** The longest prefix of characters satisfying [f], and the rest: what a
    greedy [[class]*] consumes. *)
Fixpoint span (f : ascii -> bool) (s : string) : string * string :=
  match s with
  | "" => ("", "")
  | String c s' =>
      if f c then let '(a, r) := span f s' in (String c a, r)
      else ("", s)
  end.

Fixpoint all (f : ascii -> bool) (s : string) : bool :=
  match s with
  | "" => true
  | String c s' => f c && all f s'
  end.

End Str.

(** ** Exceptions and results *)

Inductive exn : Type :=
| ValueError (msg : string)
| FileNotFoundError (path : string).

Inductive result (A : Type) : Type :=
| Ok (a : A)
| Raise (e : exn).
Arguments Ok {A} a.
Arguments Raise {A} e.

Definition is_ok {A} (r : result A) : bool :=
  match r with Ok _ => true | Raise _ => false end.

(** ** Semantic versions *)

Inductive ChangeType : Type := MAJOR | MINOR | PATCH.

Definition version_triple : Type := N * N * N.

(** [int(x)] on a string of decimal digits (leading zeros allowed). *)
Fixpoint int_go (acc : N) (s : string) : N :=
  match s with
  | "" => acc
  | String c s' => int_go (10 * acc + Str.digit_val c) s'
  end.

Definition int (s : string) : N := int_go 0 s.

(** [re.match(r'^(\d+)\.(\d+)\.(\d+)$', version)]: the three groups, or
    [None]. Each [\d+] is greedy and is followed by a character that is not
    a digit, so no backtracking can change the outcome. Without
    [re.MULTILINE], [$] matches at the end of the string and also just before
    a final newline. *)
Definition match_version (version : string) : option (string * string * string) :=
  let '(a, r1) := Str.span Str.is_digit version in
  match a, r1 with
  | String _ _, String "." r1' =>
      let '(b, r2) := Str.span Str.is_digit r1' in
      match b, r2 with
      | String _ _, String "." r2' =>
          let '(c, r3) := Str.span Str.is_digit r2' in
          match c with
          | String _ _ =>
              if decide (r3 = "") then Some (a, b, c)
              else if decide (r3 = Str.NL) then Some (a, b, c)
              else None
          | "" => None
          end
      | _, _ => None
      end
  | _, _ => None
  end.

(** [VersionManager._parse_version] *)
Definition _parse_version (version : string) : result version_triple :=
  match match_version version with
  | None => Raise (ValueError ("Invalid version format: " +:+ version))
  | Some (a, b, c) => Ok (int a, int b, int c)
  end.

(** [VersionManager._increment_version] *)
Definition _increment_version (version : string) (change_type : ChangeType)
  : result string :=
  match _parse_version version with
  | Raise e => Raise e
  | Ok (major, minor, patch) =>
      match change_type with
      | MAJOR => Ok (pretty (major + 1) +:+ ".0.0")
      | MINOR => Ok (pretty major +:+ "." +:+ pretty (minor + 1) +:+ ".0")
      | PATCH => Ok (pretty major +:+ "." +:+ pretty minor +:+ "."
                       +:+ pretty (patch + 1))
      end
  end.

(** Python's [>=] on 3-tuples of integers: the first differing component
    decides; equal tuples compare [True]. *)
Definition tuple_ge (a b : version_triple) : bool :=
  let '(a1, a2, a3) := a in
  let '(b1, b2, b3) := b in
  if negb (a1 =? b1) then b1 <? a1
  else if negb (a2 =? b2) then b2 <? a2
  else b3 <=? a3.

(** ** Paths *)

Module Path.

(** [s.rfind(c)] for a single character. *)
Fixpoint rfind_char (c : ascii) (s : string) : option nat :=
  match s with
  | "" => None
  | String a s' =>
      match rfind_char c s' with
      | Some i => Some (S i)
      | None => if decide (a = c) then Some O else None
      end
  end.

(** [path.name]: the final component. *)
Definition name (p : string) : string :=
  match rfind_char "/" p with
  | Some i => Str.drop (S i) p
  | None => p
  end.

(** [path.stem]: the final component without its last suffix; a leading
    dot or a trailing dot is not a suffix separator. *)
Definition stem (p : string) : string :=
  let n := name p in
  match rfind_char "." n with
  | Some i =>
      if (0 <? i)%nat && (i <? String.length n - 1)%nat then Str.take i n else n
  | None => n
  end.

Fixpoint endswith_char (c : ascii) (s : string) : bool :=
  match s with
  | "" => false
  | String a "" => if decide (a = c) then true else false
  | String _ s' => endswith_char c s'
  end.

(** [a / b] for a normalised segment [b]: an absolute [b] replaces [a],
    the current directory ["."] disappears, and the root keeps its single
    slash. *)
Definition joinpath (a b : string) : string :=
  if Str.startswith "/" b then b
  else if decide (a = ".") then b
  else if endswith_char "/" a then a +:+ b
  else a +:+ "/" +:+ b.

End Path.

Infix "//" := Path.joinpath (at level 40, left associativity).

(** ** The data model of [version_manager.py] *)

Record CommandVersion : Type := mkCommandVersion {
  version : string;
  released : string;
  changes : list string;
  breaking_changes : list string;
  deprecated_features : list string
}.

Record CommandMetadata : Type := mkCommandMetadata {
  name : string;
  type : string;
  description : string;
  current_version : string;
  created : string;
  last_updated : string;
  tags : list string;
  dependencies : list string;
  version_history : list CommandVersion
}.

(** What [datetime.now()] returns, as far as the program looks at it. *)
Record datetime : Type := mkDatetime {
  isoformat : string;
  strftime_Ymd : string
}.

(** ** The world the version manager runs in *)

Record World : Type := mkWorld {
  metadata : gmap string CommandMetadata;          (* [self.metadata] *)
  store_file : option (gmap string CommandMetadata); (* [.command-metadata.json] *)
  files : gmap string string;                      (* text files, by path *)
  clock : nat -> datetime;                         (* successive clock readings *)
  ticks : nat;                                     (* readings taken so far *)
  stdout : list string                             (* lines printed *)
}.

Definition set_metadata (m : gmap string CommandMetadata) (w : World) : World :=
  mkWorld m (store_file w) (files w) (clock w) (ticks w) (stdout w).
Definition set_store_file (f : option (gmap string CommandMetadata)) (w : World) : World :=
  mkWorld (metadata w) f (files w) (clock w) (ticks w) (stdout w).
Definition set_files (f : gmap string string) (w : World) : World :=
  mkWorld (metadata w) (store_file w) f (clock w) (ticks w) (stdout w).
Definition set_ticks (n : nat) (w : World) : World :=
  mkWorld (metadata w) (store_file w) (files w) (clock w) n (stdout w).
Definition set_stdout (o : list string) (w : World) : World :=
  mkWorld (metadata w) (store_file w) (files w) (clock w) (ticks w) o.

(** State and exceptions. *)
Definition M (A : Type) : Type := World -> World * result A.

#[global] Instance M_ret : MRet M := fun A a w => (w, Ok a).
#[global] Instance M_bind : MBind M := fun A B f m w =>
  match m w with
  | (w', Ok a) => f a w'
  | (w', Raise e) => (w', Raise e)
  end.

Definition raise {A} (e : exn) : M A := fun w => (w, Raise e).
Definition get : M World := fun w => (w, Ok w).
Definition modify (f : World -> World) : M unit := fun w => (f w, Ok tt).

(** [datetime.now()] *)
Definition now : M datetime :=
  fun w => (set_ticks (S (ticks w)) w, Ok (clock w (ticks w))).

(** [print(line)] *)
Definition print (line : string) : M unit :=
  modify (fun w => set_stdout (stdout w ++ [line]) w).

(** [path.exists()] *)
Definition exists_ (path : string) : M bool :=
  w ← get; mret (bool_decide (is_Some (files w !! path))).

(** [path.read_text()] *)
Definition read_text (path : string) : M string :=
  w ← get;
  match files w !! path with
  | Some content => mret content
  | None => raise (FileNotFoundError path)
  end.

(** [path.write_text(content)] *)
Definition write_text (path content : string) : M unit :=
  modify (fun w => set_files (<[path := content]> (files w)) w).

(** [x or []] for an optional list argument. *)
Definition or_empty {A} (x : option (list A)) : list A := default [] x.

(** ** Frontmatter rewriting *)

(** One attempt of the pattern [version:\s*[\d.]+] at the start of [s]: the
    length of the match. [\s*] and [[\d.]+] are greedy and their character
    classes are disjoint, so giving back white space cannot turn a failure
    into a match. *)
Definition match_version_key (s : string) : option nat :=
  if Str.startswith "version:" s then
    let '(ws, r1) := Str.span Str.is_space (Str.drop 8 s) in
    let '(v, _) :=
      Str.span (fun c => Str.is_digit c || bool_decide (c = "."%char)) r1 in
    match v with
    | "" => None
    | String _ _ => Some (8 + String.length ws + String.length v)%nat
    end
  else None.

(** [re.sub(r'version:\s*[\d.]+', repl, s)] for a replacement without
    backslashes: every match, left to right, is replaced. [skip] characters
    of the match just replaced are still to be dropped. *)
Fixpoint re_sub_go (repl : string) (skip : nat) (s : string) : string :=
  match s with
  | "" => ""
  | String c s' =>
      match skip with
      | S k => re_sub_go repl k s'
      | O =>
          match match_version_key s with
          | Some n => repl +:+ re_sub_go repl (n - 1) s'
          | None => String c (re_sub_go repl O s')
          end
      end
  end.

Definition re_sub_version (repl s : string) : string := re_sub_go repl O s.

(** The text [_update_command_file] writes back: its [new_content]. *)
Definition new_content (content version : string) : string :=
  if Str.startswith "---" content then
    match Str.find "---" 3 content with
    | Some end_index =>
        let frontmatter := Str.slice 3 end_index content in
        let frontmatter :=
          if Str.contains "version:" frontmatter
          then re_sub_version ("version: " +:+ version) frontmatter
          else Str.rstrip frontmatter +:+ Str.NL +:+ "version: " +:+ version +:+ Str.NL
        in
        "---" +:+ frontmatter +:+ "---" +:+ Str.drop (end_index + 3) content
    | None =>
        "---" +:+ Str.NL +:+ "version: " +:+ version +:+ Str.NL +:+ "---"
          +:+ Str.NL +:+ content
    end
  else
    "---" +:+ Str.NL +:+ "version: " +:+ version +:+ Str.NL +:+ "---"
      +:+ Str.NL +:+ content.

(** ** Changelog entries *)

Definition bullet (change : string) : string := "- " +:+ change +:+ Str.NL.

(** The [entry_lines] list built by [_update_changelog], in the order of the
    three [if] blocks. *)
Definition entry_lines (command_name new_version date : string)
    (version_entry : CommandVersion) : list string :=
  let l0 := [Str.NL +:+ "## [" +:+ command_name +:+ "] " +:+ new_version
               +:+ " - " +:+ date +:+ Str.NL] in
  let l1 :=
    match breaking_changes version_entry with
    | [] => l0
    | bc => (l0 ++ [Str.NL +:+ "### Breaking Changes" +:+ Str.NL]) ++ map bullet bc
    end in
  let l2 :=
    match changes version_entry with
    | [] => l1
    | ch => (l1 ++ [Str.NL +:+ "### Changes" +:+ Str.NL]) ++ map bullet ch
    end in
  match deprecated_features version_entry with
  | [] => l2
  | dep => (l2 ++ [Str.NL +:+ "### Deprecated" +:+ Str.NL]) ++ map bullet dep
  end.

(** The loop that looks for the header: [insert_index] stays [0] unless a
    line starts with ["# "], and the first such line at index [i] sets it to
    [i + 1]. *)
Fixpoint insert_index_from (i : nat) (lines : list string) : nat :=
  match lines with
  | [] => O
  | line :: rest =>
      if Str.startswith "# " line then (i + 1)%nat
      else insert_index_from (S i) rest
  end.

(** [lines.insert(i, x)] *)
Definition list_insert_at {A} (i : nat) (x : A) (l : list A) : list A :=
  take i l ++ x :: drop i l.

(** The text written when a changelog already exists. *)
Definition changelog_with_entry (content entry : string) : string :=
  let lines := Str.split_nl content in
  let insert_index := insert_index_from O lines in
  Str.join Str.NL (list_insert_at insert_index entry lines).

(** The text written when there is no changelog yet. *)
Definition changelog_fresh (entry : string) : string :=
  "# Claude Code Commands Changelog" +:+ Str.NL +:+ entry.

(** ** [class VersionManager] *)

Section VersionManager.

(** [self.repo_path] *)
Variable repo_path : string.

Definition changelog_path : string := repo_path // "CHANGELOG.md".

(** [_load_metadata]: the store file when it exists, else an empty
    mapping. The store is kept as the mapping it encodes: the JSON text and
    its decoding into records are outside the model, so nothing is stated
    about them. *)
Definition _load_metadata : M (gmap string CommandMetadata) :=
  w ← get; mret (default ∅ (store_file w)).

(** [__init__] *)
Definition VersionManager_init : M unit :=
  m ← _load_metadata; modify (set_metadata m).

(** [_save_metadata]: the whole mapping is written out, replacing the
    store (the encoding by [asdict] and [json.dump] is outside the
    model). *)
Definition _save_metadata : M unit :=
  modify (fun w => set_store_file (Some (metadata w)) w).

(** [_find_command_file] *)
Definition _find_command_file (command_name : string) : M (option string) :=
  let in_dir directory := repo_path // directory // (command_name +:+ ".md") in
  e1 ← exists_ (in_dir "workflows");
  if e1 : bool then mret (Some (in_dir "workflows"))
  else
    e2 ← exists_ (in_dir "tools");
    if e2 : bool then mret (Some (in_dir "tools"))
    else mret None.

(** [_update_command_file] *)
Definition _update_command_file (command_path version : string) : M unit :=
  content ← read_text command_path;
  write_text command_path (new_content content version).

(** [_update_changelog] *)
Definition _update_changelog (command_name old_version new_version : string)
    (version_entry : CommandVersion) : M unit :=
  d ← now;
  let entry :=
    Str.concat (entry_lines command_name new_version (strftime_Ymd d) version_entry) in
  e ← exists_ changelog_path;
  if e : bool then
    content ← read_text changelog_path;
    write_text changelog_path (changelog_with_entry content entry)
  else
    write_text changelog_path (changelog_fresh entry).

(** [initialize_command] *)
Definition initialize_command (command_path description : string)
    (tags dependencies : option (list string)) : M unit :=
  let command_name := Path.stem command_path in
  let command_type :=
    if Str.contains "workflows" command_path then "workflow" else "tool" in
  w ← get;
  if bool_decide (is_Some (metadata w !! command_name)) then
    print ("Command " +:+ command_name +:+ " already initialized")
  else
    t_created ← now;
    t_updated ← now;
    t_released ← now;
    modify (fun w =>
      set_metadata
        (<[command_name :=
             mkCommandMetadata command_name command_type description "1.0.0"
               (isoformat t_created) (isoformat t_updated)
               (or_empty tags) (or_empty dependencies)
               [mkCommandVersion "1.0.0" (isoformat t_released)
                  ["Initial release"] [] []]]>
           (metadata w)) w);;
    _save_metadata;;
    _update_command_file command_path "1.0.0";;
    print ("Initialized " +:+ command_name +:+ " at version 1.0.0").

(** [update_version]. The metadata object is mutated in place; in the
    mapping that is the replacement of the entry under [command_name]. *)
Definition update_version (command_name : string) (change_type : ChangeType)
    (changes : list string)
    (breaking_changes deprecated_features : option (list string)) : M unit :=
  w ← get;
  match metadata w !! command_name with
  | None =>
      raise (ValueError ("Command " +:+ command_name +:+ " not found in metadata"))
  | Some md =>
      let old_version := current_version md in
      match _increment_version old_version change_type with
      | Raise e => raise e
      | Ok new_version =>
          t_released ← now;
          let version_entry :=
            mkCommandVersion new_version (isoformat t_released) changes
              (or_empty breaking_changes) (or_empty deprecated_features) in
          t_updated ← now;
          modify (fun w =>
            set_metadata
              (<[command_name :=
                   mkCommandMetadata (name md) (type md) (description md)
                     new_version (created md) (isoformat t_updated)
                     (tags md) (dependencies md)
                     (version_history md ++ [version_entry])]>
                 (metadata w)) w);;
          _save_metadata;;
          command_path ← _find_command_file command_name;
          match command_path with
          | Some p => _update_command_file p new_version
          | None => mret tt
          end;;
          print ("Updated " +:+ command_name +:+ " from " +:+ old_version
                   +:+ " to " +:+ new_version);;
          _update_changelog command_name old_version new_version version_entry
      end
  end.

(** [check_compatibility] *)
Definition check_compatibility (command_name required_version : string) : M bool :=
  w ← get;
  match metadata w !! command_name with
  | None => mret false
  | Some md =>
      match _parse_version (current_version md) with
      | Raise e => raise e
      | Ok current =>
          match _parse_version required_version with
          | Raise e => raise e
          | Ok required => mret (tuple_ge current required)
          end
      end
  end.

End VersionManager.

(** ** [tests/test_framework.py]: the validators *)

Inductive ValidationLevel : Type := ERROR | WARNING | INFO.

Record ValidationResult : Type := mkValidationResult {
  level : ValidationLevel;
  message : string;
  line_number : option nat;
  command_file : option string
}.

#[global] Instance ValidationLevel_eq_dec : EqDecision ValidationLevel.
Proof. solve_decision. Defined.
#[global] Instance ValidationResult_eq_dec : EqDecision ValidationResult.
Proof. solve_decision. Defined.

(** The fields of a [CommandValidator] that the rules read and write. *)
Record CommandValidator : Type := mkCommandValidator {
  command_path : string;
  content : string;
  lines : list string;
  results : list ValidationResult
}.

Definition is_linebreak (c : ascii) : bool :=
  let n := Str.code c in
  ((10 <=? n) && (n <=? 13)) || ((28 <=? n) && (n <=? 30)) || (n =? 133).

(** [s.splitlines()] on code points below 256: a carriage return followed
    by a line feed is one boundary, and a final boundary opens no empty
    line. *)
Fixpoint splitlines (s : string) : list string :=
  match s with
  | "" => []
  | String c s' =>
      if is_linebreak c then
        match s' with
        | String c' s'' =>
            if bool_decide (c = "013"%char) && bool_decide (c' = "010"%char)
            then "" :: splitlines s''
            else "" :: splitlines s'
        | "" => [""]
        end
      else
        match splitlines s' with
        | l :: ls => String c l :: ls
        | [] => [String c ""]
        end
  end.

(** [CommandValidator.__init__], given the text read from the file. *)
Definition CommandValidator_init (command_path content : string) : CommandValidator :=
  mkCommandValidator command_path content (splitlines content) [].

Definition append_result (r : ValidationResult) (self : CommandValidator)
  : CommandValidator :=
  mkCommandValidator (command_path self) (content self) (lines self)
    (results self ++ [r]).

(** [len(line) - len(line.lstrip('#'))] *)
Fixpoint header_level (line : string) : nat :=
  match line with
  | String "#" rest => S (header_level rest)
  | _ => O
  end.

(** The first loop of the header check: [(level, i + 1)] for every line
    that starts with [#]. *)
Fixpoint header_levels_from (i : nat) (lines : list string) : list (nat * nat) :=
  match lines with
  | [] => []
  | line :: rest =>
      if Str.startswith "#" line
      then (header_level line, (i + 1)%nat) :: header_levels_from (S i) rest
      else header_levels_from (S i) rest
  end.

Definition header_jump (file : string) (prev_level curr_level curr_line : nat)
  : ValidationResult :=
  mkValidationResult WARNING
    ("Header level jumps from " +:+ pretty prev_level +:+ " to " +:+ pretty curr_level)
    (Some curr_line) (Some file).

(** The second loop: every header is compared with the one before it. *)
Fixpoint header_jumps (file : string) (prev_level : nat)
    (rest : list (nat * nat)) : list ValidationResult :=
  match rest with
  | [] => []
  | (curr_level, curr_line) :: rest' =>
      (if (prev_level + 1 <? curr_level)%nat
       then [header_jump file prev_level curr_level curr_line] else [])
      ++ header_jumps file curr_level rest'
  end.

Definition unclosed_code_block (file : string) : ValidationResult :=
  mkValidationResult ERROR "Unclosed code block detected" None (Some file).

(** [CommandValidator._validate_markdown] *)
Definition _validate_markdown (self : CommandValidator) : CommandValidator :=
  let code_block_count := Str.count "```" (content self) in
  let self :=
    if negb (code_block_count mod 2 =? 0)%nat
    then append_result (unclosed_code_block (command_path self)) self
    else self in
  let header_levels := header_levels_from O (lines self) in
  match header_levels with
  | [] => self
  | (first_level, _) :: rest =>
      foldl (fun s r => append_result r s) self
        (header_jumps (command_path self) first_level rest)
  end.

Definition task_tool_warning (file : string) : ValidationResult :=
  mkValidationResult WARNING
    "Workflow should use Task tool for subagent coordination" None (Some file).

Definition subagent_type_warning (file : string) : ValidationResult :=
  mkValidationResult WARNING
    "Workflow using Task tool should specify subagent_type" None (Some file).

(** [WorkflowValidator._validate_task_tool_usage] *)
Definition _validate_task_tool_usage (self : CommandValidator) : CommandValidator :=
  let self :=
    if negb (Str.contains "Task tool" (content self))
       && negb (Str.contains "subagent" (Str.lower (content self)))
    then append_result (task_tool_warning (command_path self)) self
    else self in
  if negb (Str.contains "subagent_type" (content self))
     && Str.contains "Task tool" (content self)
  then append_result (subagent_type_warning (command_path self)) self
  else self.

(** ** Specification-side notions *)

(** A well-formed version string in the sense of the data model: three
    non-empty groups of decimal digits separated by dots. *)
Definition is_digits (s : string) : Prop := s <> "" /\ Str.all Str.is_digit s = true.

Definition Is_version (v : string) : Prop :=
  exists a b c, is_digits a /\ is_digits b /\ is_digits c
                /\ v = a +:+ "." +:+ b +:+ "." +:+ c.

(** The two readings of "greater than or equal" on version triples. *)
Definition lex_ge (a b : version_triple) : Prop :=
  let '(a1, a2, a3) := a in
  let '(b1, b2, b3) := b in
  b1 < a1 \/ (a1 = b1 /\ (b2 < a2 \/ (a2 = b2 /\ b3 <= a3))).

Definition componentwise_ge (a b : version_triple) : Prop :=
  let '(a1, a2, a3) := a in
  let '(b1, b2, b3) := b in
  b1 <= a1 /\ b2 <= a2 /\ b3 <= a3.

(** The triple an incremented version stands for. *)
Definition bump (t : version_triple) (change_type : ChangeType) : version_triple :=
  let '(major, minor, patch) := t in
  match change_type with
  | MAJOR => (major + 1, 0, 0)
  | MINOR => (major, minor + 1, 0)
  | PATCH => (major, minor, patch + 1)
  end.

(** The command file [_find_command_file] settles on, read off a file
    map. *)
Definition command_file_of (repo_path command_name : string)
    (fs : gmap string string) : option string :=
  let in_dir directory := repo_path // directory // (command_name +:+ ".md") in
  if bool_decide (is_Some (fs !! in_dir "workflows")) then Some (in_dir "workflows")
  else if bool_decide (is_Some (fs !! in_dir "tools")) then Some (in_dir "tools")
  else None.

(** The changelog text after an update, from the text before it (if any). *)
Definition changelog_text (old : option string) (entry : string) : string :=
  match old with
  | Some content => changelog_with_entry content entry
  | None => changelog_fresh entry
  end.

(** The world after a successful [update_version]. *)
Definition world_after_update (repo_path command_name : string) (md : CommandMetadata)
    (new_version : string) (changes : list string)
    (breaking deprecated : option (list string)) (w : World) : World :=
  let version_entry :=
    mkCommandVersion new_version (isoformat (clock w (ticks w))) changes
      (or_empty breaking) (or_empty deprecated) in
  let md' :=
    mkCommandMetadata (name md) (type md) (description md) new_version
      (created md) (isoformat (clock w (S (ticks w)))) (tags md) (dependencies md)
      (version_history md ++ [version_entry]) in
  let m' := <[command_name := md']> (metadata w) in
  let files1 :=
    match command_file_of repo_path command_name (files w) with
    | Some p => <[p := new_content (default "" (files w !! p)) new_version]> (files w)
    | None => files w
    end in
  let entry :=
    Str.concat (entry_lines command_name new_version
                  (strftime_Ymd (clock w (S (S (ticks w))))) version_entry) in
  mkWorld m' (Some m')
    (<[changelog_path repo_path :=
         changelog_text (files1 !! changelog_path repo_path) entry]> files1)
    (clock w) (S (S (S (ticks w))))
    (stdout w ++ ["Updated " +:+ command_name +:+ " from " +:+ current_version md
                    +:+ " to " +:+ new_version]).


(** The world after [initialize_command] has registered a new command and
    saved the store, before the command file is touched. *)
Definition world_after_register (command_path description : string)
    (tags dependencies : option (list string)) (w : World) : World :=
  let command_name := Path.stem command_path in
  let m' :=
    <[command_name :=
        mkCommandMetadata command_name
          (if Str.contains "workflows" command_path then "workflow" else "tool")
          description "1.0.0"
          (isoformat (clock w (ticks w))) (isoformat (clock w (S (ticks w))))
          (or_empty tags) (or_empty dependencies)
          [mkCommandVersion "1.0.0" (isoformat (clock w (S (S (ticks w)))))
             ["Initial release"] [] []]]>
      (metadata w) in
  mkWorld m' (Some m') (files w) (clock w) (S (S (S (ticks w)))) (stdout w).

(** A sequence of successful [update_version] calls on one command:
    [updated repo_path name n w w'] holds when [n] such calls lead from [w]
    to [w']. *)
Inductive updated (repo_path command_name : string) : nat -> World -> World -> Prop :=
| updated_O w : updated repo_path command_name O w w
| updated_S n w w1 w2 change_type changes breaking deprecated :
    updated repo_path command_name n w w1 ->
    update_version repo_path command_name change_type changes breaking deprecated w1
      = (w2, Ok tt) ->
    updated repo_path command_name (S n) w w2.

(** A fixed clock and two small worlds for the examples. *)
Definition example_clock (n : nat) : datetime :=
  mkDatetime ("2024-01-01T00:00:0" +:+ pretty n) "2024-01-01".

Definition empty_world : World := mkWorld ∅ None ∅ example_clock O [].

(** A repository at ["."] holding one workflow file that is not registered
    yet. *)
Definition demo_world : World :=
  mkWorld ∅ None {["workflows/demo.md" := "# Demo"]} example_clock O [].

Definition demo_metadata (current : string) : CommandMetadata :=
  mkCommandMetadata "demo" "workflow" "" current "2024-01-01T00:00:00"
    "2024-01-01T00:00:00" [] []
    [mkCommandVersion current "2024-01-01T00:00:00" ["Initial release"] [] []].

(** A store in which [demo] is registered at version [current], with no
    file on disk. *)
Definition registered_world (current : string) : World :=
  mkWorld {["demo" := demo_metadata current]} (Some {["demo" := demo_metadata current]})
    ∅ example_clock O [].

(** The changelog entry in the words of the interface description: a
    heading line, then the sections "Breaking Changes", "Changes" and
    "Deprecated" in that order, each a bullet list, empty ones left out.
    These definitions are written from the description alone, down to the
    characters of a bullet line: a dash, a space, the item, a newline. *)
Fixpoint bullet_list (items : list string) : string :=
  match items with
  | [] => ""
  | item :: rest => "- " +:+ item +:+ Str.NL +:+ bullet_list rest
  end.

Definition changelog_section (title : string) (items : list string) : string :=
  match items with
  | [] => ""
  | _ => Str.NL +:+ "### " +:+ title +:+ Str.NL +:+ bullet_list items
  end.

Definition changelog_entry (command_name new_version date : string)
    (version_entry : CommandVersion) : string :=
  (Str.NL +:+ "## [" +:+ command_name +:+ "] " +:+ new_version +:+ " - " +:+ date
     +:+ Str.NL)
  +:+ changelog_section "Breaking Changes" (breaking_changes version_entry)
  +:+ changelog_section "Changes" (changes version_entry)
  +:+ changelog_section "Deprecated" (deprecated_features version_entry).

(** What follows a line in a text whose remaining lines are [post]. *)
Definition rest_of_text (post : list string) : string :=
  match post with
  | [] => ""
  | _ => Str.NL +:+ Str.join Str.NL post
  end.

Definition changelog_world (content : string) : World :=
  mkWorld ∅ None {["CHANGELOG.md" := content]} example_clock O [].

Definition demo_entry : CommandVersion :=
  mkCommandVersion "1.1.0" "2024-01-01T00:00:00" ["feature"] ["api"] [].

(** The number of triple-backtick fence markers of a text, told without
    any search: the text is cut into its maximal runs of backticks, and a run
    of [k] backticks holds [k / 3] markers. [run] is the length of the run
    that ends just before the text still to be read. *)
Fixpoint fence_markers_go (run : nat) (s : string) : nat :=
  match s with
  | "" => (run / 3)%nat
  | String c s' =>
      if decide (c = "`"%char) then fence_markers_go (S run) s'
      else (run / 3 + fence_markers_go O s')%nat
  end.

Definition fence_markers (s : string) : nat := fence_markers_go O s.

(** The two findings studied below, recognised by level and
    message. *)
Definition is_unclosed_error (r : ValidationResult) : Prop :=
  level r = ERROR /\ message r = "Unclosed code block detected".

Definition is_task_tool_warning (r : ValidationResult) : Prop :=
  level r = WARNING
  /\ message r = "Workflow should use Task tool for subagent coordination".

(** "Mentions task-delegation mechanics" as the rule is worded: the literal
    phrase together with the word, the latter in any case. *)
Definition mentions_phrase_and_word (text : string) : Prop :=
  Str.contains "Task tool" text = true
  /\ Str.contains "subagent" (Str.lower text) = true.

(** What the code asks for: the phrase or the word. *)
Definition mentions_phrase_or_word (text : string) : Prop :=
  Str.contains "Task tool" text = true
  \/ Str.contains "subagent" (Str.lower text) = true.

(** The findings a rule has added to a validator. *)
Definition added (before after : CommandValidator) (new : list ValidationResult) : Prop :=
  results after = results before ++ new.

(** A command file whose frontmatter carries a quoted version. *)
Definition quoted_version_file : string :=
  "---" +:+ Str.NL +:+ "version: '1.0.0'" +:+ Str.NL +:+ "---" +:+ Str.NL +:+ "# Demo".

Definition quoted_world : World :=
  mkWorld {["demo" := demo_metadata "1.0.0"]} (Some {["demo" := demo_metadata "1.0.0"]})
    {["workflows/demo.md" := quoted_version_file]} example_clock O [].

(** The minimal frontmatter block the rewrite puts in front of a file. *)
Definition version_block (v content : string) : string :=
  "---" +:+ Str.NL +:+ "version: " +:+ v +:+ Str.NL +:+ "---" +:+ Str.NL +:+ content.

Definition digit_or_dot (c : ascii) : bool :=
  Str.is_digit c || bool_decide (c = "."%char).

(** ** More of [tests/test_framework.py] *)

(** [s.lstrip()] *)
Fixpoint lstrip (s : string) : string :=
  match s with
  | "" => ""
  | String c s' => if Str.is_space c then lstrip s' else s
  end.

(** [s.strip()] *)
Definition strip (s : string) : string := Str.rstrip (lstrip s).

(** [s.lstrip(chars)], [s.rstrip(chars)] and [s.strip(chars)] for a set of
    characters given as a string. *)
Definition in_chars (chars : string) (c : ascii) : bool :=
  Str.contains (String c "") chars.

Fixpoint lstrip_chars (chars s : string) : string :=
  match s with
  | "" => ""
  | String c s' => if in_chars chars c then lstrip_chars chars s' else s
  end.

Fixpoint rstrip_chars (chars s : string) : string :=
  match s with
  | "" => ""
  | String c s' =>
      match rstrip_chars chars s' with
      | "" => if in_chars chars c then "" else String c ""
      | r => String c r
      end
  end.

Definition strip_chars (chars s : string) : string :=
  rstrip_chars chars (lstrip_chars chars s).

(** [path.parent] *)
Definition parent (p : string) : string :=
  match Path.rfind_char "/" p with
  | Some O => "/"
  | Some i => Str.take i p
  | None => "."
  end.

(** [self.command_name], set to [command_path.stem] by [__init__] and never
    assigned again. *)
Definition command_name (self : CommandValidator) : string :=
  Path.stem (command_path self).

(** [any(f(x) for x in l)] *)
Definition any {A} (f : A -> bool) (l : list A) : bool := existsb f l.

Definition empty_file_error (file : string) : ValidationResult :=
  mkValidationResult ERROR "Command file is empty" None (Some file).

Definition no_header_warning (file : string) : ValidationResult :=
  mkValidationResult WARNING "Command should have at least one header" None (Some file).

(** [CommandValidator._validate_structure] *)
Definition _validate_structure (self : CommandValidator) : CommandValidator :=
  let self :=
    match strip (content self) with
    | "" => append_result (empty_file_error (command_path self)) self
    | String _ _ => self
    end in
  if negb (any (Str.startswith "#") (lines self))
  then append_result (no_header_warning (command_path self)) self
  else self.

Definition is_lower (c : ascii) : bool :=
  (97 <=? Str.code c) && (Str.code c <=? 122).

(** The class [[a-z0-9-]]. *)
Definition is_name_char (c : ascii) : bool :=
  is_lower c || Str.is_digit c || bool_decide (c = "-"%char).

(** [re.match(r'^[a-z][a-z0-9-]*$', name)] as a truth value. The greedy
    class is followed by the end of the string or by a final newline; giving
    characters back leaves a character of the class in front of [$], which
    cannot match. *)
Definition match_name (name : string) : bool :=
  match name with
  | "" => false
  | String c rest =>
      is_lower c &&
      let '(_, r) := Str.span is_name_char rest in
      bool_decide (r = "") || bool_decide (r = Str.NL)
  end.

Definition naming_error (file name : string) : ValidationResult :=
  mkValidationResult ERROR
    ("Command name '" +:+ name +:+ "' must use lowercase-hyphen format")
    None (Some file).

Definition name_length_warning (file name : string) : ValidationResult :=
  mkValidationResult WARNING
    ("Command name '" +:+ name +:+ "' is longer than 30 characters")
    None (Some file).

(** [CommandValidator._validate_naming] *)
Definition _validate_naming (self : CommandValidator) : CommandValidator :=
  let self :=
    if negb (match_name (command_name self))
    then append_result (naming_error (command_path self) (command_name self)) self
    else self in
  if (30 <? String.length (command_name self))%nat
  then append_result (name_length_warning (command_path self) (command_name self)) self
  else self.

Definition needs_arguments_keywords : list string :=
  ["create"; "generate"; "build"; "implement"; "add"; "modify";
   "analyze"; "review"; "optimize"; "migrate"; "convert"].

Definition placeholder_warning (file : string) : ValidationResult :=
  mkValidationResult WARNING
    "Command likely needs $ARGUMENTS placeholder based on its name" None (Some file).

(** [CommandValidator._validate_placeholders] *)
Definition _validate_placeholders (self : CommandValidator) : CommandValidator :=
  let has_arguments := Str.contains "$ARGUMENTS" (content self) in
  if any (fun keyword => Str.contains keyword (command_name self))
       needs_arguments_keywords
  then if negb has_arguments
       then append_result (placeholder_warning (command_path self)) self
       else self
  else self.

(** The class [[\s`]]. *)
Definition is_ref_delim (c : ascii) : bool :=
  Str.is_space c || bool_decide (c = "`"%char).

(** The part [(/[a-z][a-z0-9-]+)(?:[\s`]|$)] of the reference pattern at the
    start of [s]: the captured group and the number of characters
    consumed. Under [re.MULTILINE], [$] holds at the end of the string and
    in front of a newline; a newline is also in [[\s`]], which is tried
    first and consumes it. A shorter run of the greedy class would leave a
    class character next, where neither alternative matches. *)
Definition ref_at (s : string) : option (string * nat) :=
  match s with
  | String "/" (String c rest) =>
      if is_lower c then
        let '(b, r) := Str.span is_name_char rest in
        match b with
        | "" => None
        | String _ _ =>
            let ref := String "/" (String c b) in
            match r with
            | "" => Some (ref, String.length ref)
            | String d _ =>
                if is_ref_delim d then Some (ref, S (String.length ref)) else None
            end
        end
      else None
  | _ => None
  end.

(** [re.findall(r'(?:^|[\s`])(/[a-z][a-z0-9-]+)(?:[\s`]|$)', s,
    re.MULTILINE)]. [bol] tells whether the current position is the start of
    the string or follows a newline, where [^] holds; [skip] characters of
    the last match are still to be passed over. At each position the
    alternative [^] is tried before [[\s`]]. *)
Fixpoint findall_refs_go (bol : bool) (skip : nat) (s : string) : list string :=
  match s with
  | "" => []
  | String c s' =>
      let bol' := bool_decide (c = Str.nl) in
      match skip with
      | S k => findall_refs_go bol' k s'
      | O =>
          match (if bol then ref_at s else None) with
          | Some (ref, n) => ref :: findall_refs_go bol' (n - 1) s'
          | None =>
              if is_ref_delim c then
                match ref_at s' with
                | Some (ref, n) => ref :: findall_refs_go bol' n s'
                | None => findall_refs_go bol' O s'
                end
              else findall_refs_go bol' O s'
          end
      end
  end.

Definition findall_refs (s : string) : list string := findall_refs_go true O s.

Definition exclude_patterns : list string :=
  ["/localhost"; "/bin"; "/bash"; "/usr"; "/etc"; "/var"; "/tmp";
   "/pre-commit"; "/checkout"; "/upload"; "/download"; "/cli";
   "/setup-node"; "/workflows"; "/tools"; "/actions";
   "/div"; "/span"; "/button"; "/form"; "/label"; "/input";
   "/h1"; "/h2"; "/h3"; "/h4"; "/h5"; "/h6"; "/p"; "/a";
   "/title"; "/head"; "/body"; "/style"; "/script"; "/fieldset";
   "/legend"; "/stopped";
   "/api"; "/auth"; "/user"; "/admin"; "/config"].

(** The test that skips a reference:
    [any(f'/{ref}' in exclude_patterns or ref.startswith(ex.lstrip('/'))
         for ex in exclude_patterns)]. *)
Definition excluded (ref : string) : bool :=
  any (fun ex =>
         bool_decide (("/" +:+ ref) ∈ exclude_patterns)
         || Str.startswith (lstrip_chars "/" ex) ref)
    exclude_patterns.

Definition not_found_warning (file ref : string) : ValidationResult :=
  mkValidationResult WARNING
    ("Referenced command '/" +:+ ref +:+ "' not found") None (Some file).

(** The body of the loop over the references found, for one [ref_match];
    [fs] is the file system the existence tests look at. *)
Definition check_reference (fs : gmap string string) (ref_match : string)
    (self : CommandValidator) : CommandValidator :=
  let base_path := parent (parent (command_path self)) in
  let ref := strip_chars "/ " ref_match in
  if bool_decide (ref = command_name self) then self
  else if excluded ref then self
  else
    let workflow_path := base_path // "workflows" // (ref +:+ ".md") in
    let tool_path := base_path // "tools" // (ref +:+ ".md") in
    if negb (bool_decide (is_Some (fs !! workflow_path)))
       && negb (bool_decide (is_Some (fs !! tool_path)))
    then append_result (not_found_warning (command_path self) ref) self
    else self.

(** [CommandValidator._validate_references] *)
Definition _validate_references (fs : gmap string string) (self : CommandValidator)
  : CommandValidator :=
  let command_refs := findall_refs (content self) in
  foldl (fun s ref_match => check_reference fs ref_match s) self command_refs.

(** The first class of the subagent pattern: the double quote, white
    space, [=] and [:]. *)
Definition is_subagent_sep (c : ascii) : bool :=
  bool_decide (c = "034"%char) || Str.is_space c
  || bool_decide (c = "="%char) || bool_decide (c = ":"%char).

(** The class [[a-z-]]. *)
Definition is_role_char (c : ascii) : bool :=
  is_lower c || bool_decide (c = "-"%char).

(** The subagent pattern at the start of [s]: the literal
    [subagent_type], one or more separators, then the captured group
    [([a-z-]+)]. The result is the group and the length of the match. The
    two greedy classes are disjoint. *)
Definition subagent_ref_at (s : string) : option (string * nat) :=
  if Str.startswith "subagent_type" s then
    let '(sep, r) := Str.span is_subagent_sep (Str.drop 13 s) in
    let '(role, _) := Str.span is_role_char r in
    match sep, role with
    | String _ _, String _ _ =>
        Some (role, (13 + String.length sep + String.length role)%nat)
    | _, _ => None
    end
  else None.

(** [re.findall] with the subagent pattern. *)
Fixpoint findall_subagents_go (skip : nat) (s : string) : list string :=
  match s with
  | "" => []
  | String _ s' =>
      match skip with
      | S k => findall_subagents_go k s'
      | O =>
          match subagent_ref_at s with
          | Some (role, n) => role :: findall_subagents_go (n - 1) s'
          | None => findall_subagents_go O s'
          end
      end
  end.

Definition findall_subagents (s : string) : list string := findall_subagents_go O s.

Definition valid_subagents : gset string :=
  {[ "backend-architect"; "frontend-developer"; "test-automator";
     "deployment-engineer"; "debugger"; "performance-engineer";
     "security-auditor"; "code-reviewer"; "database-optimizer";
     "devops-troubleshooter"; "network-engineer"; "cloud-architect" ]}.

Definition unknown_subagent_warning (file subagent : string) : ValidationResult :=
  mkValidationResult WARNING ("Unknown subagent type: " +:+ subagent) None (Some file).

(** [WorkflowValidator._validate_subagent_references] *)
Definition _validate_subagent_references (self : CommandValidator) : CommandValidator :=
  let subagent_refs := findall_subagents (content self) in
  foldl (fun s subagent =>
           if bool_decide (subagent ∈ valid_subagents) then s
           else append_result (unknown_subagent_warning (command_path self) subagent) s)
    self subagent_refs.

(** [CommandTestSuite.get_exit_code] over [self.results], the findings per
    file. *)
Definition get_exit_code (results : gmap string (list ValidationResult)) : nat :=
  if any (fun kv : string * list ValidationResult =>
            any (fun r => bool_decide (level r = ERROR)) kv.2)
       (map_to_list results)
  then 1%nat else 0%nat.

(** A frontmatter span [pre ++ "version: " ++ v0 ++ post] with one plain
    version line: [pre] is empty or ends a line and has no ["version:"],
    [v0] is a non-empty run of digits and dots that ends where [post]
    begins, [post] has no ["version:"], and the span has no ["---"], so that
    the delimiter after it is the first one. *)
Definition plain_version_line (pre v0 post : string) : Prop :=
  (pre = "" \/ Path.endswith_char Str.nl pre = true)
  /\ Str.contains "version:" pre = false
  /\ v0 <> "" /\ Str.all digit_or_dot v0 = true
  /\ match post with "" => True | String c _ => digit_or_dot c = false end
  /\ Str.contains "version:" post = false
  /\ Str.contains "---" (pre +:+ "version: " +:+ v0 +:+ post +:+ "--") = false.

(** A command file with such a frontmatter. *)
Definition file_with_version (pre v0 post rest : string) : string :=
  "---" +:+ pre +:+ "version: " +:+ v0 +:+ post +:+ "---" +:+ rest.

(** The naming convention in words: a lowercase letter followed by
    lowercase letters, digits and hyphens. *)
Definition lowercase_hyphen (name : string) : Prop :=
  exists c rest, name = String c rest /\ is_lower c = true
                 /\ Str.all is_name_char rest = true.

(** What the reference pattern captures after the slash: a lowercase
    letter followed by one or more letters, digits and hyphens. *)
Definition reference_name (name : string) : Prop :=
  exists c b, name = String c b /\ is_lower c = true /\ b <> ""
              /\ Str.all is_name_char b = true.

Definition not_slash (c : ascii) : bool := negb (bool_decide (c = "/"%char)).

(** The finding for one reference to [name] from the file [path], as the
    loop body decides it. *)
Definition reference_finding (fs : gmap string string) (path name : string)
  : list ValidationResult :=
  if bool_decide (name = Path.stem path) then []
  else if excluded name then []
  else if bool_decide (is_Some (fs !! (parent (parent path) // "workflows"
                                         // (name +:+ ".md"))))
  then []
  else if bool_decide (is_Some (fs !! (parent (parent path) // "tools"
                                         // (name +:+ ".md"))))
  then []
  else [not_found_warning path name].

(** What may stand in front of a reference: nothing, or slash-free text
    that ends with white space or a backtick. *)
Definition reference_lead (lead : string) : Prop :=
  Str.all not_slash lead = true
  /\ (lead = "" \/ exists d, is_ref_delim d = true /\ Path.endswith_char d lead = true).

(** What may follow a lone reference: nothing, or white space or a
    backtick and then slash-free text. *)
Definition reference_trail (after : string) : Prop :=
  match after with
  | "" => True
  | String e after' => is_ref_delim e = true /\ Str.all not_slash after' = true
  end.

(** The characters of the literal [subagent_type]. *)
Definition is_keyword_char (c : ascii) : bool :=
  is_lower c || bool_decide (c = "_"%char).

(** [CommandValidator.validate] where the [yaml] module is not installed
    ([HAS_YAML] is [False]): the sixth step, [_validate_metadata], tests
    [HAS_YAML] first and returns at once, so the findings are those of the
    five rules before it, applied in this order. *)
Definition validate_no_yaml (fs : gmap string string) (self : CommandValidator)
  : CommandValidator :=
  _validate_references fs
    (_validate_markdown
       (_validate_placeholders
          (_validate_naming
             (_validate_structure self)))).

(** [WorkflowValidator.validate] in the same situation. *)
Definition workflow_validate_no_yaml (fs : gmap string string)
    (self : CommandValidator) : CommandValidator :=
  _validate_subagent_references
    (_validate_task_tool_usage
       (validate_no_yaml fs self)).

(** The same document with no findings yet. *)
Definition fresh (self : CommandValidator) : CommandValidator :=
  mkCommandValidator (command_path self) (content self) (lines self) [].

(** A rule that leaves path, content and lines alone and adds to the
    findings what it would report on the document with no findings. *)
Definition appends_only (rule : CommandValidator -> CommandValidator) : Prop :=
  forall self,
    fresh (rule self) = fresh self
    /\ results (rule self) = results self ++ results (rule (fresh self)).

(** A decimal numeral as [str] prints a number: one or more digits, and no
    zero in front unless the numeral is ["0"] itself. *)
Definition canonical_numeral (s : string) : Prop :=
  is_digits s /\ (s = "0" \/ Str.startswith "0" s = false).

(** A repository in which [demo], registered at 1.0.0, has a file under
    [workflows] whose frontmatter carries the version, and a file of the
    same name under [tools]. *)
Definition versioned_world : World :=
  mkWorld {["demo" := demo_metadata "1.0.0"]} (Some {["demo" := demo_metadata "1.0.0"]})
    {["workflows/demo.md" :=
        "---" +:+ Str.NL +:+ "version: 1.0.0" +:+ Str.NL +:+ "---" +:+ Str.NL +:+ "# Demo";
      "tools/demo.md" := "# Tool"]}
    example_clock O [].
(** * Properties *)

(** ** Strings *)

Section StringFacts.

Implicit Types (s t u p : string) (c : ascii).

Lemma sapp_nil_l s : "" +:+ s = s.
Proof. reflexivity. Qed.

Lemma sapp_cons c s t : String c s +:+ t = String c (s +:+ t).
Proof. reflexivity. Qed.

Lemma sapp_nil_r s : s +:+ "" = s.
Proof. induction s as [|c s IH]; [done|]. by rewrite sapp_cons, IH. Qed.

Lemma sapp_assoc s t u : (s +:+ t) +:+ u = s +:+ (t +:+ u).
Proof. induction s as [|c s IH]; [done|]. by rewrite !sapp_cons, IH. Qed.

Lemma slength_app s t :
  String.length (s +:+ t) = (String.length s + String.length t)%nat.
Proof. induction s as [|c s IH]; [done|]. rewrite sapp_cons. simpl. by rewrite IH. Qed.

Lemma startswith_app p s : Str.startswith p (p +:+ s) = true.
Proof.
  induction p as [|c p IH]; [done|].
  rewrite sapp_cons. simpl. by rewrite decide_True.
Qed.

Lemma all_app f s t : Str.all f (s +:+ t) = Str.all f s && Str.all f t.
Proof.
  induction s as [|c s IH]; [done|].
  rewrite sapp_cons. simpl. rewrite IH. by destruct (f c).
Qed.

(** A greedy class stops at the first character outside it. *)
Lemma span_app_stop f s c t :
  Str.all f s = true -> f c = false ->
  Str.span f (s +:+ String c t) = (s, String c t).
Proof.
  intros Hs Hc. induction s as [|a s IH].
  - rewrite sapp_nil_l. simpl. by rewrite Hc.
  - simpl in Hs. apply andb_true_iff in Hs as [Ha Hs].
    rewrite sapp_cons. simpl. rewrite Ha, (IH Hs). done.
Qed.

Lemma span_all f s : Str.all f s = true -> Str.span f s = (s, "").
Proof.
  induction s as [|a s IH]; [done|]. simpl.
  intros [Ha Hs]%andb_true_iff. by rewrite Ha, (IH Hs).
Qed.

(** What [span] returns, in general. *)
Lemma span_spec f s a r :
  Str.span f s = (a, r) ->
  s = a +:+ r /\ Str.all f a = true /\
  match r with String c _ => f c = false | "" => True end.
Proof.
  revert a r. induction s as [|c s IH]; intros a r.
  - simpl. intros [= <- <-]. done.
  - simpl. destruct (f c) eqn:Hc.
    + destruct (Str.span f s) as [a' r'] eqn:Hs. intros [= <- <-].
      destruct (IH _ _ eq_refl) as (-> & Ha & Hr).
      rewrite sapp_cons. simpl. by rewrite Hc, Ha.
    + intros [= <- <-]. rewrite sapp_nil_l. done.
Qed.

End StringFacts.

(** ** Decimal numerals *)

Lemma int_go_snoc acc s c :
  int_go acc (s +:+ String c "") = 10 * int_go acc s + Str.digit_val c.
Proof.
  revert acc. induction s as [|a s IH]; intros acc; [done|].
  rewrite sapp_cons. simpl. by rewrite IH.
Qed.

Lemma pretty_N_char_digit x :
  x < 10 ->
  Str.is_digit (pretty_N_char x) = true /\ Str.digit_val (pretty_N_char x) = x.
Proof.
  intros Hx.
  assert (x = 0 \/ x = 1 \/ x = 2 \/ x = 3 \/ x = 4 \/ x = 5 \/ x = 6
          \/ x = 7 \/ x = 8 \/ x = 9) as Hc by lia.
  repeat destruct Hc as [-> | Hc]; try subst x; by vm_compute.
Qed.

(** The digits [pretty_N_go] puts in front of its accumulator. *)
Lemma pretty_N_go_digits x :
  exists ds, (forall s, pretty_N_go x s = ds +:+ s)
             /\ Str.all Str.is_digit ds = true
             /\ int ds = x
             /\ (0 < x -> ds <> "").
Proof.
  induction x as [x IH] using (well_founded_induction N.lt_wf_0).
  destruct (decide (x = 0)) as [-> | Hx].
  - exists "". split; [intros s; by rewrite pretty_N_go_0|].
    split; [done|]. split; [done|]. lia.
  - assert (0 < x) as Hpos by lia.
    destruct (IH (x `div` 10)) as (ds & Hgo & Hall & Hint & _).
    { apply N.div_lt; lia. }
    destruct (pretty_N_char_digit (x `mod` 10)) as [Hd Hv].
    { apply N.mod_lt. lia. }
    exists (ds +:+ String (pretty_N_char (x `mod` 10)) "").
    split; [|split; [|split]].
    + intros s. rewrite pretty_N_go_step by done. rewrite Hgo. by rewrite sapp_assoc.
    + rewrite all_app, Hall. simpl. by rewrite Hd.
    + unfold int in *. rewrite int_go_snoc, Hint, Hv.
      symmetry. apply N.div_mod. lia.
    + intros _. by destruct ds.
Qed.

Lemma pretty_N_digits (x : N) :
  Str.all Str.is_digit (pretty x) = true /\ int (pretty x) = x /\ pretty x <> "".
Proof.
  unfold pretty, pretty_N. destruct (decide (x = 0)) as [-> | Hx]; [done|].
  destruct (pretty_N_go_digits x) as (ds & Hgo & Hall & Hint & Hne).
  rewrite Hgo, sapp_nil_r. split; [done|]. split; [done|]. apply Hne. lia.
Qed.

(** ** Version strings *)

Lemma match_version_digits a b c :
  is_digits a -> is_digits b -> is_digits c ->
  match_version (a +:+ "." +:+ b +:+ "." +:+ c) = Some (a, b, c).
Proof.
  intros [Ha1 Ha2] [Hb1 Hb2] [Hc1 Hc2]. unfold match_version.
  rewrite !(sapp_cons "." ""), !sapp_nil_l.
  rewrite (span_app_stop _ a) by done.
  destruct a as [|a0 a]; [done|].
  rewrite (span_app_stop _ b) by done.
  destruct b as [|b0 b]; [done|].
  rewrite (span_all _ c) by done.
  destruct c as [|c0 c]; [done|]. done.
Qed.

(** Every well-formed version string is accepted, and read as its three
    numbers. *)
Lemma _parse_version_digits a b c :
  is_digits a -> is_digits b -> is_digits c ->
  _parse_version (a +:+ "." +:+ b +:+ "." +:+ c) = Ok (int a, int b, int c).
Proof.
  intros Ha Hb Hc. unfold _parse_version.
  by rewrite match_version_digits.
Qed.

Lemma is_digits_pretty (x : N) : is_digits (pretty x).
Proof. destruct (pretty_N_digits x) as (? & ? & ?). by split. Qed.

(** Printing three numbers and parsing the result gives them back. *)
Lemma _parse_version_pretty (a b c : N) :
  _parse_version (pretty a +:+ "." +:+ pretty b +:+ "." +:+ pretty c) = Ok (a, b, c).
Proof.
  rewrite _parse_version_digits by apply is_digits_pretty.
  destruct (pretty_N_digits a) as (_ & -> & _).
  destruct (pretty_N_digits b) as (_ & -> & _).
  destruct (pretty_N_digits c) as (_ & -> & _). done.
Qed.

(** What the parser accepts: a well-formed version string, possibly
    followed by one final newline (the [$] of the pattern matches before
    it). *)
Lemma match_version_accepts v a b c :
  match_version v = Some (a, b, c) ->
  is_digits a /\ is_digits b /\ is_digits c /\
  (v = a +:+ "." +:+ b +:+ "." +:+ c \/ v = a +:+ "." +:+ b +:+ "." +:+ c +:+ Str.NL).
Proof.
  unfold match_version.
  destruct (Str.span Str.is_digit v) as [a' r1] eqn:H1.
  destruct a' as [|a0 a']; [done|].
  destruct r1 as [|d1 r1]; [done|].
  destruct (decide (d1 = "."%char)) as [-> | Hd1]; cycle 1.
  { destruct d1 as [[] [] [] [] [] [] [] []]; done. }
  destruct (Str.span Str.is_digit r1) as [b' r2] eqn:H2.
  destruct b' as [|b0 b']; [done|].
  destruct r2 as [|d2 r2]; [done|].
  destruct (decide (d2 = "."%char)) as [-> | Hd2]; cycle 1.
  { destruct d2 as [[] [] [] [] [] [] [] []]; done. }
  destruct (Str.span Str.is_digit r2) as [c' r3] eqn:H3.
  destruct c' as [|c0 c']; [done|].
  apply span_spec in H1 as (-> & Ha & _).
  apply span_spec in H2 as (-> & Hb & _).
  apply span_spec in H3 as (-> & Hc & _).
  rewrite !(sapp_cons "." ""), !sapp_nil_l.
  repeat case_decide; intros [= <- <- <-]; subst r3;
    (split; [by split|]); (split; [by split|]); (split; [by split|]).
  - left. by rewrite sapp_nil_r.
  - right. done.
Qed.

Lemma match_version_trailing_newline a b c :
  is_digits a -> is_digits b -> is_digits c ->
  match_version ((a +:+ "." +:+ b +:+ "." +:+ c) +:+ Str.NL) = Some (a, b, c).
Proof.
  intros [Ha1 Ha2] [Hb1 Hb2] [Hc1 Hc2]. unfold match_version.
  rewrite !sapp_assoc, !(sapp_cons "." ""), !sapp_nil_l.
  rewrite (span_app_stop _ a) by done.
  destruct a as [|a0 a]; [done|].
  rewrite (span_app_stop _ b) by done.
  destruct b as [|b0 b]; [done|].
  rewrite (span_app_stop _ c Str.nl "") by done.
  destruct c as [|c0 c]; [done|]. done.
Qed.

(** The parser rejects exactly the strings that are not a well-formed
    version, with or without one final newline. *)
Lemma match_version_None_iff v :
  match_version v = None
  <-> ~ exists v', Is_version v' /\ (v = v' \/ v = v' +:+ Str.NL).
Proof.
  split.
  - intros H (v' & (a & b & c & Ha & Hb & Hc & ->) & [-> | ->]).
    + by rewrite match_version_digits in H.
    + by rewrite match_version_trailing_newline in H.
  - intros H. destruct (match_version v) as [[[a b] c]|] eqn:Hm; [|done].
    destruct H. apply match_version_accepts in Hm as (Ha & Hb & Hc & Hv).
    exists (a +:+ "." +:+ b +:+ "." +:+ c). split; [by exists a, b, c|].
    destruct Hv as [-> | ->]; [by left|right].
    by rewrite !sapp_assoc.
Qed.

Example _parse_version_examples :
  _parse_version "1.2.3" = Ok (1, 2, 3)
  /\ _parse_version "01.002.3" = Ok (1, 2, 3)
  /\ _parse_version ("1.2.3" +:+ Str.NL) = Ok (1, 2, 3)
  /\ _parse_version "1.2" = Raise (ValueError "Invalid version format: 1.2")
  /\ _parse_version "1.2.3-beta"
     = Raise (ValueError "Invalid version format: 1.2.3-beta")
  /\ _parse_version "v1.2.3" = Raise (ValueError "Invalid version format: v1.2.3").
Proof. repeat split; reflexivity. Qed.

Lemma tuple_ge_lex a b : tuple_ge a b = true <-> lex_ge a b.
Proof.
  destruct a as [[a1 a2] a3], b as [[b1 b2] b3]. unfold tuple_ge, lex_ge.
  destruct (N.eqb_spec a1 b1), (N.eqb_spec a2 b2); simpl;
    rewrite ?N.ltb_lt, ?N.leb_le; lia.
Qed.

Lemma componentwise_ge_lex a b : componentwise_ge a b -> lex_ge a b.
Proof.
  destruct a as [[a1 a2] a3], b as [[b1 b2] b3]. unfold componentwise_ge, lex_ge. lia.
Qed.

Lemma Is_version_parse v :
  Is_version v -> exists t, _parse_version v = Ok t.
Proof.
  intros (a & b & c & Ha & Hb & Hc & ->). eexists. by apply _parse_version_digits.
Qed.

(** The increments of a version that parses. *)
Lemma _increment_version_parsed v major minor patch change_type :
  _parse_version v = Ok (major, minor, patch) ->
  _increment_version v change_type =
  Ok match change_type with
     | MAJOR => pretty (major + 1) +:+ ".0.0"
     | MINOR => pretty major +:+ "." +:+ pretty (minor + 1) +:+ ".0"
     | PATCH => pretty major +:+ "." +:+ pretty minor +:+ "." +:+ pretty (patch + 1)
     end.
Proof. intros H. unfold _increment_version. rewrite H. by destruct change_type. Qed.

Lemma _increment_version_bump v t change_type :
  _parse_version v = Ok t ->
  exists v', _increment_version v change_type = Ok v'
             /\ _parse_version v' = Ok (bump t change_type).
Proof.
  destruct t as [[major minor] patch]. intros H.
  rewrite (_increment_version_parsed _ _ _ _ _ H). eexists; split; [done|].
  destruct change_type; simpl.
  - apply (_parse_version_pretty (major + 1) 0 0).
  - apply (_parse_version_pretty major (minor + 1) 0).
  - apply _parse_version_pretty.
Qed.

Lemma bump_ge t change_type : tuple_ge (bump t change_type) t = true.
Proof.
  apply tuple_ge_lex. destruct t as [[major minor] patch].
  destruct change_type; simpl; lia.
Qed.

(** C2. For a version string [a.b.c] made of three non-empty digit groups,
    with [major], [minor], [patch] the numbers they denote, the increment is
    [(major+1).0.0] for a major change, [major.(minor+1).0] for a minor
    change and [major.minor.(patch+1)] for a patch change, printed in
    decimal. *)
Theorem increment_version_rules a b c :
  is_digits a -> is_digits b -> is_digits c ->
  let v := a +:+ "." +:+ b +:+ "." +:+ c in
  _increment_version v MAJOR = Ok (pretty (int a + 1) +:+ ".0.0")
  /\ _increment_version v MINOR
     = Ok (pretty (int a) +:+ "." +:+ pretty (int b + 1) +:+ ".0")
  /\ _increment_version v PATCH
     = Ok (pretty (int a) +:+ "." +:+ pretty (int b) +:+ "." +:+ pretty (int c + 1)).
Proof.
  intros Ha Hb Hc v.
  pose proof (_parse_version_digits a b c Ha Hb Hc) as Hp.
  repeat split; by rewrite (_increment_version_parsed _ _ _ _ _ Hp).
Qed.

Lemma is_digits_compute s :
  negb (String.eqb s "") && Str.all Str.is_digit s = true -> is_digits s.
Proof.
  intros [Hne Hall]%andb_true_iff. split; [|done].
  intros ->. done.
Qed.

(** The increments of 1.2.3 and of 0.0.0. *)
Lemma increment_version_rules_witness :
  (_increment_version "1.2.3" MAJOR = Ok "2.0.0"
   /\ _increment_version "1.2.3" MINOR = Ok "1.3.0"
   /\ _increment_version "1.2.3" PATCH = Ok "1.2.4")
  /\ _increment_version "0.0.0" PATCH = Ok "0.0.1".
Proof.
  split.
  - apply (increment_version_rules "1" "2" "3"); by apply is_digits_compute.
  - apply (increment_version_rules "0" "0" "0"); by apply is_digits_compute.
Defined.

(** ** Running the monad *)

Ltac run :=
  cbv [mbind M_bind mret M_ret raise get modify print now exists_
       read_text write_text _save_metadata] in *; simpl in *.

Section Runs.

Variable repo_path : string.

Lemma _find_command_file_run command_name w :
  _find_command_file repo_path command_name w
  = (w, Ok (command_file_of repo_path command_name (files w))).
Proof.
  unfold _find_command_file, command_file_of. run.
  repeat case_bool_decide; done.
Qed.

Lemma command_file_of_exists command_name fs p :
  command_file_of repo_path command_name fs = Some p -> is_Some (fs !! p).
Proof.
  unfold command_file_of. repeat case_bool_decide; naive_solver.
Qed.

Lemma _update_command_file_run p v w content :
  files w !! p = Some content ->
  _update_command_file p v w
  = (set_files (<[p := new_content content v]> (files w)) w, Ok tt).
Proof. intros H. unfold _update_command_file. run. by rewrite H. Qed.

Lemma _update_command_file_missing p v w :
  files w !! p = None ->
  _update_command_file p v w = (w, Raise (FileNotFoundError p)).
Proof. intros H. unfold _update_command_file. run. by rewrite H. Qed.

Lemma _update_changelog_run command_name old_version new_version version_entry w :
  _update_changelog repo_path command_name old_version new_version version_entry w
  = (mkWorld (metadata w) (store_file w)
       (<[changelog_path repo_path :=
            changelog_text (files w !! changelog_path repo_path)
              (Str.concat (entry_lines command_name new_version
                             (strftime_Ymd (clock w (ticks w))) version_entry))]>
          (files w))
       (clock w) (S (ticks w)) (stdout w),
     Ok tt).
Proof.
  unfold _update_changelog. run.
  destruct (files w !! changelog_path repo_path) eqn:H; simpl.
  - by rewrite H.
  - done.
Qed.


Lemma update_version_run command_name change_type changes breaking deprecated
    w md new_version :
  metadata w !! command_name = Some md ->
  _increment_version (current_version md) change_type = Ok new_version ->
  update_version repo_path command_name change_type changes breaking deprecated w
  = (world_after_update repo_path command_name md new_version changes breaking deprecated w,
     Ok tt).
Proof.
  intros Hmd Hinc. unfold update_version, world_after_update.
  cbv [mbind M_bind get]. rewrite Hmd, Hinc.
  cbv [mbind M_bind now modify _save_metadata]. simpl.
  rewrite _find_command_file_run. simpl.
  destruct (command_file_of repo_path command_name (files w)) as [p|] eqn:Hp.
  - destruct (command_file_of_exists _ _ _ Hp) as [content Hc].
    erewrite _update_command_file_run by (simpl; exact Hc).
    cbv [print modify]. simpl. rewrite _update_changelog_run. simpl.
    by rewrite Hc.
  - cbv [mret M_ret print modify]. simpl. by rewrite _update_changelog_run.
Qed.

Lemma update_version_unregistered command_name change_type changes breaking
    deprecated w :
  metadata w !! command_name = None ->
  update_version repo_path command_name change_type changes breaking deprecated w
  = (w, Raise (ValueError ("Command " +:+ command_name +:+ " not found in metadata"))).
Proof. intros H. unfold update_version. run. by rewrite H. Qed.

Lemma update_version_bad_version command_name change_type changes breaking
    deprecated w md :
  metadata w !! command_name = Some md ->
  match_version (current_version md) = None ->
  update_version repo_path command_name change_type changes breaking deprecated w
  = (w, Raise (ValueError ("Invalid version format: " +:+ current_version md))).
Proof.
  intros H Hv. unfold update_version. run. rewrite H.
  unfold _increment_version, _parse_version. by rewrite Hv.
Qed.

(** A raising [update_version] has changed nothing, and it raises only
    for an unregistered command or a stored version the parser rejects. *)
Lemma update_version_raise_inv command_name change_type changes breaking
    deprecated w w' e :
  update_version repo_path command_name change_type changes breaking deprecated w
  = (w', Raise e) ->
  w' = w /\
  (metadata w !! command_name = None
   \/ exists md, metadata w !! command_name = Some md
                 /\ match_version (current_version md) = None).
Proof.
  destruct (metadata w !! command_name) as [md|] eqn:Hmd.
  - destruct (match_version (current_version md)) as [[[a b] c]|] eqn:Hv.
    + assert (exists v', _increment_version (current_version md) change_type = Ok v')
        as [v' Hinc].
      { unfold _increment_version, _parse_version. rewrite Hv.
        destruct change_type; eauto. }
      rewrite (update_version_run _ _ _ _ _ _ _ _ Hmd Hinc). done.
    + rewrite (update_version_bad_version _ _ _ _ _ _ _ Hmd Hv).
      intros [= <- _]. split; [done|]. right. eauto.
  - rewrite update_version_unregistered by done.
    intros [= <- _]. auto.
Qed.

End Runs.

(** ** [initialize_command] *)

Section Initialize.

Lemma initialize_command_registered command_path description tags dependencies w :
  is_Some (metadata w !! Path.stem command_path) ->
  initialize_command command_path description tags dependencies w
  = (set_stdout
       (stdout w ++ ["Command " +:+ Path.stem command_path +:+ " already initialized"])
       w,
     Ok tt).
Proof.
  intros H. unfold initialize_command. cbv [mbind M_bind get].
  rewrite bool_decide_eq_true_2 by done. done.
Qed.

(** On a new command the registration and the save come first; the
    command file is read afterwards, and a missing file raises with the
    registration already in place. *)
Lemma initialize_command_fresh command_path description tags dependencies w :
  metadata w !! Path.stem command_path = None ->
  initialize_command command_path description tags dependencies w
  = let w1 := world_after_register command_path description tags dependencies w in
    match files w !! command_path with
    | Some content =>
        (set_stdout
           (stdout w ++ ["Initialized " +:+ Path.stem command_path
                           +:+ " at version 1.0.0"])
           (set_files (<[command_path := new_content content "1.0.0"]> (files w)) w1),
         Ok tt)
    | None => (w1, Raise (FileNotFoundError command_path))
    end.
Proof.
  intros H. unfold initialize_command. cbv [mbind M_bind get].
  rewrite bool_decide_eq_false_2 by (rewrite H; intros [? ?]; done).
  cbv [mbind M_bind now modify _save_metadata]. simpl.
  destruct (files w !! command_path) as [content|] eqn:Hc.
  - erewrite _update_command_file_run by (simpl; exact Hc). done.
  - erewrite _update_command_file_missing by (simpl; exact Hc). done.
Qed.

(** Whatever the outcome, the command is registered afterwards. *)
Lemma initialize_command_registers command_path description tags dependencies w :
  is_Some (metadata
             (initialize_command command_path description tags
                dependencies w).1
           !! Path.stem command_path).
Proof.
  destruct (metadata w !! Path.stem command_path) as [md|] eqn:H.
  - rewrite initialize_command_registered by eauto. simpl. eauto.
  - rewrite initialize_command_fresh by done. simpl.
    destruct (files w !! command_path); simpl; rewrite lookup_insert_eq; eauto.
Qed.

(** A new command starts at version 1.0.0 with a one-entry history. *)
Lemma initialize_command_fresh_metadata command_path description tags
    dependencies w :
  metadata w !! Path.stem command_path = None ->
  exists md released_at,
    metadata (initialize_command command_path description tags dependencies w).1
      !! Path.stem command_path = Some md
    /\ current_version md = "1.0.0"
    /\ version_history md
       = [mkCommandVersion "1.0.0" released_at ["Initial release"] [] []].
Proof.
  intros H. rewrite initialize_command_fresh by done. simpl.
  eexists _, _. split.
  - destruct (files w !! command_path); simpl; apply lookup_insert_eq.
  - done.
Qed.

(** Initialising twice: the second call only prints its notice. *)
Lemma initialize_command_twice command_path description tags dependencies
    description' tags' dependencies' w :
  let w1 :=
    (initialize_command command_path description tags dependencies w).1 in
  let r2 :=
    initialize_command command_path description' tags' dependencies' w1 in
  r2.2 = Ok tt /\ metadata r2.1 = metadata w1 /\ store_file r2.1 = store_file w1
  /\ files r2.1 = files w1.
Proof.
  intros w1 r2. subst r2.
  rewrite initialize_command_registered
    by apply initialize_command_registers.
  done.
Qed.

(** C5. When the command is already present in the metadata mapping,
    [initialize_command] raises nothing and changes nothing but the
    output: it prints the notice, and the mapping, the persisted store and
    every file are as before. *)
Theorem initialize_command_idempotent command_path description tags dependencies w :
  is_Some (metadata w !! Path.stem command_path) ->
  exists w',
    initialize_command command_path description tags dependencies w
    = (w', Ok tt)
    /\ metadata w' = metadata w
    /\ store_file w' = store_file w
    /\ files w' = files w
    /\ stdout w' = stdout w ++ ["Command " +:+ Path.stem command_path
                                  +:+ " already initialized"].
Proof.
  intros H. eexists. rewrite initialize_command_registered by done. done.
Qed.

End Initialize.

(** ** [update_version] *)

Section Update.

Variable repo_path : string.

(** C3. A call of [update_version] for a command that is not registered,
    or whose stored current version the pattern [^(\d+)\.(\d+)\.(\d+)$]
    rejects, raises [ValueError] and returns the world it was given: the
    mapping, the persisted store, every file (command file and changelog
    among them) and the output are untouched. *)
Theorem update_version_failure_atomic command_name change_type changes breaking
    deprecated w :
  (metadata w !! command_name = None
   \/ exists md, metadata w !! command_name = Some md
                 /\ match_version (current_version md) = None) ->
  exists msg,
    update_version repo_path command_name change_type changes breaking deprecated w
    = (w, Raise (ValueError msg)).
Proof.
  intros [H | (md & H & Hv)].
  - rewrite update_version_unregistered by done. eauto.
  - rewrite (update_version_bad_version _ _ _ _ _ _ _ _ H Hv). eauto.
Qed.

End Update.

(** ** Sequences of updates *)

Section History.

Variable repo_path : string.

(** One update from a registered command with a parsable version. *)
Lemma update_version_step command_name change_type change_list breaking
    deprecated w md t :
  metadata w !! command_name = Some md ->
  _parse_version (current_version md) = Ok t ->
  exists w' md',
    update_version repo_path command_name change_type change_list breaking
      deprecated w = (w', Ok tt)
    /\ metadata w' !! command_name = Some md'
    /\ _parse_version (current_version md') = Ok (bump t change_type)
    /\ length (version_history md') = S (length (version_history md))
    /\ version <$> last (version_history md') = Some (current_version md').
Proof.
  intros Hmd Ht.
  destruct (_increment_version_bump _ _ change_type Ht) as (v' & Hinc & Hv').
  eexists _, _. rewrite (update_version_run _ _ _ _ _ _ _ _ _ Hmd Hinc).
  split; [done|]. unfold world_after_update. simpl.
  rewrite lookup_insert_eq. split; [done|]. simpl.
  split; [done|]. rewrite length_app, last_snoc. simpl. split; [lia|done].
Qed.

(** The invariant carried along a sequence of successful updates. *)
Lemma updated_invariant command_name n w1 w md1 t1 :
  metadata w1 !! command_name = Some md1 ->
  _parse_version (current_version md1) = Ok t1 ->
  version <$> last (version_history md1) = Some (current_version md1) ->
  updated repo_path command_name n w1 w ->
  exists md t,
    metadata w !! command_name = Some md
    /\ _parse_version (current_version md) = Ok t
    /\ length (version_history md) = (length (version_history md1) + n)%nat
    /\ version <$> last (version_history md) = Some (current_version md)
    /\ tuple_ge t t1 = true.
Proof.
  intros Hmd1 Ht1 Hl1 Hup.
  induction Hup as [w | n w w1 w2 ct ch bc dep _ IH Hstep].
  - exists md1, t1. split; [done|]. split; [done|]. split; [lia|]. split; [done|].
    apply tuple_ge_lex. destruct t1 as [[? ?] ?]. simpl. lia.
  - destruct (IH Hmd1) as (md & t & Hmd & Ht & Hlen & Hlast & Hge).
    destruct (update_version_step command_name ct ch bc dep w1 md t Hmd Ht)
      as (w' & md' & Hrun & Hmd' & Ht' & Hlen' & Hlast').
    rewrite Hrun in Hstep. injection Hstep as <-.
    exists md', (bump t ct).
    split; [done|]. split; [done|]. split; [lia|]. split; [done|].
    apply tuple_ge_lex. pose proof (bump_ge t ct) as Hb.
    apply tuple_ge_lex in Hb, Hge.
    destruct t as [[? ?] ?], t1 as [[? ?] ?], (bump _ ct) as [[? ?] ?].
    simpl in *. lia.
Qed.

(** C4. Take a command that is not registered, initialise it, and let [n]
    successful [update_version] calls follow. Then the command's history
    has [n + 1] entries and its current version is the version of the last
    entry. Moreover a further update always succeeds, adds exactly one
    entry, and leads to a current version that is not smaller (as a tuple
    of numbers) than the one before. *)
Theorem history_after_updates command_path description tags dependencies w0 n w :
  metadata w0 !! Path.stem command_path = None ->
  updated repo_path (Path.stem command_path) n
    (initialize_command command_path description tags dependencies w0).1 w ->
  exists md t,
    metadata w !! Path.stem command_path = Some md
    /\ length (version_history md) = (n + 1)%nat
    /\ version <$> last (version_history md) = Some (current_version md)
    /\ _parse_version (current_version md) = Ok t
    /\ forall change_type change_list breaking deprecated,
         exists w' md' t',
           update_version repo_path (Path.stem command_path) change_type
             change_list breaking deprecated w = (w', Ok tt)
           /\ metadata w' !! Path.stem command_path = Some md'
           /\ length (version_history md') = S (length (version_history md))
           /\ version <$> last (version_history md') = Some (current_version md')
           /\ _parse_version (current_version md') = Ok t'
           /\ tuple_ge t' t = true.
Proof.
  intros Hfresh Hup.
  destruct (initialize_command_fresh_metadata command_path description tags
              dependencies w0 Hfresh) as (md1 & e1 & Hmd1 & Hcur & Hhist).
  destruct (updated_invariant _ n _ w md1 (1, 0, 0) Hmd1) as
    (md & t & Hmd & Ht & Hlen & Hlast & _); [by rewrite Hcur| |done|].
  { rewrite Hhist, Hcur. done. }
  rewrite Hhist in Hlen. simpl in Hlen.
  exists md, t. split; [done|]. split; [lia|]. split; [done|]. split; [done|].
  intros ct ch bc dep.
  destruct (update_version_step (Path.stem command_path) ct ch bc dep w md t Hmd Ht)
    as (w' & md' & Hrun & Hmd' & Ht' & Hlen' & Hlast').
  exists w', md', (bump t ct). repeat split; try done. apply bump_ge.
Qed.

End History.

(** ** [check_compatibility] *)

Lemma check_compatibility_unregistered command_name required_version w :
  metadata w !! command_name = None ->
  check_compatibility command_name required_version w = (w, Ok false).
Proof. intros H. unfold check_compatibility. run. by rewrite H. Qed.

Lemma check_compatibility_parsed command_name required_version w md t1 t2 :
  metadata w !! command_name = Some md ->
  _parse_version (current_version md) = Ok t1 ->
  _parse_version required_version = Ok t2 ->
  check_compatibility command_name required_version w = (w, Ok (tuple_ge t1 t2)).
Proof.
  intros H H1 H2. unfold check_compatibility. run. by rewrite H, H1, H2.
Qed.

(** When every component is at least the required one, the answer is
    [True]. *)
Lemma check_compatibility_componentwise command_name required_version w md t1 t2 :
  metadata w !! command_name = Some md ->
  _parse_version (current_version md) = Ok t1 ->
  _parse_version required_version = Ok t2 ->
  componentwise_ge t1 t2 ->
  check_compatibility command_name required_version w = (w, Ok true).
Proof.
  intros H H1 H2 Hge. rewrite (check_compatibility_parsed _ _ _ _ _ _ H H1 H2).
  by apply componentwise_ge_lex, tuple_ge_lex in Hge as ->.
Qed.

(** C1, as amended. For a registered command whose current version [v1] and
    a required version [v2] that are both well formed, [check_compatibility]
    returns [True] exactly when the triple of [v1] is lexicographically
    greater than or equal to the triple of [v2], and [False] otherwise; the
    world is left as it was. For a command that is not registered it returns
    [False]. *)
Theorem check_compatibility_lexicographic command_name required_version w :
  (metadata w !! command_name = None ->
   check_compatibility command_name required_version w = (w, Ok false))
  /\ (forall md,
        metadata w !! command_name = Some md ->
        Is_version (current_version md) ->
        Is_version required_version ->
        exists t1 t2 answer,
          _parse_version (current_version md) = Ok t1
          /\ _parse_version required_version = Ok t2
          /\ check_compatibility command_name required_version w = (w, Ok answer)
          /\ (answer = true <-> lex_ge t1 t2)
          /\ (answer = false <-> ~ lex_ge t1 t2)).
Proof.
  split; [apply check_compatibility_unregistered|].
  intros md Hmd [t1 H1]%Is_version_parse [t2 H2]%Is_version_parse.
  exists t1, t2, (tuple_ge t1 t2).
  rewrite (check_compatibility_parsed _ _ _ _ _ _ Hmd H1 H2).
  pose proof (tuple_ge_lex t1 t2) as Hlex.
  repeat split; try tauto.
  - intros Hf Hge. apply Hlex in Hge. congruence.
  - intros Hn. destruct (tuple_ge t1 t2); [|done]. tauto.
Qed.

Lemma Is_version_compute a b c :
  negb (String.eqb a "") && Str.all Str.is_digit a = true ->
  negb (String.eqb b "") && Str.all Str.is_digit b = true ->
  negb (String.eqb c "") && Str.all Str.is_digit c = true ->
  Is_version (a +:+ "." +:+ b +:+ "." +:+ c).
Proof. intros Ha Hb Hc. exists a, b, c. auto using is_digits_compute. Qed.

(** A store with [demo] at 2.0.0: an unknown name is rejected, and 1.5.0 is
    satisfied. *)
Lemma check_compatibility_lexicographic_witness :
  check_compatibility "ghost" "1.0.0" (registered_world "2.0.0")
  = (registered_world "2.0.0", Ok false)
  /\ exists t1 t2 answer,
       _parse_version "2.0.0" = Ok t1
       /\ _parse_version "1.5.0" = Ok t2
       /\ check_compatibility "demo" "1.5.0" (registered_world "2.0.0")
          = (registered_world "2.0.0", Ok answer)
       /\ (answer = true <-> lex_ge t1 t2)
       /\ (answer = false <-> ~ lex_ge t1 t2).
Proof.
  split.
  - apply (check_compatibility_lexicographic "ghost" "1.0.0" (registered_world "2.0.0")).
    reflexivity.
  - apply (proj2 (check_compatibility_lexicographic "demo" "1.5.0"
                    (registered_world "2.0.0")) (demo_metadata "2.0.0")).
    + reflexivity.
    + by apply (Is_version_compute "2" "0" "0").
    + by apply (Is_version_compute "1" "5" "0").
Defined.

(** C1, the claim as worded fails: 2.0.0 is not component-wise at least
    1.5.0 (its minor component is smaller), and yet the check answers
    [True]. *)
Lemma check_compatibility_not_componentwise :
  _parse_version "2.0.0" = Ok (2, 0, 0)
  /\ _parse_version "1.5.0" = Ok (1, 5, 0)
  /\ ~ componentwise_ge (2, 0, 0) (1, 5, 0)
  /\ check_compatibility "demo" "1.5.0" (registered_world "2.0.0")
     = (registered_world "2.0.0", Ok true).
Proof.
  split; [reflexivity|]. split; [reflexivity|]. split; [|reflexivity].
  unfold componentwise_ge. lia.
Qed.

(** ** Concrete runs *)

(** Updating an unknown command, and a command whose stored version is
    [1.0]. *)
Lemma update_version_failure_atomic_witness :
  (exists msg,
     update_version "." "ghost" PATCH ["fix"] None None demo_world
     = (demo_world, Raise (ValueError msg)))
  /\ (exists msg,
        update_version "." "demo" PATCH ["fix"] None None (registered_world "1.0")
        = (registered_world "1.0", Raise (ValueError msg))).
Proof.
  split.
  - apply update_version_failure_atomic. left. reflexivity.
  - apply update_version_failure_atomic. right.
    exists (demo_metadata "1.0"). split; reflexivity.
Defined.

(** Initialising [workflows/demo.md] a second time. *)
Lemma initialize_command_idempotent_witness :
  let w1 := (initialize_command "workflows/demo.md" "" None None demo_world).1 in
  exists w',
    initialize_command "workflows/demo.md" "" None None w1 = (w', Ok tt)
    /\ metadata w' = metadata w1
    /\ store_file w' = store_file w1
    /\ files w' = files w1
    /\ stdout w' = stdout w1 ++ ["Command demo already initialized"].
Proof.
  intros w1.
  apply (initialize_command_idempotent "workflows/demo.md" "" None None w1).
  vm_compute. eexists. reflexivity.
Defined.

(** Initialisation of [workflows/demo.md] followed by a patch and a minor
    update. *)
Lemma history_after_updates_witness :
  exists w,
    updated "." "demo" 2
      (initialize_command "workflows/demo.md" "" None None demo_world).1 w
    /\ exists md t,
         metadata w !! "demo" = Some md
         /\ length (version_history md) = 3%nat
         /\ version <$> last (version_history md) = Some (current_version md)
         /\ _parse_version (current_version md) = Ok t
         /\ forall change_type change_list breaking deprecated,
              exists w' md' t',
                update_version "." "demo" change_type change_list breaking
                  deprecated w = (w', Ok tt)
                /\ metadata w' !! "demo" = Some md'
                /\ length (version_history md') = S (length (version_history md))
                /\ version <$> last (version_history md') = Some (current_version md')
                /\ _parse_version (current_version md') = Ok t'
                /\ tuple_ge t' t = true.
Proof.
  assert (exists w, updated "." "demo" 2
            (initialize_command "workflows/demo.md" "" None None demo_world).1 w)
    as [w Hw].
  { eexists.
    eapply (updated_S _ _ _ _ _ _ MINOR ["feature"] None None).
    - eapply (updated_S _ _ _ _ _ _ PATCH ["fix"] (Some ["api"]) None).
      + apply updated_O.
      + vm_compute. reflexivity.
    - vm_compute. reflexivity. }
  exists w. split; [exact Hw|].
  apply (history_after_updates "." "workflows/demo.md" "" None None demo_world 2 w).
  - reflexivity.
  - exact Hw.
Defined.

(** ** The changelog *)

Section Changelog.

Implicit Types (s : string) (l : list string).

Lemma concat_app l1 l2 : Str.concat (l1 ++ l2) = Str.concat l1 +:+ Str.concat l2.
Proof.
  induction l1 as [|x l1 IH]; [done|].
  simpl. unfold Str.concat in *. simpl. by rewrite IH, sapp_assoc.
Qed.

Lemma concat_singleton s : Str.concat [s] = s.
Proof. unfold Str.concat. simpl. apply sapp_nil_r. Qed.

(** The pieces are never an empty list. *)
Lemma split_nl_nonempty s : Str.split_nl s <> [].
Proof.
  destruct s as [|c s]; [done|]. simpl.
  case_decide; [done|]. by destruct (Str.split_nl s).
Qed.

(** Joining the pieces with newlines gives the text back. *)
Lemma join_split_nl s : Str.join Str.NL (Str.split_nl s) = s.
Proof.
  induction s as [|c s IH]; [done|]. simpl.
  pose proof (split_nl_nonempty s) as Hne.
  destruct (Str.split_nl s) as [|x xs] eqn:Hs; [done|].
  case_decide as Hc.
  - subst c. change (Str.join Str.NL ("" :: x :: xs))
      with ("" +:+ Str.NL +:+ Str.join Str.NL (x :: xs)).
    by rewrite IH.
  - destruct xs as [|y ys].
    + simpl in *. by rewrite IH.
    + change (Str.join Str.NL (String c x :: y :: ys))
        with (String c x +:+ Str.NL +:+ Str.join Str.NL (y :: ys)).
      change (Str.join Str.NL (x :: y :: ys))
        with (x +:+ Str.NL +:+ Str.join Str.NL (y :: ys)) in IH.
      by rewrite sapp_cons, IH.
Qed.

Lemma join_app sep l1 l2 :
  l1 <> [] -> l2 <> [] ->
  Str.join sep (l1 ++ l2) = Str.join sep l1 +:+ sep +:+ Str.join sep l2.
Proof.
  intros H1 H2. induction l1 as [|x l1 IH]; [done|].
  destruct l1 as [|y l1].
  - simpl. by destruct l2.
  - change (Str.join sep ((x :: y :: l1) ++ l2))
      with (x +:+ sep +:+ Str.join sep ((y :: l1) ++ l2)).
    rewrite IH by done.
    change (Str.join sep (x :: y :: l1)) with (x +:+ sep +:+ Str.join sep (y :: l1)).
    by rewrite !sapp_assoc.
Qed.

(** A text is the part up to one of its lines followed by the rest. *)
Lemma join_rest pre h post :
  Str.join Str.NL (pre ++ h :: post)
  = Str.join Str.NL (pre ++ [h]) +:+ rest_of_text post.
Proof.
  destruct post as [|p post].
  - simpl. by rewrite sapp_nil_r.
  - change (pre ++ h :: p :: post) with (pre ++ [h] ++ (p :: post)).
    rewrite (assoc (++)). rewrite join_app; [done| |done].
    by destruct pre.
Qed.

Lemma insert_index_from_cons i line rest :
  insert_index_from i (line :: rest)
  = if Str.startswith "# " line then (i + 1)%nat else insert_index_from (S i) rest.
Proof. reflexivity. Qed.

(** The header loop stops at the first line that starts with ["# "]. *)
Lemma insert_index_from_header i pre h post :
  Forall (fun line => Str.startswith "# " line = false) pre ->
  Str.startswith "# " h = true ->
  insert_index_from i (pre ++ h :: post) = (i + length pre + 1)%nat.
Proof.
  intros Hpre Hh. revert i. induction Hpre as [|x pre Hx _ IH]; intros i.
  - rewrite app_nil_l, insert_index_from_cons, Hh. simpl. lia.
  - rewrite <- app_comm_cons, insert_index_from_cons, Hx, IH. simpl. lia.
Qed.

Lemma insert_index_from_no_header i l :
  Forall (fun line => Str.startswith "# " line = false) l ->
  insert_index_from i l = O.
Proof.
  intros H. revert i. induction H as [|x l Hx _ IH]; intros i; [done|].
  by rewrite insert_index_from_cons, Hx.
Qed.

Lemma list_insert_at_after {A} (pre : list A) h x post :
  list_insert_at (length pre + 1) x (pre ++ h :: post) = pre ++ h :: x :: post.
Proof.
  unfold list_insert_at.
  replace (pre ++ h :: post) with ((pre ++ [h]) ++ post)
    by (by rewrite <- (assoc (++))).
  replace (length pre + 1)%nat with (length (pre ++ [h]))
    by (rewrite length_app; simpl; lia).
  rewrite take_app_length, drop_app_length. by rewrite <- (assoc (++)).
Qed.

(** With a header line, the entry becomes the list element right after
    it. *)
Lemma changelog_with_entry_header content entry pre h post :
  Str.split_nl content = pre ++ h :: post ->
  Forall (fun line => Str.startswith "# " line = false) pre ->
  Str.startswith "# " h = true ->
  changelog_with_entry content entry = Str.join Str.NL (pre ++ h :: entry :: post).
Proof.
  intros Hs Hpre Hh. unfold changelog_with_entry. rewrite Hs.
  rewrite (insert_index_from_header O _ _ _ Hpre Hh). simpl.
  by rewrite list_insert_at_after.
Qed.

(** The bullet lines the code builds, joined, are the bullet list of the
    description. *)
Lemma concat_bullets items : Str.concat (map bullet items) = bullet_list items.
Proof.
  induction items as [|item rest IH]; [done|].
  change (Str.concat (map bullet (item :: rest)))
    with (bullet item +:+ Str.concat (map bullet rest)).
  rewrite IH. unfold bullet. cbn [bullet_list]. by rewrite !sapp_assoc.
Qed.

(** The joined [entry_lines] are the entry of the interface description. *)
Lemma entry_lines_entry command_name new_version date version_entry :
  Str.concat (entry_lines command_name new_version date version_entry)
  = changelog_entry command_name new_version date version_entry.
Proof.
  unfold entry_lines, changelog_entry, changelog_section.
  destruct (breaking_changes version_entry) as [|b bs],
           (changes version_entry) as [|c cs],
           (deprecated_features version_entry) as [|d ds];
    rewrite ?concat_app, ?concat_singleton, ?concat_bullets, ?sapp_nil_r, ?sapp_assoc;
    reflexivity.
Qed.

End Changelog.

(** C7. [_update_changelog] on an existing changelog whose first line
    starting with ["# "] is [h]: the text up to and including [h] and the
    text after it are kept as they are, and between them go a newline and
    the one entry, that is the heading [## [command] version - date]
    followed by the non-empty ones among the sections "Breaking Changes",
    "Changes", "Deprecated", in that order. Seen as a list of pieces, the
    entry is the one new element, right after [h]. Without a changelog file,
    the file is created with the default title followed by the entry. No
    other file is written. *)
Theorem changelog_update repo_path command_name old_version new_version
    version_entry w :
  let path := changelog_path repo_path in
  let entry :=
    changelog_entry command_name new_version (strftime_Ymd (clock w (ticks w)))
      version_entry in
  exists w',
    _update_changelog repo_path command_name old_version new_version version_entry w
    = (w', Ok tt)
    /\ (forall p, p <> path -> files w' !! p = files w !! p)
    /\ (forall content pre h post,
          files w !! path = Some content ->
          Str.split_nl content = pre ++ h :: post ->
          Forall (fun line => Str.startswith "# " line = false) pre ->
          Str.startswith "# " h = true ->
          content = Str.join Str.NL (pre ++ [h]) +:+ rest_of_text post
          /\ files w' !! path
             = Some (Str.join Str.NL (pre ++ [h]) +:+ Str.NL +:+ entry
                       +:+ rest_of_text post)
          /\ files w' !! path = Some (Str.join Str.NL (pre ++ h :: entry :: post)))
    /\ (files w !! path = None ->
        files w' !! path
        = Some ("# Claude Code Commands Changelog" +:+ Str.NL +:+ entry)).
Proof.
  intros path entry. eexists. rewrite _update_changelog_run. split; [done|].
  simpl. fold path. rewrite entry_lines_entry. fold entry.
  split; [|split].
  - intros p Hp. by rewrite lookup_insert_ne.
  - intros content pre h post Hc Hs Hpre Hh.
    rewrite lookup_insert_eq, Hc. simpl.
    rewrite (changelog_with_entry_header _ _ _ _ _ Hs Hpre Hh).
    split; [|split; [|done]].
    + by rewrite <- join_rest, <- Hs, join_split_nl.
    + f_equal. rewrite (join_rest pre h (entry :: post)).
      f_equal. unfold rest_of_text.
      destruct post as [|p post]; [cbn [Str.join]; by rewrite sapp_nil_r|].
      change (Str.join Str.NL (entry :: p :: post))
        with (entry +:+ Str.NL +:+ Str.join Str.NL (p :: post)).
      done.
  - intros Hc. rewrite lookup_insert_eq, Hc. done.
Qed.

(** An entry with one breaking change and one change, added to a two-line
    changelog and to a repository without one: the files afterwards,
    character by character. *)
Lemma changelog_update_witness :
  files (_update_changelog "." "demo" "1.0.0" "1.1.0" demo_entry
           (changelog_world ("# Log" +:+ Str.NL +:+ "older text"))).1
    !! "CHANGELOG.md"
  = Some ("# Log" +:+ Str.NL
          +:+ Str.NL
          +:+ "## [demo] 1.1.0 - 2024-01-01" +:+ Str.NL
          +:+ Str.NL
          +:+ "### Breaking Changes" +:+ Str.NL
          +:+ "- api" +:+ Str.NL
          +:+ Str.NL
          +:+ "### Changes" +:+ Str.NL
          +:+ "- feature" +:+ Str.NL
          +:+ Str.NL
          +:+ "older text")
  /\ files (_update_changelog "." "demo" "1.0.0" "1.1.0" demo_entry empty_world).1
       !! "CHANGELOG.md"
     = Some ("# Claude Code Commands Changelog" +:+ Str.NL
             +:+ Str.NL
             +:+ "## [demo] 1.1.0 - 2024-01-01" +:+ Str.NL
             +:+ Str.NL
             +:+ "### Breaking Changes" +:+ Str.NL
             +:+ "- api" +:+ Str.NL
             +:+ Str.NL
             +:+ "### Changes" +:+ Str.NL
             +:+ "- feature" +:+ Str.NL).
Proof.
  split.
  - destruct (changelog_update "." "demo" "1.0.0" "1.1.0" demo_entry
                (changelog_world ("# Log" +:+ Str.NL +:+ "older text")))
      as (w' & Hrun & _ & Hheader & _).
    rewrite Hrun.
    destruct (Hheader ("# Log" +:+ Str.NL +:+ "older text") [] "# Log" ["older text"])
      as (_ & Hfile & _).
    + reflexivity.
    + reflexivity.
    + constructor.
    + reflexivity.
    + exact Hfile.
  - destruct (changelog_update "." "demo" "1.0.0" "1.1.0" demo_entry empty_world)
      as (w' & Hrun & _ & _ & Hfresh).
    rewrite Hrun. apply Hfresh. reflexivity.
Defined.

(** ** An update without a command file *)

(** The text of a changelog with a header line after the entry went in,
    and of one without. *)
Lemma changelog_with_entry_after_header content entry pre h post :
  Str.split_nl content = pre ++ h :: post ->
  Forall (fun line => Str.startswith "# " line = false) pre ->
  Str.startswith "# " h = true ->
  changelog_with_entry content entry
  = Str.join Str.NL (pre ++ [h]) +:+ Str.NL +:+ entry +:+ rest_of_text post.
Proof.
  intros Hs Hpre Hh.
  rewrite (changelog_with_entry_header _ _ _ _ _ Hs Hpre Hh).
  rewrite (join_rest pre h (entry :: post)).
  f_equal. unfold rest_of_text.
  destruct post as [|p post]; [cbn [Str.join]; by rewrite sapp_nil_r|].
  change (Str.join Str.NL (entry :: p :: post))
    with (entry +:+ Str.NL +:+ Str.join Str.NL (p :: post)).
  done.
Qed.

Lemma changelog_with_entry_at_top content entry :
  Forall (fun line => Str.startswith "# " line = false) (Str.split_nl content) ->
  changelog_with_entry content entry = entry +:+ Str.NL +:+ content.
Proof.
  intros Hno.
  unfold changelog_with_entry. rewrite (insert_index_from_no_header O _ Hno).
  unfold list_insert_at. rewrite take_0, drop_0.
  pose proof (split_nl_nonempty content) as Hne.
  pose proof (join_split_nl content) as Hj.
  destruct (Str.split_nl content) as [|x xs]; [done|].
  change (Str.join Str.NL ([] ++ ?e :: x :: xs))
    with (e +:+ Str.NL +:+ Str.join Str.NL (x :: xs)).
  by rewrite Hj.
Qed.

(** C10, as amended. For a registered command whose stored version is a
    well-formed version string and which has no markdown file under
    [workflows] or [tools], [update_version] returns normally. The command's
    record gets the new current version and, at the end of its history, the
    new entry; the mapping is persisted; the changelog receives the entry
    (the heading [## [command] version - date] and the non-empty sections) in
    a new file under the default title, or right after the first line that
    starts with ["# "], or at the top when there is no such line; no other
    file is written, so no command file appears. *)
Theorem update_version_without_command_file repo_path command_name change_type
    change_list breaking deprecated w md :
  metadata w !! command_name = Some md ->
  Is_version (current_version md) ->
  files w !! (repo_path // "workflows" // (command_name +:+ ".md")) = None ->
  files w !! (repo_path // "tools" // (command_name +:+ ".md")) = None ->
  exists w' new_version,
    let path := changelog_path repo_path in
    let version_entry :=
      mkCommandVersion new_version (isoformat (clock w (ticks w))) change_list
        (or_empty breaking) (or_empty deprecated) in
    let entry :=
      changelog_entry command_name new_version
        (strftime_Ymd (clock w (S (S (ticks w))))) version_entry in
    update_version repo_path command_name change_type change_list breaking deprecated w
    = (w', Ok tt)
    /\ _increment_version (current_version md) change_type = Ok new_version
    /\ metadata w'
       = <[command_name :=
             mkCommandMetadata (name md) (type md) (description md) new_version
               (created md) (isoformat (clock w (S (ticks w)))) (tags md)
               (dependencies md) (version_history md ++ [version_entry])]>
           (metadata w)
    /\ store_file w' = Some (metadata w')
    /\ (forall p, p <> path -> files w' !! p = files w !! p)
    /\ (files w !! path = None ->
        files w' !! path
        = Some ("# Claude Code Commands Changelog" +:+ Str.NL +:+ entry))
    /\ (forall content pre h post,
          files w !! path = Some content ->
          Str.split_nl content = pre ++ h :: post ->
          Forall (fun line => Str.startswith "# " line = false) pre ->
          Str.startswith "# " h = true ->
          files w' !! path
          = Some (Str.join Str.NL (pre ++ [h]) +:+ Str.NL +:+ entry
                    +:+ rest_of_text post))
    /\ (forall content,
          files w !! path = Some content ->
          Forall (fun line => Str.startswith "# " line = false)
            (Str.split_nl content) ->
          files w' !! path = Some (entry +:+ Str.NL +:+ content)).
Proof.
  intros Hmd Hv Hw Ht.
  destruct (Is_version_parse _ Hv) as [t Ht'].
  destruct (_increment_version_bump _ _ change_type Ht') as (v' & Hinc & _).
  exists (world_after_update repo_path command_name md v' change_list breaking
            deprecated w), v'.
  cbv zeta.
  rewrite (update_version_run _ _ _ _ _ _ _ _ _ Hmd Hinc).
  unfold world_after_update, command_file_of. rewrite Hw, Ht. simpl.
  rewrite entry_lines_entry.
  split; [done|]. split; [done|]. split; [done|]. split; [done|].
  split; [|split; [|split]].
  - intros p Hp. by rewrite lookup_insert_ne.
  - intros Hc. by rewrite lookup_insert_eq, Hc.
  - intros content pre h post Hc Hs Hpre Hh.
    rewrite lookup_insert_eq, Hc. simpl.
    by rewrite (changelog_with_entry_after_header _ _ _ _ _ Hs Hpre Hh).
  - intros content Hc Hno.
    rewrite lookup_insert_eq, Hc. simpl.
    by rewrite (changelog_with_entry_at_top _ _ Hno).
Qed.

(** A minor update of [demo] at 1.0.0 with no file on disk: the record, the
    store and the one file afterwards. *)
Lemma update_version_without_command_file_witness :
  exists w',
    update_version "." "demo" MINOR ["feature"] None None (registered_world "1.0.0")
    = (w', Ok tt)
    /\ metadata w' !! "demo"
       = Some (mkCommandMetadata "demo" "workflow" "" "1.1.0" "2024-01-01T00:00:00"
                 "2024-01-01T00:00:01" [] []
                 [mkCommandVersion "1.0.0" "2024-01-01T00:00:00" ["Initial release"]
                    [] [];
                  mkCommandVersion "1.1.0" "2024-01-01T00:00:00" ["feature"] [] []])
    /\ store_file w' = Some (metadata w')
    /\ files w' !! "CHANGELOG.md"
       = Some ("# Claude Code Commands Changelog" +:+ Str.NL
               +:+ Str.NL
               +:+ "## [demo] 1.1.0 - 2024-01-01" +:+ Str.NL
               +:+ Str.NL
               +:+ "### Changes" +:+ Str.NL
               +:+ "- feature" +:+ Str.NL)
    /\ files w' !! "workflows/demo.md" = None
    /\ files w' !! "tools/demo.md" = None.
Proof.
  destruct (update_version_without_command_file "." "demo" MINOR ["feature"] None None
              (registered_world "1.0.0") (demo_metadata "1.0.0"))
    as (w' & new_version & Hrun & Hinc & Hmeta & Hstore & Hframe & Hfresh & _).
  - reflexivity.
  - by apply (Is_version_compute "1" "0" "0").
  - reflexivity.
  - reflexivity.
  - assert (new_version = "1.1.0") as ->.
    { vm_compute in Hinc. congruence. }
    exists w'. split; [exact Hrun|].
    split; [rewrite Hmeta; apply lookup_insert_eq|].
    split; [exact Hstore|].
    split; [apply Hfresh; reflexivity|].
    split; (rewrite Hframe; [reflexivity|discriminate]).
Defined.

(** C10, the claim as worded fails: [demo] is registered with the stored
    version 1.0 and has no file under [workflows] or [tools], and
    [update_version] raises, leaving everything as it was. *)
Lemma update_version_without_command_file_fails :
  metadata (registered_world "1.0") !! "demo" = Some (demo_metadata "1.0")
  /\ files (registered_world "1.0") !! ("." // "workflows" // "demo.md") = None
  /\ files (registered_world "1.0") !! ("." // "tools" // "demo.md") = None
  /\ update_version "." "demo" PATCH ["fix"] None None (registered_world "1.0")
     = (registered_world "1.0", Raise (ValueError "Invalid version format: 1.0")).
Proof. repeat split; reflexivity. Qed.

(** ** The validators *)

Lemma results_foldl_append self l :
  results (foldl (fun s r => append_result r s) self l) = results self ++ l.
Proof.
  revert self. induction l as [|r l IH]; intros self; simpl.
  - by rewrite app_nil_r.
  - rewrite IH. simpl. by rewrite <- (assoc (++)).
Qed.

Lemma content_foldl_append self l :
  content (foldl (fun s r => append_result r s) self l) = content self.
Proof. revert self. induction l as [|r l IH]; intros self; simpl; [done|]. by rewrite IH. Qed.

Lemma header_jumps_warnings file prev rest :
  Forall (fun r => level r = WARNING) (header_jumps file prev rest).
Proof.
  revert prev. induction rest as [|[curr_level curr_line] rest IH]; intros prev; simpl.
  - constructor.
  - apply Forall_app. split; [|apply IH].
    case_match; repeat constructor.
Qed.

Lemma odd_mod2 n : negb (n mod 2 =? 0)%nat = Nat.odd n.
Proof.
  destruct (Nat.odd n) eqn:Ho.
  - apply Nat.odd_spec in Ho as [m ->].
    by rewrite Nat.add_comm, Nat.mul_comm, Nat.Div0.mod_add.
  - unfold Nat.odd in Ho. apply negb_false_iff, Nat.even_spec in Ho as [m ->].
    by rewrite Nat.mul_comm, Nat.Div0.mod_mul.
Qed.

(** What [_validate_markdown] adds: the error when the fence count is odd,
    then the header warnings. *)
Lemma _validate_markdown_added self :
  exists jumps,
    Forall (fun r => level r = WARNING) jumps
    /\ added self (_validate_markdown self)
         ((if Nat.odd (Str.count "```" (content self))
           then [unclosed_code_block (command_path self)] else []) ++ jumps).
Proof.
  unfold _validate_markdown, added.
  assert (negb (Str.count "```" (content self) mod 2 =? 0)%nat
          = Nat.odd (Str.count "```" (content self))) as ->.
  { apply odd_mod2. }
  destruct (Nat.odd (Str.count "```" (content self))); simpl.
  - destruct (header_levels_from 0 (lines self)) as [|[first_level ?] rest].
    + exists []. split; [constructor|]. done.
    + eexists. split; [apply (header_jumps_warnings (command_path self) first_level rest)|].
      rewrite results_foldl_append. simpl. by rewrite <- (assoc (++)).
  - destruct (header_levels_from 0 (lines self)) as [|[first_level ?] rest].
    + exists []. split; [constructor|]. simpl. by rewrite app_nil_r.
    + eexists. split; [apply (header_jumps_warnings (command_path self) first_level rest)|].
      by rewrite results_foldl_append.
Qed.

(** *** Counting fence markers *)

(** Three more backticks in the run that is being read are one more
    marker. *)
Lemma fence_markers_go_three run s :
  fence_markers_go (run + 3) s = S (fence_markers_go run s).
Proof.
  revert run. induction s as [|c s IH]; intros run.
  - cbn [fence_markers_go].
    replace (run + 3)%nat with (run + 1 * 3)%nat by lia.
    rewrite Nat.div_add by lia. lia.
  - cbn [fence_markers_go]. destruct (decide (c = "`"%char)).
    + apply (IH (S run)).
    + replace (run + 3)%nat with (run + 1 * 3)%nat by lia.
      rewrite Nat.div_add by lia. lia.
Qed.

Lemma count_go_cons p c s :
  Str.count_go p O (String c s)
  = if Str.startswith p (String c s)
    then S (Str.count_go p (String.length p - 1) s)
    else Str.count_go p O s.
Proof. reflexivity. Qed.

Lemma startswith_cons_eq a p s :
  Str.startswith (String a p) (String a s) = Str.startswith p s.
Proof. cbn [Str.startswith]. by rewrite decide_True. Qed.

Lemma startswith_cons_ne a p b s :
  a <> b -> Str.startswith (String a p) (String b s) = false.
Proof. intros Hne. cbn [Str.startswith]. by rewrite decide_False. Qed.

(** [str.count] with the pattern of three backticks, read from left to
    right without overlap, finds the markers of each run of backticks. *)
Lemma count_fence_markers_bounded n s :
  (String.length s <= n)%nat -> Str.count "```" s = fence_markers s.
Proof.
  unfold Str.count, fence_markers. revert s.
  induction n as [|n IH]; intros [|c1 s] Hn; cbn [String.length] in Hn;
    try done; try lia.
  destruct (decide (c1 = "`"%char)) as [->|H1].
  2:{ rewrite count_go_cons, startswith_cons_ne by done.
      cbn [fence_markers_go]. rewrite decide_False by done.
      rewrite IH by lia. done. }
  destruct s as [|c2 s]; [done|]. cbn [String.length] in Hn.
  destruct (decide (c2 = "`"%char)) as [->|H2].
  2:{ rewrite count_go_cons, startswith_cons_eq, startswith_cons_ne by done.
      rewrite count_go_cons, startswith_cons_ne by done.
      cbn [fence_markers_go]. rewrite decide_True, decide_False by done.
      rewrite IH by lia. done. }
  destruct s as [|c3 s]; [done|]. cbn [String.length] in Hn.
  destruct (decide (c3 = "`"%char)) as [->|H3].
  2:{ rewrite count_go_cons, !startswith_cons_eq, startswith_cons_ne by done.
      rewrite count_go_cons, startswith_cons_eq, startswith_cons_ne by done.
      rewrite count_go_cons, startswith_cons_ne by done.
      cbn [fence_markers_go]. rewrite !decide_True, decide_False by done.
      rewrite IH by lia. done. }
  rewrite count_go_cons, !startswith_cons_eq.
  cbn [Str.startswith].
  change (Str.count_go "```" (String.length "```" - 1) (String "`" (String "`" s)))
    with (Str.count_go "```" O s).
  cbn [fence_markers_go]. rewrite !decide_True by done.
  change (fence_markers_go 3 s) with (fence_markers_go (0 + 3) s).
  rewrite (fence_markers_go_three O s), IH by lia. done.
Qed.

Lemma count_fence_markers s : Str.count "```" s = fence_markers s.
Proof. by apply (count_fence_markers_bounded (String.length s)). Qed.

(** C8. Among the findings [_validate_markdown] adds there is an error
    "Unclosed code block detected" exactly when the number of
    triple-backtick fence markers in the content is odd; a run of [k]
    backticks counts for [k / 3] markers. *)
Theorem unclosed_code_block_iff_odd self :
  exists new,
    added self (_validate_markdown self) new
    /\ ((exists r, r ∈ new /\ is_unclosed_error r)
        <-> Nat.Odd (fence_markers (content self))).
Proof.
  destruct (_validate_markdown_added self) as (jumps & Hj & Hadd).
  eexists. split; [exact Hadd|].
  rewrite <- count_fence_markers, <- Nat.odd_spec.
  destruct (Nat.odd (Str.count "```" (content self))); simpl.
  - split; [done|]. intros _. exists (unclosed_code_block (command_path self)).
    split; [apply list_elem_of_here|]. by split.
  - split; [|done]. intros (r & Hr & Hlevel & _).
    rewrite Forall_forall in Hj. apply Hj in Hr. congruence.
Qed.

(** Three markers: the error is among the findings. Two markers: it is
    not. *)
Lemma unclosed_code_block_iff_odd_witness :
  (exists r,
     r ∈ results (_validate_markdown
                    (CommandValidator_init "tools/t.md" "``` a ``` b ```"))
     /\ level r = ERROR /\ message r = "Unclosed code block detected")
  /\ Forall (fun r => ~ (level r = ERROR
                         /\ message r = "Unclosed code block detected"))
       (results (_validate_markdown
                   (CommandValidator_init "tools/t.md" "``` a ```"))).
Proof.
  split.
  - destruct (unclosed_code_block_iff_odd
                (CommandValidator_init "tools/t.md" "``` a ``` b ```"))
      as (new & Hadd & Hiff).
    rewrite Hadd. apply Hiff. exists 1%nat. reflexivity.
  - destruct (unclosed_code_block_iff_odd
                (CommandValidator_init "tools/t.md" "``` a ```"))
      as (new & Hadd & Hiff).
    rewrite Hadd. apply Forall_forall. intros r Hr Herr.
    assert (Nat.Odd (fence_markers "``` a ```")) as [m Hodd].
    { apply Hiff. by exists r. }
    change (fence_markers "``` a ```") with 2%nat in Hodd. lia.
Defined.

(** Three fences give the error, two and four give none. *)
Example unclosed_code_block_three :
  results (_validate_markdown (CommandValidator_init "tools/t.md" "``` a ``` b ```"))
  = [unclosed_code_block "tools/t.md"]
  /\ results (_validate_markdown (CommandValidator_init "tools/t.md" "`````````"))
     = [unclosed_code_block "tools/t.md"]
  /\ results (_validate_markdown (CommandValidator_init "tools/t.md" "``` a ```")) = []
  /\ results (_validate_markdown (CommandValidator_init "tools/t.md" "````````````")) = [].
Proof. repeat split; reflexivity. Qed.

(** What [_validate_task_tool_usage] adds. *)
Lemma _validate_task_tool_usage_added self :
  added self (_validate_task_tool_usage self)
    ((if negb (Str.contains "Task tool" (content self))
         && negb (Str.contains "subagent" (Str.lower (content self)))
      then [task_tool_warning (command_path self)] else [])
     ++ (if negb (Str.contains "subagent_type" (content self))
            && Str.contains "Task tool" (content self)
         then [subagent_type_warning (command_path self)] else [])).
Proof.
  unfold _validate_task_tool_usage, added.
  destruct (Str.contains "Task tool" (content self)) eqn:Ht,
           (Str.contains "subagent" (Str.lower (content self))) eqn:Hs,
           (Str.contains "subagent_type" (content self)) eqn:Hst; simpl;
    rewrite ?Ht, ?Hst; simpl; rewrite ?app_nil_r; done.
Qed.

(** C9, as amended. Among the findings [_validate_task_tool_usage] adds
    there is the warning "Workflow should use Task tool for subagent
    coordination" exactly when the document contains neither the phrase
    "Task tool" nor, in any case, the word "subagent". *)
Theorem task_tool_warning_iff_neither self :
  exists new,
    added self (_validate_task_tool_usage self) new
    /\ ((exists r, r ∈ new /\ is_task_tool_warning r)
        <-> ~ mentions_phrase_or_word (content self)).
Proof.
  eexists. split; [apply _validate_task_tool_usage_added|].
  unfold mentions_phrase_or_word.
  destruct (Str.contains "Task tool" (content self)) eqn:Ht,
           (Str.contains "subagent" (Str.lower (content self))) eqn:Hs; simpl;
    try (split; [|tauto]; intros (r & Hr & _ & Hm);
         destruct (Str.contains "subagent_type" (content self));
         apply list_elem_of_In in Hr; simpl in Hr;
         intuition (subst; done)).
  split; [intros _; intros [?|?]; done|]. intros _.
  exists (task_tool_warning (command_path self)).
  split; [apply list_elem_of_here|]. by split.
Qed.

(** C9, the claim as worded fails: a workflow that has the phrase but not
    the word does not mention both, and no warning of that kind is
    added. *)
Lemma task_tool_warning_not_both :
  let self := CommandValidator_init "workflows/w.md" "Use the Task tool here." in
  ~ mentions_phrase_and_word (content self)
  /\ results (_validate_task_tool_usage self)
     = [subagent_type_warning "workflows/w.md"]
  /\ ~ exists r, r ∈ results (_validate_task_tool_usage self) /\ is_task_tool_warning r.
Proof.
  intros self. split; [|split].
  - intros [_ H]. vm_compute in H. done.
  - reflexivity.
  - intros (r & Hr & _ & Hm). vm_compute in Hr.
    apply list_elem_of_singleton in Hr. subst r. done.
Qed.

(** ** Frontmatter rewriting *)

Section Frontmatter.

Implicit Types (s r v p content : string).

Lemma drop_app_length s r : Str.drop (String.length s) (s +:+ r) = r.
Proof. induction s as [|c s IH]; [by destruct r|]. by rewrite sapp_cons. Qed.

Lemma take_app_length s r : Str.take (String.length s) (s +:+ r) = s.
Proof.
  induction s as [|c s IH]; [by destruct r|].
  rewrite sapp_cons. simpl. by rewrite IH.
Qed.

Lemma contains_startswith p s : Str.startswith p s = true -> Str.contains p s = true.
Proof. intros H. destruct s; simpl in *; by rewrite H. Qed.

Lemma contains_cons p c s : Str.contains p s = true -> Str.contains p (String c s) = true.
Proof. intros H. cbn [Str.contains]. rewrite H. apply orb_true_r. Qed.

(** The first ["---"] after a stretch without any dash. *)
Lemma find0_dashes s r :
  Str.all (fun c => negb (bool_decide (c = "-"%char))) s = true ->
  Str.find0 "---" (s +:+ "---" +:+ r) = Some (String.length s).
Proof.
  induction s as [|c s IH]; intros Hs.
  - done.
  - simpl in Hs. apply andb_true_iff in Hs as [Hc Hs].
    rewrite sapp_cons. simpl.
    rewrite decide_False
      by (intros <-; by rewrite bool_decide_eq_true_2 in Hc).
    by rewrite (IH Hs).
Qed.

Lemma re_sub_go_skip repl s r :
  re_sub_go repl (String.length s) (s +:+ r) = re_sub_go repl O r.
Proof. induction s as [|c s IH]; [by destruct r|]. by rewrite sapp_cons. Qed.

Lemma all_impl (f g : ascii -> bool) s :
  (forall c, f c = true -> g c = true) -> Str.all f s = true -> Str.all g s = true.
Proof.
  intros Hfg. induction s as [|c s IH]; [done|]. simpl.
  intros [Hc Hs]%andb_true_iff. by rewrite (Hfg _ Hc), IH.
Qed.

Lemma is_digit_cases c :
  Str.is_digit c = true ->
  c = "0"%char \/ c = "1"%char \/ c = "2"%char \/ c = "3"%char \/ c = "4"%char
  \/ c = "5"%char \/ c = "6"%char \/ c = "7"%char \/ c = "8"%char \/ c = "9"%char.
Proof.
  destruct c as [[] [] [] [] [] [] [] []]; vm_compute; intros H;
    try discriminate H; tauto.
Qed.

Lemma digit_or_dot_no_dash c :
  digit_or_dot c = true -> negb (bool_decide (c = "-"%char)) = true.
Proof.
  unfold digit_or_dot. intros [H | H]%orb_true_iff.
  - apply is_digit_cases in H. by repeat destruct H as [-> | H]; try subst c.
  - apply bool_decide_eq_true_1 in H as ->. done.
Qed.

Lemma Is_version_digit_or_dot v :
  Is_version v -> v <> "" /\ Str.all digit_or_dot v = true.
Proof.
  intros (a & b & c & [Ha1 Ha2] & [Hb1 Hb2] & [Hc1 Hc2] & ->).
  assert (forall s, Str.all Str.is_digit s = true -> Str.all digit_or_dot s = true)
    as Hd.
  { intros s. apply all_impl. intros x Hx. unfold digit_or_dot. by rewrite Hx. }
  split; [by destruct a|].
  rewrite !all_app, (Hd a), (Hd b), (Hd c) by done. done.
Qed.

(** The pattern [version:\s*[\d.]+] on the line the block carries. *)
Lemma match_version_key_line v r c :
  v <> "" -> Str.all digit_or_dot v = true -> digit_or_dot c = false ->
  match_version_key ("version: " +:+ v +:+ String c r)
  = Some (String.length ("version: " +:+ v)).
Proof.
  intros Hne Hv Hc. unfold match_version_key.
  replace (Str.startswith "version:" ("version: " +:+ v +:+ String c r)) with true
    by (symmetry; apply (startswith_app "version:" (" " +:+ v +:+ String c r))).
  change (Str.drop 8 ("version: " +:+ v +:+ String c r))
    with (String " " (v +:+ String c r)).
  assert (Str.span Str.is_space (String " " (v +:+ String c r))
          = (" ", v +:+ String c r)) as ->.
  { destruct v as [|x v]; [done|]. simpl in Hv. apply andb_true_iff in Hv as [Hx _].
    rewrite sapp_cons. cbn -[Str.is_space].
    assert (Str.is_space x = false) as ->; [|done].
    unfold digit_or_dot in Hx. apply orb_true_iff in Hx as [Hx | Hx].
    - apply is_digit_cases in Hx. by repeat destruct Hx as [-> | Hx]; try subst x.
    - apply bool_decide_eq_true_1 in Hx as ->. done. }
  fold digit_or_dot. rewrite (span_app_stop digit_or_dot v c r Hv Hc).
  destruct v as [|x v]; [done|].
  rewrite slength_app. done.
Qed.

(** Rewriting a file that starts with the minimal block replaces the
    version in the block and nothing else. *)
Lemma new_content_version_block v v' content :
  Is_version v ->
  new_content (version_block v content) v' = version_block v' content.
Proof.
  intros Hv. destruct (Is_version_digit_or_dot v Hv) as [Hne Hall].
  set (fm := Str.NL +:+ "version: " +:+ v +:+ Str.NL).
  assert (version_block v content = "---" +:+ fm +:+ "---" +:+ Str.NL +:+ content)
    as -> by (unfold version_block, fm; by rewrite !sapp_assoc).
  assert (forall r, Str.drop 3 ("---" +:+ r) = r) as Hdrop3 by done.
  unfold new_content. rewrite startswith_app.
  assert (Str.find "---" 3 ("---" +:+ fm +:+ "---" +:+ Str.NL +:+ content)
          = Some (3 + String.length fm)%nat) as ->.
  { unfold Str.find. rewrite decide_True by (rewrite slength_app; simpl; lia).
    rewrite Hdrop3, find0_dashes; [done|].
    unfold fm. rewrite !all_app.
    rewrite (all_impl _ _ v digit_or_dot_no_dash Hall). done. }
  unfold Str.slice.
  replace (3 + String.length fm - 3)%nat with (String.length fm) by lia.
  rewrite Hdrop3, take_app_length.
  replace (Str.drop (3 + String.length fm + 3)
             ("---" +:+ fm +:+ "---" +:+ Str.NL +:+ content))
    with (Str.NL +:+ content).
  2:{ replace ("---" +:+ fm +:+ "---" +:+ Str.NL +:+ content)
        with (("---" +:+ fm +:+ "---") +:+ Str.NL +:+ content)
        by (by rewrite !sapp_assoc).
      replace (3 + String.length fm + 3)%nat
        with (String.length ("---" +:+ fm +:+ "---"))
        by (rewrite !slength_app; simpl; lia).
      by rewrite drop_app_length. }
  assert (Str.contains "version:" fm = true) as ->.
  { unfold fm. change (Str.NL +:+ "version: " +:+ v +:+ Str.NL)
      with (String Str.nl ("version:" +:+ " " +:+ v +:+ Str.NL)).
    apply contains_cons, contains_startswith, startswith_app. }
  assert (re_sub_version ("version: " +:+ v') fm
          = Str.NL +:+ "version: " +:+ v' +:+ Str.NL) as ->.
  { unfold re_sub_version, fm.
    change (Str.NL +:+ "version: " +:+ v +:+ Str.NL)
      with (String Str.nl ("version: " +:+ v +:+ String Str.nl "")).
    cbn [re_sub_go]. change (match_version_key (String Str.nl _)) with (@None nat).
    cbv iota.
    change ("version: " +:+ v +:+ String Str.nl "")
      with (String "v" ("ersion: " +:+ v +:+ String Str.nl "")).
    cbn [re_sub_go].
    change (String "v" ("ersion: " +:+ v +:+ String Str.nl ""))
      with ("version: " +:+ v +:+ String Str.nl "").
    rewrite (match_version_key_line v "" Str.nl Hne Hall) by done.
    replace (String.length ("version: " +:+ v) - 1)%nat
      with (String.length ("ersion: " +:+ v))
      by (rewrite !slength_app; simpl; lia).
    replace ("ersion: " +:+ v +:+ String Str.nl "")
      with (("ersion: " +:+ v) +:+ String Str.nl "")
      by (by rewrite !sapp_assoc).
    rewrite re_sub_go_skip. cbn [re_sub_go].
    change (match_version_key (String Str.nl "")) with (@None nat). cbv iota.
    by rewrite !sapp_assoc. }
  unfold version_block. by rewrite !sapp_assoc.
Qed.

(** A file without frontmatter gets the minimal block in front. *)
Lemma new_content_no_frontmatter content v :
  Str.startswith "---" content = false ->
  new_content content v = version_block v content.
Proof. intros H. unfold new_content. by rewrite H. Qed.

(** So does a file whose opening ["---"] is never closed. *)
Lemma new_content_unterminated content v :
  Str.startswith "---" content = true -> Str.find "---" 3 content = None ->
  new_content content v = version_block v content.
Proof. intros H Hf. unfold new_content. by rewrite H, Hf. Qed.

(** For such a file, writing [v] and then [v'] is writing [v']: the
    version written last is the one the block carries. *)
Lemma new_content_twice content v v' :
  Str.startswith "---" content = false -> Is_version v ->
  new_content (new_content content v) v' = new_content content v'.
Proof.
  intros H Hv. rewrite (new_content_no_frontmatter content v H).
  rewrite (new_content_no_frontmatter content v' H).
  by apply new_content_version_block.
Qed.

(** C6 at a file whose frontmatter quotes its version: the pattern
    [version:\s*[\d.]+] finds nothing to replace although ["version:"] is
    there, so the file is written back as it was. The new version 1.1.0
    occurs nowhere in it, while the metadata mapping has moved on to
    1.1.0. *)
Theorem quoted_version_not_rewritten :
  new_content quoted_version_file "1.1.0" = quoted_version_file
  /\ Str.contains "1.1.0" (new_content quoted_version_file "1.1.0") = false
  /\ let w' :=
       (update_version "." "demo" MINOR ["feature"] None None quoted_world).1 in
     current_version <$> metadata w' !! "demo" = Some "1.1.0"
     /\ files w' !! "workflows/demo.md" = Some quoted_version_file.
Proof. repeat split; vm_compute; reflexivity. Qed.

End Frontmatter.

(** * Further properties of the version manager *)

(** The parser raises exactly on the strings that are not a well-formed
    version, a single final newline being tolerated; the error names the
    string. *)
Theorem parse_version_rejects_iff v :
  _parse_version v = Raise (ValueError ("Invalid version format: " +:+ v))
  <-> ~ exists v', Is_version v' /\ (v = v' \/ v = v' +:+ Str.NL).
Proof.
  rewrite <- match_version_None_iff. unfold _parse_version.
  destruct (match_version v) as [[[a b] c]|]; split; done.
Qed.

Lemma Is_version_pretty (major minor patch : N) :
  Is_version (pretty major +:+ "." +:+ pretty minor +:+ "." +:+ pretty patch).
Proof.
  exists (pretty major), (pretty minor), (pretty patch).
  auto using is_digits_pretty.
Qed.

(** Printing three numbers in decimal with dots between them and parsing
    the result gives the numbers back. *)
Theorem parse_version_of_printed (major minor patch : N) :
  Is_version (pretty major +:+ "." +:+ pretty minor +:+ "." +:+ pretty patch)
  /\ _parse_version (pretty major +:+ "." +:+ pretty minor +:+ "." +:+ pretty patch)
     = Ok (major, minor, patch).
Proof.
  split; [apply Is_version_pretty|apply _parse_version_pretty].
Qed.

Lemma bump_Is_version v t change_type v' :
  _parse_version v = Ok t ->
  _increment_version v change_type = Ok v' ->
  Is_version v' /\ _parse_version v' = Ok (bump t change_type).
Proof.
  destruct t as [[major minor] patch]. intros Hp.
  rewrite (_increment_version_parsed _ _ _ _ _ Hp). intros [= <-].
  destruct change_type; simpl.
  - split; [apply (Is_version_pretty (major + 1) 0 0)
           |apply (_parse_version_pretty (major + 1) 0 0)].
  - split; [apply (Is_version_pretty major (minor + 1) 0)
           |apply (_parse_version_pretty major (minor + 1) 0)].
  - split; [apply Is_version_pretty|apply _parse_version_pretty].
Qed.

(** [str] of a positive number does not start with a zero. *)
Lemma pretty_N_go_no_leading_zero x :
  0 < x -> forall s, Str.startswith "0" (pretty_N_go x s) = false.
Proof.
  induction x as [x IH] using (well_founded_induction N.lt_wf_0).
  intros Hpos s. rewrite pretty_N_go_step by done.
  destruct (decide (x `div` 10 = 0)) as [Hz|Hnz].
  - rewrite Hz, pretty_N_go_0.
    assert (x < 10) as Hlt.
    { pose proof (N.div_mod x 10) as Hdm. pose proof (N.mod_lt x 10) as Hml.
      rewrite Hz in Hdm. lia. }
    rewrite N.mod_small by done.
    assert (x = 1 \/ x = 2 \/ x = 3 \/ x = 4 \/ x = 5 \/ x = 6
            \/ x = 7 \/ x = 8 \/ x = 9) as Hc by lia.
    repeat destruct Hc as [-> | Hc]; try subst x; reflexivity.
  - apply IH; [apply N.div_lt; lia|by apply N.neq_0_lt_0].
Qed.

Lemma canonical_numeral_pretty (x : N) : canonical_numeral (pretty x).
Proof.
  split; [apply is_digits_pretty|].
  unfold pretty, pretty_N. destruct (decide (x = 0)) as [-> | Hx]; [by left|].
  right. apply pretty_N_go_no_leading_zero. lia.
Qed.

(** Whatever the parser accepts (leading zeros and a final newline
    included), an increment succeeds and yields three decimal numerals
    joined by dots, none of them with a zero in front (the numeral ["0"]
    apart) and nothing after the third; the numerals are those of the
    incremented triple, which is strictly above the old one in the
    lexicographic order, and the result parses to it. *)
Theorem increment_version_well_formed v t change_type :
  _parse_version v = Ok t ->
  exists v' a b c,
    _increment_version v change_type = Ok v'
    /\ v' = a +:+ "." +:+ b +:+ "." +:+ c
    /\ canonical_numeral a /\ canonical_numeral b /\ canonical_numeral c
    /\ (int a, int b, int c) = bump t change_type
    /\ Is_version v'
    /\ _parse_version v' = Ok (bump t change_type)
    /\ lex_ge (bump t change_type) t
    /\ bump t change_type <> t.
Proof.
  intros Hp.
  assert (exists m1 m2 m3, bump t change_type = (m1, m2, m3)) as (m1 & m2 & m3 & Hb).
  { destruct (bump t change_type) as [[m1 m2] m3]. by exists m1, m2, m3. }
  assert (_increment_version v change_type
          = Ok (pretty m1 +:+ "." +:+ pretty m2 +:+ "." +:+ pretty m3)) as Hinc.
  { destruct t as [[major minor] patch].
    rewrite (_increment_version_parsed _ _ _ _ _ Hp).
    destruct change_type; simpl in Hb; injection Hb as <- <- <-; reflexivity. }
  exists (pretty m1 +:+ "." +:+ pretty m2 +:+ "." +:+ pretty m3),
         (pretty m1), (pretty m2), (pretty m3).
  split; [exact Hinc|]. split; [done|].
  split; [apply canonical_numeral_pretty|].
  split; [apply canonical_numeral_pretty|].
  split; [apply canonical_numeral_pretty|].
  split.
  { rewrite Hb.
    destruct (pretty_N_digits m1) as (_ & -> & _).
    destruct (pretty_N_digits m2) as (_ & -> & _).
    destruct (pretty_N_digits m3) as (_ & -> & _). done. }
  split; [apply Is_version_pretty|].
  split; [rewrite Hb; apply _parse_version_pretty|].
  destruct t as [[major minor] patch].
  destruct change_type; simpl; (split; [lia|]); intros [= ]; lia.
Qed.

(** The minor increment of [01.2.3] followed by a newline is [1.3.0]. *)
Lemma increment_version_well_formed_witness :
  _increment_version ("01.2.3" +:+ Str.NL) MINOR = Ok "1.3.0"
  /\ _parse_version "1.3.0" = Ok (1, 3, 0).
Proof.
  destruct (increment_version_well_formed ("01.2.3" +:+ Str.NL) (1, 2, 3) MINOR)
    as (v' & a & b & c & Hinc & _ & _ & _ & _ & _ & _ & Hparse & _).
  - reflexivity.
  - assert (v' = "1.3.0") as ->.
    { vm_compute in Hinc. congruence. }
    split; [exact Hinc|exact Hparse].
Defined.

Section MoreInitialize.

(** A new command whose file does not exist: [initialize_command] raises
    [FileNotFoundError], but only after the command has been registered at
    1.0.0 and the store has been written; files and output are as
    before. *)
Theorem initialize_command_missing_file command_path description tags dependencies w :
  metadata w !! Path.stem command_path = None ->
  files w !! command_path = None ->
  exists w' md,
    initialize_command command_path description tags dependencies w
    = (w', Raise (FileNotFoundError command_path))
    /\ metadata w' = <[Path.stem command_path := md]> (metadata w)
    /\ current_version md = "1.0.0"
    /\ store_file w' = Some (metadata w')
    /\ files w' = files w
    /\ stdout w' = stdout w.
Proof.
  intros Hfresh Hfile. rewrite initialize_command_fresh by done. rewrite Hfile.
  eexists _, _. split; [done|]. done.
Qed.

Lemma initialize_command_missing_file_witness :
  exists w' md,
    initialize_command "tools/ghost.md" "" None None demo_world
    = (w', Raise (FileNotFoundError "tools/ghost.md"))
    /\ metadata w' = <["ghost" := md]> (metadata demo_world)
    /\ current_version md = "1.0.0"
    /\ store_file w' = Some (metadata w')
    /\ files w' = files demo_world
    /\ stdout w' = stdout demo_world.
Proof.
  apply (initialize_command_missing_file "tools/ghost.md" "" None None demo_world);
    reflexivity.
Defined.

(** A new command whose file exists: the command is registered at 1.0.0
    with the one-entry history, as a workflow exactly when the path string
    contains [workflows]; the store is written, the file is rewritten with
    version 1.0.0 (a file without frontmatter gets the minimal block in
    front), and no other mapping entry or file changes. *)
Theorem initialize_command_new command_path description tags dependencies w content :
  metadata w !! Path.stem command_path = None ->
  files w !! command_path = Some content ->
  exists w' md released_at,
    initialize_command command_path description tags dependencies w = (w', Ok tt)
    /\ metadata w' = <[Path.stem command_path := md]> (metadata w)
    /\ current_version md = "1.0.0"
    /\ version_history md
       = [mkCommandVersion "1.0.0" released_at ["Initial release"] [] []]
    /\ type md = (if Str.contains "workflows" command_path then "workflow" else "tool")
    /\ store_file w' = Some (metadata w')
    /\ files w' = <[command_path := new_content content "1.0.0"]> (files w)
    /\ (Str.startswith "---" content = false ->
        files w' !! command_path = Some (version_block "1.0.0" content)).
Proof.
  intros Hfresh Hfile. rewrite initialize_command_fresh by done. rewrite Hfile.
  eexists _, _, _. split; [done|]. repeat split.
  intros Hc. simpl. rewrite lookup_insert_eq.
  by rewrite new_content_no_frontmatter.
Qed.

Lemma initialize_command_new_witness :
  exists w' md released_at,
    initialize_command "workflows/demo.md" "" None None demo_world = (w', Ok tt)
    /\ metadata w' = <["demo" := md]> (metadata demo_world)
    /\ current_version md = "1.0.0"
    /\ version_history md
       = [mkCommandVersion "1.0.0" released_at ["Initial release"] [] []]
    /\ type md = "workflow"
    /\ store_file w' = Some (metadata w')
    /\ files w' = <["workflows/demo.md" := new_content "# Demo" "1.0.0"]> (files demo_world)
    /\ (Str.startswith "---" "# Demo" = false ->
        files w' !! "workflows/demo.md" = Some (version_block "1.0.0" "# Demo")).
Proof.
  apply (initialize_command_new "workflows/demo.md" "" None None demo_world "# Demo");
    reflexivity.
Defined.

End MoreInitialize.

Section MoreUpdate.

Variable repo_path : string.

(** [_find_command_file] changes nothing and returns a path only if that
    file exists: the one under [workflows] when it exists, otherwise the one
    under [tools], and nothing when neither exists. *)
Theorem find_command_file_result command_name w :
  let workflow := repo_path // "workflows" // (command_name +:+ ".md") in
  let tool := repo_path // "tools" // (command_name +:+ ".md") in
  exists found,
    _find_command_file repo_path command_name w = (w, Ok found)
    /\ match found with
       | Some p =>
           is_Some (files w !! p)
           /\ (p = workflow \/ (files w !! workflow = None /\ p = tool))
       | None => files w !! workflow = None /\ files w !! tool = None
       end.
Proof.
  intros workflow tool. eexists. split; [apply _find_command_file_run|].
  unfold command_file_of. fold workflow tool.
  destruct (files w !! workflow) as [c1|] eqn:H1.
  - rewrite bool_decide_eq_true_2 by eauto. rewrite H1. eauto.
  - rewrite bool_decide_eq_false_2 by (intros [? ?]; done).
    destruct (files w !! tool) as [c2|] eqn:H2.
    + rewrite bool_decide_eq_true_2 by eauto. rewrite H2. eauto.
    + rewrite bool_decide_eq_false_2 by (intros [? ?]; done). done.
Qed.

(** What a successful update leaves alone: every other command's entry,
    and this command's name, type, description, creation time, tags and
    dependencies; the earlier history entries stay in place in front of the
    new one. The store written equals the mapping in memory. *)
Theorem update_version_frame command_name change_type change_list breaking
    deprecated w w' :
  update_version repo_path command_name change_type change_list breaking
    deprecated w = (w', Ok tt) ->
  exists md md' version_entry,
    metadata w !! command_name = Some md
    /\ metadata w' !! command_name = Some md'
    /\ (forall other, other <> command_name ->
                      metadata w' !! other = metadata w !! other)
    /\ store_file w' = Some (metadata w')
    /\ name md' = name md /\ type md' = type md
    /\ description md' = description md /\ created md' = created md
    /\ tags md' = tags md /\ dependencies md' = dependencies md
    /\ version_history md' = version_history md ++ [version_entry]
    /\ changes version_entry = change_list
    /\ breaking_changes version_entry = or_empty breaking
    /\ deprecated_features version_entry = or_empty deprecated.
Proof.
  intros Hrun.
  destruct (metadata w !! command_name) as [md|] eqn:Hmd; cycle 1.
  { by rewrite update_version_unregistered in Hrun. }
  destruct (match_version (current_version md)) as [[[a b] c]|] eqn:Hm; cycle 1.
  { by rewrite (update_version_bad_version _ _ _ _ _ _ _ _ Hmd Hm) in Hrun. }
  assert (exists v', _increment_version (current_version md) change_type = Ok v')
    as [v' Hinc].
  { unfold _increment_version, _parse_version. rewrite Hm.
    destruct change_type; eauto. }
  rewrite (update_version_run _ _ _ _ _ _ _ _ _ Hmd Hinc) in Hrun.
  injection Hrun as <-. eexists md, _, _. split; [done|].
  unfold world_after_update. simpl. rewrite lookup_insert_eq. split; [done|].
  split; [intros other Ho; by rewrite lookup_insert_ne|]. done.
Qed.

(** A changelog in which no line starts with ["# "] gets the entry at the
    very top, followed by a newline and the old text. *)
Theorem changelog_without_header command_name old_version new_version
    version_entry w content :
  files w !! changelog_path repo_path = Some content ->
  Forall (fun line => Str.startswith "# " line = false) (Str.split_nl content) ->
  files (_update_changelog repo_path command_name old_version new_version
           version_entry w).1 !! changelog_path repo_path
  = Some (changelog_entry command_name new_version
            (strftime_Ymd (clock w (ticks w))) version_entry
          +:+ Str.NL +:+ content).
Proof.
  intros Hc Hno. rewrite _update_changelog_run. simpl.
  rewrite lookup_insert_eq, Hc, entry_lines_entry. simpl. f_equal.
  unfold changelog_with_entry. rewrite (insert_index_from_no_header O _ Hno).
  unfold list_insert_at. rewrite take_0, drop_0.
  pose proof (split_nl_nonempty content) as Hne.
  pose proof (join_split_nl content) as Hj.
  destruct (Str.split_nl content) as [|x xs]; [done|].
  change (Str.join Str.NL ([] ++ ?e :: x :: xs))
    with (e +:+ Str.NL +:+ Str.join Str.NL (x :: xs)).
  by rewrite Hj.
Qed.

End MoreUpdate.

Lemma update_version_frame_witness :
  exists md md' version_entry,
    metadata (registered_world "1.0.0") !! "demo" = Some md
    /\ metadata
         (update_version "." "demo" MAJOR ["rewrite"] (Some ["api"]) None
            (registered_world "1.0.0")).1 !! "demo" = Some md'
    /\ version_history md' = version_history md ++ [version_entry]
    /\ breaking_changes version_entry = ["api"]
    /\ deprecated_features version_entry = [].
Proof.
  destruct (update_version_frame "." "demo" MAJOR ["rewrite"] (Some ["api"]) None
              (registered_world "1.0.0")
              (update_version "." "demo" MAJOR ["rewrite"] (Some ["api"]) None
                 (registered_world "1.0.0")).1)
    as (md & md' & e & H1 & H2 & _ & _ & _ & _ & _ & _ & _ & _ & H3 & _ & H4 & H5).
  { vm_compute. reflexivity. }
  exists md, md', e. auto.
Defined.

Lemma changelog_without_header_witness :
  files (_update_changelog "." "demo" "1.0.0" "1.1.0" demo_entry
           (changelog_world "notes")).1 !! changelog_path "."
  = Some (changelog_entry "demo" "1.1.0" "2024-01-01" demo_entry
          +:+ Str.NL +:+ "notes").
Proof.
  apply (changelog_without_header "." "demo" "1.0.0" "1.1.0" demo_entry
           (changelog_world "notes") "notes").
  - reflexivity.
  - repeat constructor.
Defined.

(** ** More on [check_compatibility] *)

Lemma check_compatibility_world command_name required_version w :
  (check_compatibility command_name required_version w).1 = w.
Proof.
  unfold check_compatibility. run.
  destruct (metadata w !! command_name) as [md|]; [|done].
  destruct (_parse_version (current_version md)); [|done].
  by destruct (_parse_version required_version).
Qed.

Lemma check_compatibility_true_inv command_name required_version w w' :
  check_compatibility command_name required_version w = (w', Ok true) ->
  exists md t1 t2,
    metadata w !! command_name = Some md
    /\ _parse_version (current_version md) = Ok t1
    /\ _parse_version required_version = Ok t2
    /\ tuple_ge t1 t2 = true.
Proof.
  unfold check_compatibility. run.
  destruct (metadata w !! command_name) as [md|]; [|done].
  destruct (_parse_version (current_version md)) as [t1|] eqn:H1; [|done].
  destruct (_parse_version required_version) as [t2|] eqn:H2; [|done].
  intros [= _ Hge]. eauto 10.
Qed.

Lemma lex_ge_trans a b c : lex_ge a b -> lex_ge b c -> lex_ge a c.
Proof.
  destruct a as [[? ?] ?], b as [[? ?] ?], c as [[? ?] ?]. unfold lex_ge. lia.
Qed.

(** [check_compatibility] never changes the world. For a registered
    command it raises [ValueError] when the stored version is malformed
    (whatever is required) and when the required version is malformed; the
    error names the offending string. *)
Theorem check_compatibility_errors command_name required_version w :
  (check_compatibility command_name required_version w).1 = w
  /\ (forall md,
        metadata w !! command_name = Some md ->
        match_version (current_version md) = None ->
        check_compatibility command_name required_version w
        = (w, Raise (ValueError ("Invalid version format: " +:+ current_version md))))
  /\ (forall md,
        metadata w !! command_name = Some md ->
        match_version (current_version md) <> None ->
        match_version required_version = None ->
        check_compatibility command_name required_version w
        = (w, Raise (ValueError ("Invalid version format: " +:+ required_version)))).
Proof.
  split; [apply check_compatibility_world|]. split.
  - intros md Hmd Hv. unfold check_compatibility. run. rewrite Hmd.
    unfold _parse_version. by rewrite Hv.
  - intros md Hmd Hv Hr. unfold check_compatibility. run. rewrite Hmd.
    unfold _parse_version. rewrite Hr.
    by destruct (match_version (current_version md)) as [[[a b] c]|].
Qed.

(** A malformed stored version, and a malformed requirement. *)
Lemma check_compatibility_errors_witness :
  check_compatibility "demo" "1.0.0" (registered_world "1.0")
  = (registered_world "1.0", Raise (ValueError "Invalid version format: 1.0"))
  /\ check_compatibility "demo" ">=1.0.0" (registered_world "1.0.0")
     = (registered_world "1.0.0", Raise (ValueError "Invalid version format: >=1.0.0")).
Proof.
  split.
  - apply (proj1 (proj2 (check_compatibility_errors "demo" "1.0.0"
                           (registered_world "1.0"))) (demo_metadata "1.0")).
    + reflexivity.
    + reflexivity.
  - apply (proj2 (proj2 (check_compatibility_errors "demo" ">=1.0.0"
                           (registered_world "1.0.0"))) (demo_metadata "1.0.0")).
    + reflexivity.
    + discriminate.
    + reflexivity.
Defined.

(** Updates never break compatibility: a requirement the command satisfied
    before a successful update is satisfied after it. *)
Theorem update_version_keeps_compatibility repo_path command_name change_type
    change_list breaking deprecated required_version w w' :
  update_version repo_path command_name change_type change_list breaking
    deprecated w = (w', Ok tt) ->
  check_compatibility command_name required_version w = (w, Ok true) ->
  check_compatibility command_name required_version w' = (w', Ok true).
Proof.
  intros Hrun Hc.
  apply check_compatibility_true_inv in Hc as (md & t1 & t2 & Hmd & H1 & H2 & Hge).
  destruct (update_version_step repo_path command_name change_type change_list
              breaking deprecated w md t1 Hmd H1)
    as (w'' & md' & Hrun' & Hmd' & Ht' & _).
  rewrite Hrun' in Hrun. injection Hrun as ->.
  rewrite (check_compatibility_parsed _ _ _ _ _ _ Hmd' Ht' H2).
  do 2 f_equal. apply tuple_ge_lex.
  eapply lex_ge_trans; [|by apply tuple_ge_lex].
  apply tuple_ge_lex, bump_ge.
Qed.

Lemma update_version_keeps_compatibility_witness :
  let w' := (update_version "." "demo" MAJOR ["rewrite"] None None
               (registered_world "1.4.2")).1 in
  check_compatibility "demo" "1.3.9" w' = (w', Ok true).
Proof.
  intros w'.
  apply (update_version_keeps_compatibility "." "demo" MAJOR ["rewrite"] None None
           "1.3.9" (registered_world "1.4.2") w').
  - vm_compute. reflexivity.
  - vm_compute. reflexivity.
Defined.

(** ** More on the frontmatter rewrite *)

Lemma find0_contains p s : Str.contains p s = true -> is_Some (Str.find0 p s).
Proof.
  induction s as [|c s IH].
  - simpl. rewrite orb_false_r. intros ->. eauto.
  - cbn [Str.contains Str.find0].
    destruct (Str.startswith p (String c s)); [eauto|]. simpl.
    intros H. destruct (IH H) as [i ->]. simpl. eauto.
Qed.

Lemma contains_app_r p a b : Str.contains p b = true -> Str.contains p (a +:+ b) = true.
Proof.
  intros H. induction a as [|c a IH]; [done|].
  rewrite sapp_cons. by apply contains_cons.
Qed.

Lemma contains_here p a b : Str.contains p (a +:+ p +:+ b) = true.
Proof. apply contains_app_r, contains_startswith, startswith_app. Qed.

(** After a rewrite the file always opens with ["---"] and has a closing
    ["---"] further on: a later rewrite edits that block and never puts a
    second block in front. *)
Theorem new_content_closed_frontmatter content v :
  Str.startswith "---" (new_content content v) = true
  /\ is_Some (Str.find "---" 3 (new_content content v)).
Proof.
  assert (forall x y, Str.startswith "---" ("---" +:+ x +:+ "---" +:+ y) = true
                      /\ is_Some (Str.find "---" 3 ("---" +:+ x +:+ "---" +:+ y)))
    as Hshape.
  { intros x y. split; [apply startswith_app|].
    unfold Str.find. rewrite decide_True by (rewrite slength_app; simpl; lia).
    change (Str.drop 3 ("---" +:+ x +:+ "---" +:+ y)) with (x +:+ "---" +:+ y).
    destruct (find0_contains "---" (x +:+ "---" +:+ y) (contains_here _ _ _))
      as [i ->].
    simpl. eauto. }
  unfold new_content.
  destruct (Str.startswith "---" content);
    [destruct (Str.find "---" 3 content) as [e|]|].
  - apply Hshape.
  - replace ("---" +:+ Str.NL +:+ "version: " +:+ v +:+ Str.NL +:+ "---"
               +:+ Str.NL +:+ content)
      with ("---" +:+ (Str.NL +:+ "version: " +:+ v +:+ Str.NL) +:+ "---"
              +:+ (Str.NL +:+ content)) by (by rewrite !sapp_assoc).
    apply Hshape.
  - replace ("---" +:+ Str.NL +:+ "version: " +:+ v +:+ Str.NL +:+ "---"
               +:+ Str.NL +:+ content)
      with ("---" +:+ (Str.NL +:+ "version: " +:+ v +:+ Str.NL) +:+ "---"
              +:+ (Str.NL +:+ content)) by (by rewrite !sapp_assoc).
    apply Hshape.
Qed.

(** For a file without frontmatter, or whose opening ["---"] is never
    closed, the first rewrite puts the minimal block in front and every
    later rewrite only replaces the version in that block: the file carries
    the version written last and the original text after the block. *)
Theorem new_content_last_write_wins content v v' :
  Str.startswith "---" content = false \/ Str.find "---" 3 content = None ->
  Is_version v ->
  new_content content v = version_block v content
  /\ new_content (new_content content v) v' = version_block v' content.
Proof.
  intros Hc Hv.
  assert (new_content content v = version_block v content) as ->.
  { destruct Hc as [Hc | Hc]; [by apply new_content_no_frontmatter|].
    unfold new_content. rewrite Hc. by destruct (Str.startswith "---" content). }
  split; [done|]. by apply new_content_version_block.
Qed.

Lemma new_content_last_write_wins_witness :
  new_content "# Demo" "1.0.0" = version_block "1.0.0" "# Demo"
  /\ new_content (new_content "# Demo" "1.0.0") "2.0.0" = version_block "2.0.0" "# Demo".
Proof.
  apply (new_content_last_write_wins "# Demo" "1.0.0" "2.0.0").
  - left. reflexivity.
  - by apply (Is_version_compute "1" "0" "0").
Defined.

Section Substitution.

Implicit Types (s p a b r : string).

Lemma startswith_app_cases p a s :
  Str.startswith p (a +:+ s) = true ->
  Str.startswith p a = true \/ Str.startswith a p = true.
Proof.
  revert a. induction p as [|x p IH]; intros a H; [by left|].
  destruct a as [|y a]; [by right|].
  rewrite sapp_cons in H. simpl in *.
  destruct (decide (x = y)) as [->|]; [|done].
  rewrite decide_True by done. by apply IH.
Qed.

Lemma startswith_all f a p :
  Str.startswith a p = true -> Str.all f p = true -> Str.all f a = true.
Proof.
  revert p. induction a as [|x a IH]; intros p H Hp; [done|].
  destruct p as [|y p]; [done|]. simpl in *.
  destruct (decide (x = y)) as [->|]; [|done].
  apply andb_true_iff in Hp as [Hy Hp]. by rewrite Hy, (IH p).
Qed.

Lemma endswith_char_all f c s :
  Path.endswith_char c s = true -> f c = false -> Str.all f s = false.
Proof.
  intros H Hc. induction s as [|x s IH]; [done|].
  destruct s as [|y s].
  - simpl in H. destruct (decide (x = c)) as [->|]; [|done]. simpl. by rewrite Hc.
  - change (Path.endswith_char c (String x (String y s)))
      with (Path.endswith_char c (String y s)) in H.
    change (Str.all f (String x (String y s)))
      with (f x && Str.all f (String y s)).
    rewrite (IH H). apply andb_false_r.
Qed.

Lemma startswith_app_l p a b :
  Str.startswith p a = true -> Str.startswith p (a +:+ b) = true.
Proof.
  revert a. induction p as [|x p IH]; intros a H; [done|].
  destruct a as [|y a]; [done|]. rewrite sapp_cons. simpl in *.
  destruct (decide (x = y)); [by apply IH|done].
Qed.

Lemma contains_app_l p a b : Str.contains p a = true -> Str.contains p (a +:+ b) = true.
Proof.
  induction a as [|c a IH].
  - simpl. rewrite orb_false_r. intros H.
    apply contains_startswith. by apply (startswith_app_l p "" b).
  - cbn [Str.contains]. rewrite sapp_cons. cbn [Str.contains].
    intros [H | H]%orb_true_iff.
    + rewrite <- sapp_cons, (startswith_app_l _ _ b H). done.
    + rewrite (IH H). apply orb_true_r.
Qed.

Lemma contains_cons_false p c s :
  Str.contains p (String c s) = false ->
  Str.startswith p (String c s) = false /\ Str.contains p s = false.
Proof. cbn [Str.contains]. by intros [? ?]%orb_false_iff. Qed.

(** A prefix that ends with a character foreign to [p] cannot hold the
    start of an occurrence of [p] that runs past it. *)
Lemma startswith_past_separator p f a s x :
  Str.all f p = true -> f x = false ->
  a = "" \/ Path.endswith_char x a = true ->
  Str.startswith p a = false ->
  a <> "" ->
  Str.startswith p (a +:+ s) = false.
Proof.
  intros Hp Hx [-> | Hend] Ha Hne; [done|].
  destruct (Str.startswith p (a +:+ s)) eqn:H; [|done].
  apply startswith_app_cases in H as [H | H]; [congruence|].
  pose proof (startswith_all f a p H Hp) as Hall.
  by rewrite (endswith_char_all f x a Hend Hx) in Hall.
Qed.

Lemma endswith_char_tail x c s :
  s <> "" -> Path.endswith_char x (String c s) = Path.endswith_char x s.
Proof. by destruct s. Qed.

Lemma match_version_key_none s :
  Str.startswith "version:" s = false -> match_version_key s = None.
Proof. intros H. unfold match_version_key. by rewrite H. Qed.

(** Text without ["version:"] is left alone by the substitution. *)
Lemma re_sub_go_id repl s :
  Str.contains "version:" s = false -> re_sub_go repl O s = s.
Proof.
  induction s as [|c s IH]; [done|].
  intros [H1 H2]%contains_cons_false. cbn [re_sub_go].
  by rewrite (match_version_key_none _ H1), (IH H2).
Qed.

Lemma version_key_no_newline :
  Str.all (fun c => negb (bool_decide (c = Str.nl))) "version:" = true.
Proof. reflexivity. Qed.

(** So is a prefix without ["version:"] that is empty or ends a line. *)
Lemma re_sub_go_prefix repl pre s :
  Str.contains "version:" pre = false ->
  pre = "" \/ Path.endswith_char Str.nl pre = true ->
  re_sub_go repl O (pre +:+ s) = pre +:+ re_sub_go repl O s.
Proof.
  induction pre as [|c pre IH]; intros Hc Hend; [done|].
  apply contains_cons_false in Hc as [H1 H2].
  rewrite sapp_cons. cbn [re_sub_go].
  rewrite match_version_key_none; cycle 1.
  { rewrite <- sapp_cons.
    apply (startswith_past_separator "version:"
             (fun c => negb (bool_decide (c = Str.nl))) _ s Str.nl);
      [apply version_key_no_newline|by rewrite bool_decide_eq_true_2|done|done|done]. }
  rewrite IH; [by rewrite sapp_cons|done|].
  destruct pre as [|d pre]; [by left|right].
  destruct Hend as [?|Hend]; [done|]. by rewrite endswith_char_tail in Hend.
Qed.

Lemma match_version_key_value v post :
  v <> "" -> Str.all digit_or_dot v = true ->
  match post with "" => True | String c _ => digit_or_dot c = false end ->
  match_version_key ("version: " +:+ v +:+ post)
  = Some (String.length ("version: " +:+ v)).
Proof.
  intros Hne Hv Hpost. destruct post as [|c r].
  - rewrite sapp_nil_r. unfold match_version_key.
    replace (Str.startswith "version:" ("version: " +:+ v)) with true
      by (symmetry; apply (startswith_app "version:" (" " +:+ v))).
    change (Str.drop 8 ("version: " +:+ v)) with (String " " v).
    assert (Str.span Str.is_space (String " " v) = (" ", v)) as ->.
    { destruct v as [|x v]; [done|]. simpl in Hv. apply andb_true_iff in Hv as [Hx _].
      cbn -[Str.is_space].
      assert (Str.is_space x = false) as ->; [|done].
      unfold digit_or_dot in Hx. apply orb_true_iff in Hx as [Hx | Hx].
      - apply is_digit_cases in Hx. by repeat destruct Hx as [-> | Hx]; try subst x.
      - apply bool_decide_eq_true_1 in Hx as ->. done. }
    fold digit_or_dot. rewrite (span_all digit_or_dot v Hv).
    destruct v as [|x v]; [done|]. rewrite slength_app. done.
  - by apply match_version_key_line.
Qed.

(** The substitution on a span with one plain version line replaces the
    value of that line and nothing else. *)
Lemma re_sub_version_plain repl pre v0 post :
  (pre = "" \/ Path.endswith_char Str.nl pre = true) ->
  Str.contains "version:" pre = false ->
  v0 <> "" -> Str.all digit_or_dot v0 = true ->
  match post with "" => True | String c _ => digit_or_dot c = false end ->
  Str.contains "version:" post = false ->
  re_sub_version repl (pre +:+ "version: " +:+ v0 +:+ post) = pre +:+ repl +:+ post.
Proof.
  intros Hend Hpre Hne Hv Hpost Hnov. unfold re_sub_version.
  rewrite re_sub_go_prefix by done. f_equal.
  change ("version: " +:+ v0 +:+ post)
    with (String "v" ("ersion: " +:+ v0 +:+ post)).
  cbn [re_sub_go].
  change (String "v" ("ersion: " +:+ v0 +:+ post))
    with ("version: " +:+ v0 +:+ post).
  rewrite (match_version_key_value v0 post Hne Hv Hpost). f_equal.
  replace (String.length ("version: " +:+ v0) - 1)%nat
    with (String.length ("ersion: " +:+ v0))
    by (rewrite !slength_app; simpl; lia).
  replace ("ersion: " +:+ v0 +:+ post) with (("ersion: " +:+ v0) +:+ post)
    by (by rewrite !sapp_assoc).
  rewrite re_sub_go_skip. by apply re_sub_go_id.
Qed.

Lemma startswith_dashes a r :
  a <> "" ->
  Str.startswith "---" (a +:+ "---" +:+ r) = Str.startswith "---" (a +:+ "--").
Proof.
  intros Hne. destruct a as [|c1 [|c2 [|c3 a]]]; [done|..];
    rewrite !sapp_cons; simpl; repeat case_decide; done.
Qed.

(** The closing delimiter is found right after a span that has no ["---"],
    not even together with the first two dashes of the delimiter. *)
Lemma find0_closing a r :
  Str.contains "---" (a +:+ "--") = false ->
  Str.find0 "---" (a +:+ "---" +:+ r) = Some (String.length a).
Proof.
  induction a as [|c a IH]; intros H; [done|].
  rewrite sapp_cons in H. apply contains_cons_false in H as [H1 H2].
  rewrite <- sapp_cons in H1.
  rewrite <- (startswith_dashes (String c a) r) in H1 by done.
  rewrite (sapp_cons c a) in H1. rewrite (sapp_cons c a).
  cbn [Str.find0]. rewrite H1, (IH H2). done.
Qed.

Lemma contains_dashes_skip a b :
  Str.all (fun c => negb (bool_decide (c = "-"%char))) a = true ->
  Str.contains "---" (a +:+ b) = Str.contains "---" b.
Proof.
  induction a as [|c a IH]; [done|].
  intros Ha. simpl in Ha. apply andb_true_iff in Ha as [Hc Ha].
  rewrite sapp_cons. cbn [Str.contains]. rewrite (IH Ha).
  cbn [Str.startswith].
  rewrite decide_False; [done|].
  intros <-. by rewrite bool_decide_eq_true_2 in Hc.
Qed.

Lemma contains_app_false_l p a b :
  Str.contains p (a +:+ b) = false -> Str.contains p a = false.
Proof.
  intros H. destruct (Str.contains p a) eqn:Ha; [|done].
  by rewrite (contains_app_l p a b Ha) in H.
Qed.

Lemma contains_app_false_r p a b :
  Str.contains p (a +:+ b) = false -> Str.contains p b = false.
Proof.
  intros H. destruct (Str.contains p b) eqn:Hb; [|done].
  by rewrite (contains_app_r p a b Hb) in H.
Qed.

(** A prefix without [p] that is empty or ends with a character foreign to
    [p] adds no occurrence of [p]. *)
Lemma contains_after_separator p f a b x :
  Str.all f p = true -> f x = false ->
  a = "" \/ Path.endswith_char x a = true ->
  Str.contains p a = false -> Str.contains p b = false ->
  Str.contains p (a +:+ b) = false.
Proof.
  intros Hp Hx Hend Ha Hb. induction a as [|c a IH]; [done|].
  apply contains_cons_false in Ha as [H1 H2].
  rewrite sapp_cons. cbn [Str.contains]. rewrite <- sapp_cons.
  rewrite (startswith_past_separator p f (String c a) b x Hp Hx Hend H1) by done.
  simpl. apply IH; [|done].
  destruct a as [|d a]; [by left|right].
  destruct Hend as [?|Hend]; [done|]. by rewrite endswith_char_tail in Hend.
Qed.

(** Replacing the value of a plain version line by another run of digits
    and dots gives a plain version line again. *)
Lemma plain_version_line_replace pre v0 post v :
  plain_version_line pre v0 post ->
  v <> "" -> Str.all digit_or_dot v = true ->
  plain_version_line pre v post.
Proof.
  intros (Hend & Hpre & Hne0 & Hv0 & Hpost & Hnov & Hd) Hne Hv.
  repeat split; try done.
  pose proof (contains_app_false_l _ _ _ Hd) as Hd1.
  assert (Str.contains "---" (post +:+ "--") = false) as Hd2.
  { replace (pre +:+ "version: " +:+ v0 +:+ post +:+ "--")
      with ((pre +:+ "version: " +:+ v0) +:+ post +:+ "--") in Hd
      by (by rewrite !sapp_assoc).
    by apply contains_app_false_r in Hd. }
  apply (contains_after_separator "---"
           (fun c => negb (bool_decide (c = Str.nl))) pre _ Str.nl);
    [done|by rewrite bool_decide_eq_true_2|done|done|].
  replace ("version: " +:+ v +:+ post +:+ "--")
    with (("version: " +:+ v) +:+ post +:+ "--") by (by rewrite !sapp_assoc).
  rewrite contains_dashes_skip; [done|].
  rewrite all_app. simpl.
  by rewrite (all_impl _ _ v digit_or_dot_no_dash Hv).
Qed.

Lemma new_content_plain pre v0 post rest v :
  plain_version_line pre v0 post ->
  new_content (file_with_version pre v0 post rest) v
  = file_with_version pre v post rest.
Proof.
  intros (Hend & Hpre & Hne0 & Hv0 & Hpost & Hnov & Hd).
  set (fm := pre +:+ "version: " +:+ v0 +:+ post).
  assert (file_with_version pre v0 post rest = "---" +:+ fm +:+ "---" +:+ rest)
    as -> by (unfold file_with_version, fm; by rewrite !sapp_assoc).
  assert (forall r, Str.drop 3 ("---" +:+ r) = r) as Hdrop3 by done.
  unfold new_content. rewrite startswith_app.
  assert (Str.find "---" 3 ("---" +:+ fm +:+ "---" +:+ rest)
          = Some (3 + String.length fm)%nat) as ->.
  { unfold Str.find. rewrite decide_True by (rewrite slength_app; simpl; lia).
    rewrite Hdrop3, find0_closing; [done|].
    unfold fm. by rewrite !sapp_assoc. }
  unfold Str.slice.
  replace (3 + String.length fm - 3)%nat with (String.length fm) by lia.
  rewrite Hdrop3, take_app_length.
  replace (Str.drop (3 + String.length fm + 3) ("---" +:+ fm +:+ "---" +:+ rest))
    with rest.
  2:{ replace ("---" +:+ fm +:+ "---" +:+ rest)
        with (("---" +:+ fm +:+ "---") +:+ rest) by (by rewrite !sapp_assoc).
      replace (3 + String.length fm + 3)%nat
        with (String.length ("---" +:+ fm +:+ "---"))
        by (rewrite !slength_app; simpl; lia).
      by rewrite drop_app_length. }
  assert (Str.contains "version:" fm = true) as ->.
  { unfold fm. apply contains_app_r.
    apply contains_startswith, (startswith_app "version:" (" " +:+ v0 +:+ post)). }
  unfold fm. rewrite re_sub_version_plain by done.
  unfold file_with_version. by rewrite !sapp_assoc.
Qed.

End Substitution.

(** A command file whose frontmatter has one plain version line: the
    rewrite replaces the value on that line and leaves every other
    character of the file as it is. When the version written is well
    formed the result is again such a file, so a second rewrite with [v']
    gives the file with [v']. *)
Theorem new_content_replaces_version pre v0 post rest v :
  plain_version_line pre v0 post ->
  new_content (file_with_version pre v0 post rest) v = file_with_version pre v post rest
  /\ (Is_version v ->
      forall v',
        new_content (new_content (file_with_version pre v0 post rest) v) v'
        = file_with_version pre v' post rest).
Proof.
  intros H. rewrite (new_content_plain _ _ _ _ _ H). split; [done|].
  intros [Hne Hv]%Is_version_digit_or_dot v'.
  apply new_content_plain. by apply (plain_version_line_replace pre v0 post v).
Qed.

(** A frontmatter with a name, a version and tags. *)
Lemma new_content_replaces_version_witness :
  let pre := Str.NL +:+ "name: api-scaffold" +:+ Str.NL in
  let post := Str.NL +:+ "tags:" +:+ Str.NL +:+ "- api" +:+ Str.NL in
  let rest := Str.NL +:+ "# API" in
  new_content (file_with_version pre "1.0.0" post rest) "1.1.0"
  = file_with_version pre "1.1.0" post rest
  /\ (Is_version "1.1.0" ->
      forall v',
        new_content (new_content (file_with_version pre "1.0.0" post rest) "1.1.0") v'
        = file_with_version pre v' post rest).
Proof.
  intros pre post rest.
  apply (new_content_replaces_version pre "1.0.0" post rest "1.1.0").
  repeat split; try reflexivity; try discriminate.
  right. reflexivity.
Defined.

(** An update of a command whose workflow file exists rewrites that file
    with the new version, also when a tool file of the same name exists: a
    frontmatter with one plain version line has the new version on that
    line and is otherwise as before, and a file without frontmatter gets
    the minimal block with the new version in front. The only other file
    written is the changelog. *)
Theorem update_version_rewrites_workflow_file repo_path command_name change_type
    change_list breaking deprecated w md content :
  let workflow := repo_path // "workflows" // (command_name +:+ ".md") in
  metadata w !! command_name = Some md ->
  Is_version (current_version md) ->
  files w !! workflow = Some content ->
  workflow <> changelog_path repo_path ->
  exists w' new_version,
    update_version repo_path command_name change_type change_list breaking
      deprecated w = (w', Ok tt)
    /\ _increment_version (current_version md) change_type = Ok new_version
    /\ files w' !! workflow = Some (new_content content new_version)
    /\ (forall pre v0 post rest,
          content = file_with_version pre v0 post rest ->
          plain_version_line pre v0 post ->
          files w' !! workflow = Some (file_with_version pre new_version post rest))
    /\ (Str.startswith "---" content = false ->
        files w' !! workflow = Some (version_block new_version content))
    /\ (forall p, p <> workflow -> p <> changelog_path repo_path ->
                  files w' !! p = files w !! p).
Proof.
  intros workflow Hmd Hv Hfile Hne.
  destruct (Is_version_parse _ Hv) as [t Ht].
  destruct (_increment_version_bump _ _ change_type Ht) as (v' & Hinc & _).
  exists (world_after_update repo_path command_name md v' change_list breaking
            deprecated w), v'.
  split; [by apply update_version_run|]. split; [done|].
  assert (files (world_after_update repo_path command_name md v' change_list
                   breaking deprecated w) !! workflow
          = Some (new_content content v')) as Hnew.
  { unfold world_after_update, command_file_of. fold workflow.
    rewrite bool_decide_eq_true_2 by eauto. simpl.
    rewrite lookup_insert_ne by done. rewrite lookup_insert_eq. by rewrite Hfile. }
  split; [exact Hnew|]. split; [|split].
  - intros pre v0 post rest -> Hplain. rewrite Hnew.
    by rewrite (new_content_plain _ _ _ _ _ Hplain).
  - intros Hno. rewrite Hnew. by rewrite (new_content_no_frontmatter _ _ Hno).
  - intros p Hp1 Hp2. unfold world_after_update, command_file_of. fold workflow.
    rewrite bool_decide_eq_true_2 by eauto. simpl. by rewrite !lookup_insert_ne.
Qed.

(** A patch of [demo], which has a workflow file with version 1.0.0 in its
    frontmatter and a tool file: the workflow file afterwards carries 1.0.1
    and the tool file is as before. *)
Lemma update_version_rewrites_workflow_file_witness :
  exists w',
    update_version "." "demo" PATCH ["fix"] None None versioned_world = (w', Ok tt)
    /\ files w' !! "workflows/demo.md"
       = Some ("---" +:+ Str.NL +:+ "version: 1.0.1" +:+ Str.NL +:+ "---" +:+ Str.NL
               +:+ "# Demo")
    /\ files w' !! "tools/demo.md" = Some "# Tool".
Proof.
  destruct (update_version_rewrites_workflow_file "." "demo" PATCH ["fix"] None None
              versioned_world (demo_metadata "1.0.0")
              ("---" +:+ Str.NL +:+ "version: 1.0.0" +:+ Str.NL +:+ "---" +:+ Str.NL
               +:+ "# Demo"))
    as (w' & new_version & Hrun & Hinc & _ & Hplain & _ & Hframe).
  - reflexivity.
  - by apply (Is_version_compute "1" "0" "0").
  - reflexivity.
  - discriminate.
  - assert (new_version = "1.0.1") as ->.
    { vm_compute in Hinc. congruence. }
    exists w'. split; [exact Hrun|]. split.
    + apply (Hplain Str.NL "1.0.0" Str.NL (Str.NL +:+ "# Demo")); [reflexivity|].
      repeat split; try reflexivity; try discriminate.
      right. reflexivity.
    + rewrite Hframe; [reflexivity|discriminate|discriminate].
Defined.

(** * Further properties of the validators *)

Section Structure.

Implicit Types (s : string).

Lemma lstrip_empty_iff s : lstrip s = "" <-> Str.all Str.is_space s = true.
Proof.
  induction s as [|c s IH]; [done|]. simpl.
  destruct (Str.is_space c); simpl; [done|]. split; done.
Qed.

Lemma lstrip_head s c r : lstrip s = String c r -> Str.is_space c = false.
Proof.
  induction s as [|x s IH]; [done|]. simpl.
  destruct (Str.is_space x) eqn:Hx; [done|]. by intros [= <- _].
Qed.

Lemma rstrip_head c r : Str.is_space c = false -> Str.rstrip (String c r) <> "".
Proof. intros Hc. simpl. rewrite Hc. by destruct (Str.rstrip r). Qed.

(** [strip] leaves nothing exactly when every character is white space. *)
Lemma strip_empty_iff s : strip s = "" <-> Str.all Str.is_space s = true.
Proof.
  unfold strip. rewrite <- lstrip_empty_iff.
  destruct (lstrip s) as [|c r] eqn:H; [done|].
  split; [|done]. intros Hr.
  by destruct (rstrip_head c r (lstrip_head _ _ _ H)).
Qed.

(** The lines of a text are made of characters of the text. *)
Lemma splitlines_all_bounded f n s :
  (String.length s <= n)%nat ->
  Str.all f s = true -> Forall (fun l => Str.all f l = true) (splitlines s).
Proof.
  revert s. induction n as [|n IH]; intros s Hn Hs.
  { destruct s; [constructor|simpl in Hn; lia]. }
  destruct s as [|c s]; [constructor|].
  simpl in Hs, Hn. apply andb_true_iff in Hs as [Hc Hs].
  cbn [splitlines]. destruct (is_linebreak c).
  - destruct s as [|c' s']; [by repeat constructor|].
    simpl in Hs, Hn. apply andb_true_iff in Hs as [Hc' Hs'].
    destruct (bool_decide (c = "013"%char) && bool_decide (c' = "010"%char)).
    + constructor; [done|]. apply IH; [lia|done].
    + constructor; [done|]. apply IH; [simpl; lia|]. simpl. by rewrite Hc', Hs'.
  - assert (Forall (fun l => Str.all f l = true) (splitlines s)) as Hrec
      by (apply IH; [lia|done]).
    destruct (splitlines s) as [|l ls]; [repeat constructor; simpl; by rewrite Hc|].
    inversion Hrec; subst. constructor; [simpl; by rewrite Hc|done].
Qed.

(** The lines of a text are made of characters of the text. *)
Lemma splitlines_all f s :
  Str.all f s = true -> Forall (fun l => Str.all f l = true) (splitlines s).
Proof. by apply (splitlines_all_bounded f (String.length s)). Qed.

Lemma any_startswith_hash_space ls :
  Forall (fun l => Str.all Str.is_space l = true) ls ->
  any (Str.startswith "#") ls = false.
Proof.
  induction 1 as [|l ls Hl _ IH]; [done|].
  unfold any in *. cbn [existsb]. rewrite IH, orb_false_r.
  destruct l as [|c l]; [done|]. simpl in *.
  destruct (decide ("#"%char = c)) as [<-|]; [done|done].
Qed.

Lemma _validate_structure_results path text :
  results (_validate_structure (CommandValidator_init path text))
  = (match strip text with "" => [empty_file_error path] | String _ _ => [] end)
    ++ (if any (Str.startswith "#") (splitlines text) then []
        else [no_header_warning path]).
Proof.
  unfold _validate_structure, CommandValidator_init.
  cbn [content lines command_path results append_result].
  destruct (strip text); cbn [content lines command_path results append_result];
    destruct (any (Str.startswith "#") (splitlines text)); reflexivity.
Qed.

(** [_validate_structure] on a fresh validator. A text made of white space
    only (the empty text included) gets the error and the warning, in that
    order. There is no finding exactly when the text has a character that is
    not white space and a line that starts with [#]. *)
Theorem validate_structure_findings path text :
  let self := CommandValidator_init path text in
  (Str.all Str.is_space text = true ->
   results (_validate_structure self) = [empty_file_error path; no_header_warning path])
  /\ (results (_validate_structure self) = []
      <-> Str.all Str.is_space text = false
          /\ exists line, line ∈ splitlines text /\ Str.startswith "#" line = true).
Proof.
  intros self. unfold self. rewrite _validate_structure_results.
  pose proof (strip_empty_iff text) as Hstrip.
  assert (any (Str.startswith "#") (splitlines text) = true
          <-> exists line, line ∈ splitlines text /\ Str.startswith "#" line = true)
    as Hany.
  { unfold any. rewrite existsb_exists. setoid_rewrite list_elem_of_In. done. }
  split.
  - intros Hws. rewrite (proj2 Hstrip Hws).
    by rewrite (any_startswith_hash_space _ (splitlines_all _ _ Hws)).
  - destruct (strip text) as [|c r] eqn:Hs.
    + rewrite (proj1 Hstrip eq_refl). split; [done|by intros [? _]].
    + assert (Str.all Str.is_space text = false) as ->.
      { destruct (Str.all Str.is_space text); [|done].
        discriminate (proj2 Hstrip eq_refl). }
      rewrite <- Hany.
      destruct (any (Str.startswith "#") (splitlines text)); simpl; split;
        try done; by intros [_ ?].
Qed.

End Structure.

Section Naming.

Lemma is_name_char_nl : is_name_char Str.nl = false.
Proof. reflexivity. Qed.

(** The pattern accepts the names of the convention, and those names
    followed by one final newline. *)
Lemma match_name_iff name :
  match_name name = true
  <-> exists name', lowercase_hyphen name'
                    /\ (name = name' \/ name = name' +:+ Str.NL).
Proof.
  split.
  - destruct name as [|c rest]; [done|]. simpl.
    intros [Hc Hr]%andb_true_iff.
    destruct (Str.span is_name_char rest) as [a r] eqn:Hs.
    apply span_spec in Hs as (-> & Ha & _).
    exists (String c a). split; [by exists c, a|].
    apply orb_true_iff in Hr as [Hr | Hr]; apply bool_decide_eq_true_1 in Hr as ->.
    + left. by rewrite sapp_nil_r.
    + right. done.
  - intros (name' & (c & rest & -> & Hc & Hrest) & [-> | ->]).
    + simpl. rewrite Hc, (span_all _ _ Hrest). done.
    + rewrite sapp_cons. unfold match_name. rewrite Hc.
      change (rest +:+ Str.NL) with (rest +:+ String Str.nl "").
      rewrite (span_app_stop is_name_char rest Str.nl "" Hrest is_name_char_nl).
      done.
Qed.

(** [_validate_naming] adds the naming error exactly when the file stem is
    not a name of the convention (a final newline apart), and the length
    warning exactly when the stem has more than 30 characters; the two are
    independent of each other, and nothing else is added. *)
Theorem validate_naming_findings self :
  let name := Path.stem (command_path self) in
  let file := command_path self in
  exists new,
    added self (_validate_naming self) new
    /\ (naming_error file name ∈ new
        <-> ~ exists name', lowercase_hyphen name'
                            /\ (name = name' \/ name = name' +:+ Str.NL))
    /\ (name_length_warning file name ∈ new <-> (30 < String.length name)%nat)
    /\ (forall r, r ∈ new -> r = naming_error file name \/ r = name_length_warning file name).
Proof.
  intros name file. pose proof (match_name_iff name) as Hiff.
  assert (naming_error file name <> name_length_warning file name) as Hneq by done.
  assert (results (_validate_naming self)
          = results self
            ++ ((if match_name name then [] else [naming_error file name])
                ++ (if (30 <? String.length name)%nat
                    then [name_length_warning file name] else []))) as Hres.
  { unfold _validate_naming, command_name. fold name file.
    destruct (match_name name);
      cbn [negb command_path content lines results append_result]; fold name file;
      destruct (30 <? String.length name)%nat;
      cbn [command_path content lines results append_result];
      rewrite ?app_nil_r, <- ?(assoc (++)); done. }
  eexists. split; [exact Hres|].
  destruct (match_name name) eqn:Hm;
    destruct (Nat.ltb_spec 30 (String.length name)) as [Hl | Hl]; simpl;
    rewrite ?elem_of_cons, ?elem_of_nil;
    (split; [|split]);
    try (intros r; rewrite ?elem_of_cons, ?elem_of_nil);
    try (intuition (try congruence; try lia); fail).
Qed.

(** [Bad_Name] and [valid-name-123]. *)
Example validate_naming_examples :
  results (_validate_naming (CommandValidator_init "tools/Bad_Name.md" "# t"))
  = [naming_error "tools/Bad_Name.md" "Bad_Name"]
  /\ results (_validate_naming (CommandValidator_init "tools/valid-name-123.md" "# t"))
     = [].
Proof. split; reflexivity. Qed.

End Naming.

Section Headers.

Lemma header_level_startswith line :
  Str.startswith "#" line = true -> (1 <= header_level line)%nat.
Proof.
  destruct line as [|c line]; [done|]. simpl.
  destruct (decide ("#"%char = c)) as [<-|]; [|done]. simpl. lia.
Qed.

(** The first element of the header list: the first line that starts with
    [#]; the other elements are the headers of the lines after it. *)
Lemma header_levels_from_first i ls lvl n rest :
  header_levels_from i ls = (lvl, n) :: rest ->
  (i < n)%nat
  /\ (exists line, ls !! (n - 1 - i)%nat = Some line
                   /\ Str.startswith "#" line = true /\ lvl = header_level line)
  /\ rest = header_levels_from n (drop (n - i) ls).
Proof.
  revert i. induction ls as [|line ls IH]; intros i; [done|].
  cbn [header_levels_from].
  destruct (Str.startswith "#" line) eqn:Hh.
  - intros [= <- <- <-]. split; [lia|]. split.
    + exists line. replace (i + 1 - 1 - i)%nat with O by lia. done.
    + replace (i + 1 - i)%nat with 1%nat by lia.
      by replace (i + 1)%nat with (S i) by lia.
  - intros H. destruct (IH _ H) as (Hn & (l & Hl & Hs & Hlvl) & Hrest).
    split; [lia|]. split.
    + exists l. replace (n - 1 - i)%nat with (S (n - 1 - S i)) by lia. done.
    + replace (n - i)%nat with (S (n - S i)) by lia. done.
Qed.

(** The second loop over the headers of the lines after line [i], when
    the last header so far is [prev_line] on line [m]: each warning names a
    header line, and the level it jumps from is the level of the header
    line just above that one. *)
Lemma header_jumps_sound file (L : list string) ls :
  forall i m prev_line r,
    (forall j, ls !! j = L !! (i + j)%nat) ->
    (1 <= m)%nat -> (m <= i)%nat ->
    L !! (m - 1)%nat = Some prev_line ->
    Str.startswith "#" prev_line = true ->
    (forall k l, (m < k)%nat -> (k <= i)%nat -> L !! (k - 1)%nat = Some l ->
                 Str.startswith "#" l = false) ->
    r ∈ header_jumps file (header_level prev_line) (header_levels_from i ls) ->
    exists n line m' prev_line',
      r = header_jump file (header_level prev_line') (header_level line) n
      /\ (1 <= m')%nat /\ (m' < n)%nat
      /\ L !! (m' - 1)%nat = Some prev_line'
      /\ Str.startswith "#" prev_line' = true
      /\ L !! (n - 1)%nat = Some line
      /\ Str.startswith "#" line = true
      /\ (forall k l, (m' < k)%nat -> (k < n)%nat -> L !! (k - 1)%nat = Some l ->
                      Str.startswith "#" l = false)
      /\ (header_level prev_line' + 1 < header_level line)%nat.
Proof.
  induction ls as [|line ls IH]; intros i m prev_line r Hls Hm1 Hmi Hprev Hph Hnone Hr.
  { by apply elem_of_nil in Hr. }
  assert (L !! i = Some line) as Hline.
  { rewrite <- (Nat.add_0_r i), <- Hls. done. }
  assert (forall j, ls !! j = L !! (S i + j)%nat) as Hls'.
  { intros j. replace (S i + j)%nat with (i + S j)%nat by lia. by rewrite <- Hls. }
  cbn [header_levels_from] in Hr.
  destruct (Str.startswith "#" line) eqn:Hh.
  - cbn [header_jumps] in Hr. apply elem_of_app in Hr as [Hr | Hr].
    + destruct (Nat.ltb_spec (header_level prev_line + 1) (header_level line))
        as [Hlt|]; [|by apply elem_of_nil in Hr].
      apply list_elem_of_singleton in Hr as ->.
      exists (i + 1)%nat, line, m, prev_line.
      replace (i + 1 - 1)%nat with i by lia.
      split; [done|]. split; [done|]. split; [lia|]. split; [done|].
      split; [done|]. split; [done|]. split; [done|]. split; [|done].
      intros k l Hk1 Hk2. apply Hnone; lia.
    + apply (IH (S i) (i + 1)%nat line r Hls'); try done; try lia.
      by replace (i + 1 - 1)%nat with i by lia.
  - apply (IH (S i) m prev_line r Hls'); try done; try lia.
    intros k l Hk1 Hk2 Hl.
    destruct (decide (k = S i)) as [->|Hne].
    + replace (S i - 1)%nat with i in Hl by lia. congruence.
    + apply (Hnone k l); try done; lia.
Qed.

Lemma _validate_markdown_results self :
  results (_validate_markdown self)
  = results self
    ++ (if Nat.odd (Str.count "```" (content self))
        then [unclosed_code_block (command_path self)] else [])
    ++ match header_levels_from O (lines self) with
       | [] => []
       | (first_level, _) :: rest => header_jumps (command_path self) first_level rest
       end.
Proof.
  unfold _validate_markdown. rewrite odd_mod2.
  destruct (Nat.odd (Str.count "```" (content self)));
    cbn [command_path content lines results append_result];
    destruct (header_levels_from 0 (lines self)) as [|[first_level ?] rest];
    rewrite ?results_foldl_append; cbn [results append_result];
    rewrite ?app_nil_r, <- ?(assoc (++)); done.
Qed.

(** Each header warning of [_validate_markdown] points at a real header
    line and names the two levels the code compared: line [n] of the text
    starts with [#], the nearest line above it that starts with [#] is line
    [m], and the warning says that the level jumps from the level of line
    [m] to the level of line [n], which exceeds it by more than one. A
    reported header therefore has a header above it (the first header of a
    document is never reported, whatever its level), stands on line 2 or
    later and starts with at least three [#]. *)
Theorem header_warnings_point_at_headers path text r :
  r ∈ results (_validate_markdown (CommandValidator_init path text)) ->
  r = unclosed_code_block path
  \/ exists n line m prev_line,
       r = header_jump path (header_level prev_line) (header_level line) n
       /\ (1 <= m)%nat /\ (m < n)%nat
       /\ splitlines text !! (m - 1)%nat = Some prev_line
       /\ Str.startswith "#" prev_line = true
       /\ splitlines text !! (n - 1)%nat = Some line
       /\ Str.startswith "#" line = true
       /\ (forall k l, (m < k)%nat -> (k < n)%nat ->
                       splitlines text !! (k - 1)%nat = Some l ->
                       Str.startswith "#" l = false)
       /\ (header_level prev_line + 1 < header_level line)%nat
       /\ (3 <= header_level line)%nat.
Proof.
  rewrite _validate_markdown_results. unfold CommandValidator_init.
  cbn [results lines content command_path app].
  intros [Hr | Hr]%elem_of_app.
  { left. destruct (Nat.odd _); [by apply list_elem_of_singleton in Hr|].
    by apply elem_of_nil in Hr. }
  right.
  destruct (header_levels_from 0 (splitlines text)) as [|[first n1] rest] eqn:Hh;
    [by apply elem_of_nil in Hr|].
  destruct (header_levels_from_first _ _ _ _ _ Hh)
    as (Hn1 & (l1 & Hl1 & Hs1 & ->) & ->).
  replace (n1 - 1 - 0)%nat with (n1 - 1)%nat in Hl1 by lia.
  replace (n1 - 0)%nat with n1 in Hr by lia.
  destruct (header_jumps_sound path (splitlines text) (drop n1 (splitlines text))
              n1 n1 l1 r)
    as (n & line & m & prev_line & -> & Hm1 & Hmn & Hprev & Hph & Hline & Hlh
        & Hnone & Hjump); try done; try lia.
  { intros j. apply lookup_drop. }
  exists n, line, m, prev_line.
  pose proof (header_level_startswith _ Hph) as Hge.
  repeat (split; [done|]). lia.
Qed.

(** A document whose first header has three [#], followed by one with one
    and one with three: the one warning is for line 3, from level 1 to
    level 3, and the header above it is the one on line 2. *)
Lemma header_warnings_point_at_headers_witness :
  results (_validate_markdown
             (CommandValidator_init "tools/t.md"
                ("### Deep" +:+ Str.NL +:+ "# Top" +:+ Str.NL +:+ "### Jump")))
  = [mkValidationResult WARNING "Header level jumps from 1 to 3" (Some 3%nat)
       (Some "tools/t.md")]
  /\ (mkValidationResult WARNING "Header level jumps from 1 to 3" (Some 3%nat)
        (Some "tools/t.md") = unclosed_code_block "tools/t.md"
      \/ exists n line m prev_line,
           mkValidationResult WARNING "Header level jumps from 1 to 3" (Some 3%nat)
             (Some "tools/t.md")
           = header_jump "tools/t.md" (header_level prev_line) (header_level line) n
           /\ (1 <= m)%nat /\ (m < n)%nat
           /\ ["### Deep"; "# Top"; "### Jump"] !! (m - 1)%nat = Some prev_line
           /\ Str.startswith "#" prev_line = true
           /\ ["### Deep"; "# Top"; "### Jump"] !! (n - 1)%nat = Some line
           /\ Str.startswith "#" line = true
           /\ (forall k l, (m < k)%nat -> (k < n)%nat ->
                           ["### Deep"; "# Top"; "### Jump"] !! (k - 1)%nat = Some l ->
                           Str.startswith "#" l = false)
           /\ (header_level prev_line + 1 < header_level line)%nat
           /\ (3 <= header_level line)%nat).
Proof.
  split; [reflexivity|].
  apply (header_warnings_point_at_headers "tools/t.md"
           ("### Deep" +:+ Str.NL +:+ "# Top" +:+ Str.NL +:+ "### Jump")).
  vm_compute. apply list_elem_of_here.
Defined.

End Headers.

Section ExitCode.

(** [get_exit_code] is 1 exactly when some file has a finding of level
    error, and 0 otherwise: warnings and informational findings never fail
    the run, and the result does not depend on the order of the files. *)
Theorem get_exit_code_iff (results : gmap string (list ValidationResult)) :
  (get_exit_code results = 1%nat
   <-> exists file findings r,
         results !! file = Some findings /\ r ∈ findings /\ level r = ERROR)
  /\ (get_exit_code results = 0%nat
      <-> forall file findings r,
            results !! file = Some findings -> r ∈ findings -> level r <> ERROR).
Proof.
  unfold get_exit_code, any.
  assert (existsb
            (fun kv : string * list ValidationResult =>
               existsb (fun r => bool_decide (level r = ERROR)) kv.2)
            (map_to_list results) = true
          <-> exists file findings r,
                results !! file = Some findings /\ r ∈ findings /\ level r = ERROR)
    as Hiff.
  { rewrite existsb_exists. split.
    - intros ([file findings] & Hin & Hex). apply existsb_exists in Hex as (r & Hr & Hl).
      exists file, findings, r. apply list_elem_of_In, elem_of_map_to_list in Hin.
      split; [done|]. split; [by apply list_elem_of_In|by apply bool_decide_eq_true in Hl].
    - intros (file & findings & r & Hf & Hr & Hl). exists (file, findings).
      split; [by apply list_elem_of_In, elem_of_map_to_list|].
      apply existsb_exists. exists r. split; [by apply list_elem_of_In|].
      by apply bool_decide_eq_true. }
  destruct (existsb _ (map_to_list results)).
  - split; [split; [intros _; by apply Hiff|done]|].
    split; [done|]. intros Hall.
    destruct (proj1 Hiff eq_refl) as (file & findings & r & Hf & Hr & Hl).
    by destruct (Hall file findings r).
  - split.
    + split; [done|]. intros H. by apply Hiff in H.
    + split; [|done]. intros _ file findings r Hf Hr Hl.
      assert (false = true) by (apply Hiff; by exists file, findings, r). done.
Qed.

End ExitCode.

Section References.

Implicit Types (s a : string) (bol : bool).

Lemma ref_at_not_slash c s : c <> "/"%char -> ref_at (String c s) = None.
Proof.
  intros Hc. destruct c as [[] [] [] [] [] [] [] []]; done.
Qed.

Lemma ref_at_slash_free s : Str.all not_slash s = true -> ref_at s = None.
Proof.
  destruct s as [|c s]; [done|]. simpl. intros [Hc _]%andb_true_iff.
  apply ref_at_not_slash. intros ->. done.
Qed.

Lemma is_ref_delim_facts d :
  is_ref_delim d = true -> d <> "/"%char /\ is_name_char d = false.
Proof. destruct d as [[] [] [] [] [] [] [] []]; vm_compute; intros H; try done. Qed.

Lemma is_name_char_not_slash c : is_name_char c = true -> not_slash c = true.
Proof. destruct c as [[] [] [] [] [] [] [] []]; vm_compute; intros H; try done. Qed.

Lemma is_lower_name_char c : is_lower c = true -> is_name_char c = true.
Proof. intros H. unfold is_name_char. by rewrite H. Qed.

Lemma findall_refs_go_cons bol c s :
  findall_refs_go bol O (String c s)
  = match (if bol then ref_at (String c s) else None) with
    | Some (ref, n) => ref :: findall_refs_go (bool_decide (c = Str.nl)) (n - 1) s
    | None =>
        if is_ref_delim c then
          match ref_at s with
          | Some (ref, n) => ref :: findall_refs_go (bool_decide (c = Str.nl)) n s
          | None => findall_refs_go (bool_decide (c = Str.nl)) O s
          end
        else findall_refs_go (bool_decide (c = Str.nl)) O s
    end.
Proof. reflexivity. Qed.

(** Text without a slash holds no reference. *)
Lemma findall_refs_go_slash_free bol k s :
  Str.all not_slash s = true -> findall_refs_go bol k s = [].
Proof.
  revert bol k. induction s as [|c s IH]; intros bol k Hs; [done|].
  destruct k as [|k]; [|simpl in Hs; apply andb_true_iff in Hs as [_ Hs]; by apply IH].
  rewrite findall_refs_go_cons, (ref_at_slash_free _ Hs).
  simpl in Hs. apply andb_true_iff in Hs as [_ Hs].
  rewrite (ref_at_slash_free _ Hs), (IH _ _ Hs).
  by destruct bol, (is_ref_delim c).
Qed.

(** Passing over the rest of a match. *)
Lemma findall_refs_go_skip bol a d s :
  findall_refs_go bol (String.length a + 1) (a +:+ String d s)
  = findall_refs_go (bool_decide (d = Str.nl)) O s.
Proof.
  revert bol. induction a as [|c a IH]; intros bol; [by destruct s|].
  rewrite sapp_cons. cbn [String.length Nat.add findall_refs_go]. apply IH.
Qed.

Lemma findall_refs_go_skip_all bol a :
  findall_refs_go bol (String.length a) a = [].
Proof.
  revert bol. induction a as [|c a IH]; intros bol; [done|].
  cbn [String.length findall_refs_go]. apply IH.
Qed.

(** The pattern on a reference followed by nothing or by a delimiter. *)
Lemma ref_at_name name after :
  reference_name name ->
  match after with "" => True | String e _ => is_ref_delim e = true end ->
  ref_at ("/" +:+ name +:+ after)
  = Some ("/" +:+ name,
          (String.length ("/" +:+ name)
           + match after with "" => 0 | String _ _ => 1 end)%nat).
Proof.
  intros (c & b & -> & Hc & Hne & Hb) Hafter.
  change ("/" +:+ String c b +:+ after) with (String "/" (String c (b +:+ after))).
  cbn [ref_at]. rewrite Hc.
  destruct after as [|e after].
  - rewrite sapp_nil_r, (span_all _ _ Hb). destruct b as [|b0 b]; [done|].
    cbn [String.length]. do 2 f_equal. simpl. lia.
  - destruct (is_ref_delim_facts e Hafter) as [_ He].
    rewrite (span_app_stop _ b e after Hb He). destruct b as [|b0 b]; [done|].
    rewrite Hafter. do 2 f_equal. simpl. lia.
Qed.

Lemma reference_name_slash_free name :
  reference_name name -> Str.all not_slash name = true.
Proof.
  intros (c & b & -> & Hc & _ & Hb). simpl.
  rewrite (is_name_char_not_slash c (is_lower_name_char c Hc)).
  by apply (all_impl is_name_char not_slash b is_name_char_not_slash).
Qed.

(** What is found after a lone reference has been matched and [k]
    characters are still to be passed over. *)
Lemma findall_refs_go_trail bol name after :
  reference_trail after ->
  findall_refs_go bol
    (String.length name + match after with "" => 0 | String _ _ => 1 end)
    (name +:+ after) = [].
Proof.
  intros Htrail. destruct after as [|e after].
  - rewrite sapp_nil_r, Nat.add_0_r. apply findall_refs_go_skip_all.
  - destruct Htrail as [_ Hfree].
    rewrite findall_refs_go_skip. by apply findall_refs_go_slash_free.
Qed.

Lemma reference_trail_head after :
  reference_trail after ->
  match after with "" => True | String e _ => is_ref_delim e = true end.
Proof. destruct after; [done|]. by intros [? _]. Qed.

(** A lone reference at the start of the text. *)
Lemma findall_refs_at_start name after :
  reference_name name -> reference_trail after ->
  findall_refs_go true O ("/" +:+ name +:+ after) = ["/" +:+ name].
Proof.
  intros Hname Htrail.
  pose proof (ref_at_name name after Hname (reference_trail_head _ Htrail)) as Hat.
  change ("/" +:+ name +:+ after) with (String "/" (name +:+ after)) in *.
  rewrite findall_refs_go_cons, Hat. f_equal.
  replace (String.length ("/" +:+ name)
           + match after with "" => 0 | String _ _ => 1 end - 1)%nat
    with (String.length name + match after with "" => 0 | String _ _ => 1 end)%nat
    by (change (String.length ("/" +:+ name)) with (S (String.length name)); lia).
  by apply findall_refs_go_trail.
Qed.

(** A lone reference after slash-free text that ends with a delimiter. *)
Lemma findall_refs_after_lead bol lead name after :
  Str.all not_slash lead = true -> lead <> "" ->
  (exists d, is_ref_delim d = true /\ Path.endswith_char d lead = true) ->
  reference_name name -> reference_trail after ->
  findall_refs_go bol O (lead +:+ "/" +:+ name +:+ after) = ["/" +:+ name].
Proof.
  intros Hfree Hne (d & Hd & Hend) Hname Htrail.
  pose proof (ref_at_name name after Hname (reference_trail_head _ Htrail)) as Hat.
  revert bol. induction lead as [|c lead IH]; intros bol; [done|].
  simpl in Hfree. apply andb_true_iff in Hfree as [Hc Hfree].
  assert (c <> "/"%char) as Hc' by (intros ->; done).
  rewrite sapp_cons, findall_refs_go_cons, (ref_at_not_slash c _ Hc').
  assert ((if bol then @None (string * nat) else None) = None) as -> by (by destruct bol).
  destruct lead as [|c' lead].
  - simpl in Hend. destruct (decide (c = d)) as [->|]; [|done].
    rewrite Hd, sapp_nil_l, Hat. f_equal.
    change ("/" +:+ name +:+ after) with (String "/" (name +:+ after)).
    cbn [String.length Nat.add findall_refs_go].
    by apply findall_refs_go_trail.
  - rewrite endswith_char_tail in Hend by done.
    assert (ref_at (String c' lead +:+ "/" +:+ name +:+ after) = None) as ->.
    { rewrite sapp_cons. apply ref_at_not_slash. simpl in Hfree.
      apply andb_true_iff in Hfree as [Hc'' _]. intros ->. done. }
    rewrite (IH Hfree) by done. by destruct (is_ref_delim c).
Qed.

Lemma lstrip_chars_name name :
  reference_name name -> lstrip_chars "/ " ("/" +:+ name) = name.
Proof.
  intros (c & b & -> & Hc & _).
  change ("/" +:+ String c b) with (String "/" (String c b)).
  cbn [lstrip_chars]. change (in_chars "/ " "/") with true. cbv iota.
  assert (in_chars "/ " c = false) as ->; [|done].
  destruct c as [[] [] [] [] [] [] [] []]; vm_compute in Hc |- *; done.
Qed.

Lemma rstrip_chars_id chars s :
  Str.all (fun c => negb (in_chars chars c)) s = true -> rstrip_chars chars s = s.
Proof.
  induction s as [|c s IH]; [done|]. simpl.
  intros [Hc Hs]%andb_true_iff. rewrite (IH Hs).
  apply negb_true_iff in Hc. destruct s; [|done]. by rewrite Hc.
Qed.

Lemma is_name_char_not_stripped c :
  is_name_char c = true -> negb (in_chars "/ " c) = true.
Proof. destruct c as [[] [] [] [] [] [] [] []]; vm_compute; intros H; try done. Qed.

(** [strip('/ ')] on a captured reference gives the bare name. *)
Lemma strip_chars_reference name :
  reference_name name -> strip_chars "/ " ("/" +:+ name) = name.
Proof.
  intros Hname. unfold strip_chars. rewrite lstrip_chars_name by done.
  apply rstrip_chars_id. destruct Hname as (c & b & -> & Hc & _ & Hb). simpl.
  rewrite (is_name_char_not_stripped c (is_lower_name_char c Hc)).
  by apply (all_impl is_name_char _ b is_name_char_not_stripped).
Qed.

Lemma check_reference_results fs m self :
  command_path (check_reference fs m self) = command_path self
  /\ results (check_reference fs m self)
     = results self
       ++ reference_finding fs (command_path self) (strip_chars "/ " m).
Proof.
  unfold check_reference, reference_finding, command_name.
  set (ref := strip_chars "/ " m).
  destruct (bool_decide (ref = Path.stem (command_path self)));
    [by rewrite app_nil_r|].
  destruct (excluded ref); [by rewrite app_nil_r|].
  destruct (bool_decide (is_Some (fs !! _))), (bool_decide (is_Some (fs !! _)));
    simpl; rewrite ?app_nil_r; done.
Qed.

Lemma _validate_references_results fs self :
  results (_validate_references fs self)
  = results self
    ++ flat_map (fun m => reference_finding fs (command_path self) (strip_chars "/ " m))
         (findall_refs (content self)).
Proof.
  unfold _validate_references.
  generalize (findall_refs (content self)) as refs.
  assert (forall (refs : list string) (v : CommandValidator),
            command_path v = command_path self ->
            results (foldl (fun v m => check_reference fs m v) v refs)
            = results v
              ++ flat_map (fun m => reference_finding fs (command_path self)
                                      (strip_chars "/ " m)) refs) as H.
  { induction refs as [|m refs IH]; intros v Hv; simpl; [by rewrite app_nil_r|].
    destruct (check_reference_results fs m v) as [Hp Hr].
    rewrite IH by congruence. rewrite Hr, Hv. by rewrite <- (assoc (++)). }
  intros refs. by apply H.
Qed.

End References.

(** A document with a single reference [/name], at the start of the text
    or after slash-free text that ends with white space or a backtick, and
    followed by nothing else that could be a reference: the reference is
    found, and it yields exactly one "not found" warning unless it names
    the document itself, begins with an excluded word, or has a file under
    [workflows] or [tools]; then it yields nothing. *)
Theorem single_reference_finding fs path lead name after :
  reference_lead lead -> reference_name name -> reference_trail after ->
  let text := lead +:+ "/" +:+ name +:+ after in
  findall_refs text = ["/" +:+ name]
  /\ results (_validate_references fs (CommandValidator_init path text))
     = reference_finding fs path name.
Proof.
  intros [Hfree Hlead] Hname Htrail text.
  assert (findall_refs text = ["/" +:+ name]) as Hfind.
  { unfold findall_refs, text. destruct Hlead as [-> | Hd].
    - rewrite sapp_nil_l. by apply findall_refs_at_start.
    - apply findall_refs_after_lead; try done.
      intros ->. by destruct Hd as (d & _ & ?). }
  split; [done|].
  rewrite _validate_references_results. unfold CommandValidator_init.
  cbn [results content command_path app]. fold text. rewrite Hfind.
  cbn [flat_map]. rewrite app_nil_r. by rewrite strip_chars_reference.
Qed.

(** [see /nonexistent-tool here] in a tool document of an empty
    repository. *)
Lemma single_reference_finding_witness :
  findall_refs ("see " +:+ "/" +:+ "nonexistent-tool" +:+ " here")
  = ["/" +:+ "nonexistent-tool"]
  /\ results (_validate_references ∅
                (CommandValidator_init "tools/demo.md"
                   ("see " +:+ "/" +:+ "nonexistent-tool" +:+ " here")))
     = reference_finding ∅ "tools/demo.md" "nonexistent-tool".
Proof.
  apply (single_reference_finding ∅ "tools/demo.md" "see " "nonexistent-tool" " here").
  - split; [reflexivity|]. right. exists " "%char. split; reflexivity.
  - exists "n"%char, "onexistent-tool". repeat split; try reflexivity. discriminate.
  - split; reflexivity.
Defined.

(** Two references with a single delimiter other than a newline between
    them: the delimiter is consumed by the first match, so the second
    reference is not found and is never checked. The findings are those of
    the first reference alone. *)
Theorem adjacent_reference_skipped fs path name1 d name2 after :
  reference_name name1 -> reference_name name2 ->
  is_ref_delim d = true -> d <> Str.nl ->
  Str.all not_slash after = true ->
  let text := "/" +:+ name1 +:+ String d ("/" +:+ name2 +:+ after) in
  findall_refs text = ["/" +:+ name1]
  /\ results (_validate_references fs (CommandValidator_init path text))
     = reference_finding fs path name1.
Proof.
  intros Hn1 Hn2 Hd Hnl Hafter text.
  assert (findall_refs text = ["/" +:+ name1]) as Hfind.
  { unfold findall_refs, text.
    pose proof (ref_at_name name1 (String d ("/" +:+ name2 +:+ after)) Hn1 Hd) as Hat.
    change ("/" +:+ name1 +:+ String d ("/" +:+ name2 +:+ after))
      with (String "/" (name1 +:+ String d ("/" +:+ name2 +:+ after))) in *.
    rewrite findall_refs_go_cons, Hat. f_equal.
    replace (String.length ("/" +:+ name1) + 1 - 1)%nat
      with (String.length name1 + 1)%nat
      by (change (String.length ("/" +:+ name1)) with (S (String.length name1)); lia).
    rewrite findall_refs_go_skip, bool_decide_eq_false_2 by done.
    change ("/" +:+ name2 +:+ after) with (String "/" (name2 +:+ after)).
    rewrite findall_refs_go_cons. change (is_ref_delim "/") with false. cbv iota.
    apply findall_refs_go_slash_free.
    rewrite all_app, (reference_name_slash_free _ Hn2). done. }
  split; [done|].
  rewrite _validate_references_results. unfold CommandValidator_init.
  cbn [results content command_path app]. fold text. rewrite Hfind.
  cbn [flat_map]. rewrite app_nil_r. by rewrite strip_chars_reference.
Qed.

(** [/tdd-red /missing-two]: only [tdd-red] is looked up. *)
Lemma adjacent_reference_skipped_witness :
  findall_refs ("/" +:+ "tdd-red" +:+ String " " ("/" +:+ "missing-two" +:+ ""))
  = ["/" +:+ "tdd-red"]
  /\ results (_validate_references {["workflows/tdd-red.md" := "# t"]}
                (CommandValidator_init "tools/demo.md"
                   ("/" +:+ "tdd-red" +:+ String " " ("/" +:+ "missing-two" +:+ ""))))
     = reference_finding {["workflows/tdd-red.md" := "# t"]} "tools/demo.md" "tdd-red".
Proof.
  apply (adjacent_reference_skipped {["workflows/tdd-red.md" := "# t"]}
           "tools/demo.md" "tdd-red" " " "missing-two" "").
  - exists "t"%char, "dd-red". repeat split; try reflexivity. discriminate.
  - exists "m"%char, "issing-two". repeat split; try reflexivity. discriminate.
  - reflexivity.
  - discriminate.
  - reflexivity.
Defined.

Section Exclusion.

Lemma sapp_inj_r (a b s : string) : a +:+ s = b +:+ s -> a = b.
Proof.
  revert b. induction a as [|c a IH]; intros b H.
  - destruct b as [|d b]; [done|].
    apply (f_equal String.length) in H. rewrite sapp_nil_l, slength_app in H.
    simpl in H. lia.
  - destruct b as [|d b].
    + apply (f_equal String.length) in H. rewrite sapp_nil_l, slength_app in H.
      simpl in H. lia.
    + rewrite !sapp_cons in H. injection H as -> H. by rewrite (IH b H).
Qed.

Lemma not_found_warning_inj file ref ref' :
  not_found_warning file ref = not_found_warning file ref' -> ref = ref'.
Proof.
  unfold not_found_warning. intros [= H].
  change (ref +:+ "' not found" = ref' +:+ "' not found") in H.
  by apply sapp_inj_r in H.
Qed.

Lemma reference_finding_elem fs path name r :
  r ∈ reference_finding fs path name ->
  r = not_found_warning path name /\ excluded name = false
  /\ name <> Path.stem path
  /\ fs !! (parent (parent path) // "workflows" // (name +:+ ".md")) = None
  /\ fs !! (parent (parent path) // "tools" // (name +:+ ".md")) = None.
Proof.
  unfold reference_finding.
  case_bool_decide as H1; [by intros ?%elem_of_nil|].
  destruct (excluded name); [by intros ?%elem_of_nil|].
  case_bool_decide as H2; [by intros ?%elem_of_nil|].
  case_bool_decide as H3; [by intros ?%elem_of_nil|].
  intros ->%list_elem_of_singleton. repeat split; try done.
  - by apply eq_None_not_Some.
  - by apply eq_None_not_Some.
Qed.

(** A reference whose name begins with one of the excluded words (the
    leading slash of the word apart) is never reported, whether or not a
    file of that name exists. The list has the one-letter words [a] and [p],
    so no name that begins with [a] or [p] is ever reported. *)
Theorem excluded_prefix_never_reported fs self ref ex new :
  ex ∈ exclude_patterns ->
  Str.startswith (lstrip_chars "/" ex) ref = true ->
  added self (_validate_references fs self) new ->
  Forall (fun r => r <> not_found_warning (command_path self) ref) new.
Proof.
  intros Hex Hpre Hadd. apply Forall_forall. intros r Hin ->.
  assert (excluded ref = true) as Hexcl.
  { unfold excluded, any. apply existsb_exists. exists ex.
    split; [by apply list_elem_of_In|]. rewrite Hpre. apply orb_true_r. }
  unfold added in Hadd. rewrite _validate_references_results in Hadd.
  apply app_inv_head in Hadd. subst new.
  apply list_elem_of_In, in_flat_map in Hin as (m & _ & Hm).
  apply list_elem_of_In, reference_finding_elem in Hm as (Heq & Hno & _).
  apply not_found_warning_inj in Heq. congruence.
Qed.

(** [/api-scaffold] in a repository without such a file. *)
Lemma excluded_prefix_never_reported_witness :
  Forall (fun r => r <> not_found_warning "tools/demo.md" "api-scaffold")
    (results (_validate_references ∅
                (CommandValidator_init "tools/demo.md" "run /api-scaffold first"))).
Proof.
  apply (excluded_prefix_never_reported ∅
           (CommandValidator_init "tools/demo.md" "run /api-scaffold first")
           "api-scaffold" "/a").
  - unfold exclude_patterns. apply list_elem_of_In. simpl. tauto.
  - reflexivity.
  - unfold added. reflexivity.
Defined.

End Exclusion.

Section Subagents.

Implicit Types (s a : string).

Lemma findall_subagents_go_cons s c :
  findall_subagents_go O (String c s)
  = match subagent_ref_at (String c s) with
    | Some (role, n) => role :: findall_subagents_go (n - 1) s
    | None => findall_subagents_go O s
    end.
Proof. reflexivity. Qed.

Lemma subagent_ref_at_none s :
  Str.startswith "subagent_type" s = false -> subagent_ref_at s = None.
Proof. intros H. unfold subagent_ref_at. by rewrite H. Qed.

Lemma findall_subagents_go_none s :
  Str.contains "subagent_type" s = false -> findall_subagents_go O s = [].
Proof.
  induction s as [|c s IH]; [done|].
  intros [H1 H2]%contains_cons_false.
  by rewrite findall_subagents_go_cons, (subagent_ref_at_none _ H1), (IH H2).
Qed.

Lemma findall_subagents_go_skip a s :
  findall_subagents_go (String.length a) (a +:+ s) = findall_subagents_go O s.
Proof. induction a as [|c a IH]; [by destruct s|]. by rewrite sapp_cons. Qed.

Lemma keyword_chars : Str.all is_keyword_char "subagent_type" = true.
Proof. reflexivity. Qed.

Lemma findall_subagents_go_prefix before s :
  Str.contains "subagent_type" before = false ->
  (before = ""
   \/ exists x, is_keyword_char x = false /\ Path.endswith_char x before = true) ->
  findall_subagents_go O (before +:+ s) = findall_subagents_go O s.
Proof.
  induction before as [|c before IH]; intros Hc Hend; [done|].
  apply contains_cons_false in Hc as [H1 H2].
  destruct Hend as [?|(x & Hx & Hend)]; [done|].
  rewrite sapp_cons, findall_subagents_go_cons, subagent_ref_at_none; cycle 1.
  { rewrite <- sapp_cons.
    apply (startswith_past_separator "subagent_type" is_keyword_char _ s x);
      [apply keyword_chars|done|by right|done|done]. }
  apply IH; [done|]. destruct before as [|d before]; [by left|right].
  exists x. by rewrite endswith_char_tail in Hend.
Qed.

Lemma is_role_char_not_sep c : is_role_char c = true -> is_subagent_sep c = false.
Proof. destruct c as [[] [] [] [] [] [] [] []]; vm_compute; intros H; try done. Qed.

(** The pattern on a declaration: the role is captured up to the first
    character that is not a lowercase letter or a hyphen. *)
Lemma subagent_ref_at_declaration sep role after :
  sep <> "" -> Str.all is_subagent_sep sep = true ->
  role <> "" -> Str.all is_role_char role = true ->
  match after with "" => True | String c _ => is_role_char c = false end ->
  subagent_ref_at ("subagent_type" +:+ sep +:+ role +:+ after)
  = Some (role, (13 + String.length sep + String.length role)%nat).
Proof.
  intros Hsep1 Hsep2 Hrole1 Hrole2 Hafter. unfold subagent_ref_at.
  rewrite startswith_app.
  change (Str.drop 13 ("subagent_type" +:+ sep +:+ role +:+ after))
    with (sep +:+ role +:+ after).
  destruct role as [|r0 role]; [done|].
  simpl in Hrole2. apply andb_true_iff in Hrole2 as [Hr0 Hrole2].
  rewrite sapp_cons.
  rewrite (span_app_stop is_subagent_sep sep r0 (role +:+ after) Hsep2
             (is_role_char_not_sep r0 Hr0)).
  assert (Str.span is_role_char (String r0 (role +:+ after))
          = (String r0 role, after)) as ->.
  { rewrite <- sapp_cons. destruct after as [|c after].
    - rewrite sapp_nil_r. apply span_all. simpl. by rewrite Hr0.
    - apply span_app_stop; [simpl; by rewrite Hr0|done]. }
  by destruct sep.
Qed.

Lemma _validate_subagent_references_results self :
  results (_validate_subagent_references self)
  = results self
    ++ flat_map (fun role =>
                   if bool_decide (role ∈ valid_subagents) then []
                   else [unknown_subagent_warning (command_path self) role])
         (findall_subagents (content self)).
Proof.
  unfold _validate_subagent_references.
  generalize (findall_subagents (content self)) as roles.
  generalize (command_path self) as file. intros file roles.
  generalize self as v. induction roles as [|role roles IH]; intros v; simpl.
  - by rewrite app_nil_r.
  - rewrite IH. destruct (bool_decide (role ∈ valid_subagents)); simpl; [done|].
    by rewrite <- (assoc (++)).
Qed.

End Subagents.

(** A workflow with one [subagent_type] declaration: after the keyword and
    its separators (quotes, white space, [=], [:]) the role is read up to
    the first character that is not a lowercase letter or a hyphen. A role
    of the allow-list gives no finding, any other role exactly one warning
    that names it. What stands in front must be free of the keyword and end
    with a character that is not a lowercase letter or an underscore; what
    follows must be free of the keyword. *)
Theorem single_subagent_declaration path before sep role after :
  Str.contains "subagent_type" before = false ->
  (before = ""
   \/ exists x, is_keyword_char x = false /\ Path.endswith_char x before = true) ->
  sep <> "" -> Str.all is_subagent_sep sep = true ->
  role <> "" -> Str.all is_role_char role = true ->
  match after with "" => True | String c _ => is_role_char c = false end ->
  Str.contains "subagent_type" after = false ->
  let text := before +:+ "subagent_type" +:+ sep +:+ role +:+ after in
  findall_subagents text = [role]
  /\ results (_validate_subagent_references (CommandValidator_init path text))
     = if bool_decide (role ∈ valid_subagents) then []
       else [unknown_subagent_warning path role].
Proof.
  intros Hb1 Hb2 Hs1 Hs2 Hr1 Hr2 Ha1 Ha2 text.
  assert (findall_subagents text = [role]) as Hfind.
  { unfold findall_subagents, text. rewrite findall_subagents_go_prefix by done.
    pose proof (subagent_ref_at_declaration sep role after Hs1 Hs2 Hr1 Hr2 Ha1) as Hat.
    change ("subagent_type" +:+ sep +:+ role +:+ after)
      with (String "s" ("ubagent_type" +:+ sep +:+ role +:+ after)) in *.
    rewrite findall_subagents_go_cons, Hat. f_equal.
    replace (13 + String.length sep + String.length role - 1)%nat
      with (String.length ("ubagent_type" +:+ sep +:+ role))
      by (rewrite !slength_app; simpl; lia).
    replace ("ubagent_type" +:+ sep +:+ role +:+ after)
      with (("ubagent_type" +:+ sep +:+ role) +:+ after)
      by (by rewrite !sapp_assoc).
    rewrite findall_subagents_go_skip. by apply findall_subagents_go_none. }
  split; [done|].
  rewrite _validate_subagent_references_results. unfold CommandValidator_init.
  cbn [results content command_path app]. fold text. rewrite Hfind.
  cbn [flat_map]. by rewrite app_nil_r.
Qed.

(** [subagent_type: nonexistent-role] inside a sentence, and a role cut
    short at an underscore. *)
Lemma single_subagent_declaration_witness :
  (findall_subagents
     ("Use " +:+ "subagent_type" +:+ ": " +:+ "nonexistent-role" +:+ " here")
   = ["nonexistent-role"]
   /\ results (_validate_subagent_references
                 (CommandValidator_init "workflows/w.md"
                    ("Use " +:+ "subagent_type" +:+ ": " +:+ "nonexistent-role"
                       +:+ " here")))
      = [unknown_subagent_warning "workflows/w.md" "nonexistent-role"])
  /\ (findall_subagents ("" +:+ "subagent_type" +:+ "=" +:+ "code" +:+ "_reviewer")
      = ["code"]
      /\ results (_validate_subagent_references
                    (CommandValidator_init "workflows/w.md"
                       ("" +:+ "subagent_type" +:+ "=" +:+ "code" +:+ "_reviewer")))
         = [unknown_subagent_warning "workflows/w.md" "code"]).
Proof.
  split.
  - apply (single_subagent_declaration "workflows/w.md" "Use " ": "
             "nonexistent-role" " here"); try reflexivity; try discriminate.
    right. exists " "%char. split; reflexivity.
  - apply (single_subagent_declaration "workflows/w.md" "" "=" "code" "_reviewer");
      try reflexivity; try discriminate.
    by left.
Defined.

Section Rules.

Lemma fresh_append_result r self : fresh (append_result r self) = fresh self.
Proof. reflexivity. Qed.

Lemma fresh_fields self :
  command_path (fresh self) = command_path self
  /\ content (fresh self) = content self
  /\ lines (fresh self) = lines self.
Proof. done. Qed.

Lemma fresh_foldl {A} (f : A -> CommandValidator -> CommandValidator) l self :
  (forall x v, fresh (f x v) = fresh v) ->
  fresh (foldl (fun v x => f x v) self l) = fresh self.
Proof.
  intros Hf. revert self. induction l as [|x l IH]; intros self; [done|].
  simpl. by rewrite IH, Hf.
Qed.

Ltac fields := cbn [fresh command_path content lines results append_result negb app].

Lemma appends_only_structure : appends_only _validate_structure.
Proof.
  intros [p c l rs]. unfold _validate_structure. fields.
  destruct (strip c); fields; destruct (any (Str.startswith "#") l); fields;
    rewrite ?app_nil_r, <- ?(assoc (++)); done.
Qed.

Lemma appends_only_naming : appends_only _validate_naming.
Proof.
  intros [p c l rs]. unfold _validate_naming, command_name. fields.
  destruct (match_name (Path.stem p)); fields;
    destruct (30 <? String.length (Path.stem p))%nat; fields;
    rewrite ?app_nil_r, <- ?(assoc (++)); done.
Qed.

Lemma appends_only_placeholders : appends_only _validate_placeholders.
Proof.
  intros [p c l rs]. unfold _validate_placeholders, command_name. fields.
  destruct (any _ needs_arguments_keywords); fields;
    destruct (Str.contains "$ARGUMENTS" c); fields;
    rewrite ?app_nil_r; done.
Qed.

Lemma fresh_markdown self : fresh (_validate_markdown self) = fresh self.
Proof.
  unfold _validate_markdown.
  destruct (negb _); cbn [command_path content lines results append_result];
    destruct (header_levels_from 0 (lines self)) as [|[? ?] ?]; try done;
    by rewrite (fresh_foldl (fun r v => append_result r v)).
Qed.

Lemma appends_only_markdown : appends_only _validate_markdown.
Proof.
  intros self. split; [apply fresh_markdown|].
  rewrite !_validate_markdown_results. done.
Qed.

Lemma fresh_check_reference fs m self : fresh (check_reference fs m self) = fresh self.
Proof.
  unfold check_reference.
  destruct (bool_decide _); [done|]. destruct (excluded _); [done|].
  by destruct (_ && _).
Qed.

Lemma appends_only_references fs : appends_only (_validate_references fs).
Proof.
  intros self. split.
  - unfold _validate_references.
    apply (fresh_foldl (fun m v => check_reference fs m v)).
    intros m v. apply fresh_check_reference.
  - rewrite !_validate_references_results. done.
Qed.

Lemma appends_only_task_tool : appends_only _validate_task_tool_usage.
Proof.
  intros self. split.
  - destruct self as [p c l rs]. unfold _validate_task_tool_usage. fields.
    destruct (_ && _); fields; by destruct (_ && _).
  - pose proof (_validate_task_tool_usage_added self) as H1.
    pose proof (_validate_task_tool_usage_added (fresh self)) as H2.
    unfold added in *. rewrite H1, H2. done.
Qed.

Lemma appends_only_subagents : appends_only _validate_subagent_references.
Proof.
  intros self. split.
  - unfold _validate_subagent_references.
    apply (fresh_foldl
             (fun role v =>
                if bool_decide (role ∈ valid_subagents) then v
                else append_result
                       (unknown_subagent_warning (command_path self) role) v)).
    intros role v. by destruct (bool_decide _).
  - rewrite !_validate_subagent_references_results. done.
Qed.

(** Rules of that kind compose: the second reports what it would report
    alone, after what the first reports. *)
Lemma appends_only_compose f g self :
  appends_only f -> appends_only g ->
  fresh (g (f self)) = fresh self
  /\ results (g (f self))
     = results self ++ results (f (fresh self)) ++ results (g (fresh self)).
Proof.
  intros Hf Hg. destruct (Hf self) as [Hf1 Hf2], (Hg (f self)) as [Hg1 Hg2].
  split; [congruence|]. rewrite Hg2, Hf2, Hf1. by rewrite <- (assoc (++)).
Qed.

Lemma validate_no_yaml_results fs self :
  fresh (validate_no_yaml fs self) = fresh self
  /\ results (validate_no_yaml fs self)
     = results self
       ++ results (_validate_structure (fresh self))
       ++ results (_validate_naming (fresh self))
       ++ results (_validate_placeholders (fresh self))
       ++ results (_validate_markdown (fresh self))
       ++ results (_validate_references fs (fresh self)).
Proof.
  unfold validate_no_yaml.
  destruct (appends_only_structure self) as [F1 R1].
  destruct (appends_only_naming (_validate_structure self)) as [F2 R2].
  destruct (appends_only_placeholders (_validate_naming (_validate_structure self)))
    as [F3 R3].
  destruct (appends_only_markdown
              (_validate_placeholders (_validate_naming (_validate_structure self))))
    as [F4 R4].
  destruct (appends_only_references fs
              (_validate_markdown
                 (_validate_placeholders (_validate_naming (_validate_structure self)))))
    as [F5 R5].
  split; [congruence|].
  rewrite R5, R4, R3, R2, R1, F4, F3, F2, F1.
  by rewrite <- !(assoc (++)).
Qed.

Lemma workflow_validate_no_yaml_results fs self :
  results (workflow_validate_no_yaml fs self)
  = results self
    ++ results (_validate_structure (fresh self))
    ++ results (_validate_naming (fresh self))
    ++ results (_validate_placeholders (fresh self))
    ++ results (_validate_markdown (fresh self))
    ++ results (_validate_references fs (fresh self))
    ++ results (_validate_task_tool_usage (fresh self))
    ++ results (_validate_subagent_references (fresh self)).
Proof.
  unfold workflow_validate_no_yaml.
  destruct (validate_no_yaml_results fs self) as [F R].
  destruct (appends_only_task_tool (validate_no_yaml fs self)) as [F6 R6].
  destruct (appends_only_subagents
              (_validate_task_tool_usage (validate_no_yaml fs self))) as [F7 R7].
  rewrite R7, R6, R, F6, F. by rewrite <- !(assoc (++)).
Qed.

Lemma _validate_naming_results self :
  results (_validate_naming self)
  = results self
    ++ (if match_name (Path.stem (command_path self)) then []
        else [naming_error (command_path self) (Path.stem (command_path self))])
    ++ (if (30 <? String.length (Path.stem (command_path self)))%nat
        then [name_length_warning (command_path self) (Path.stem (command_path self))]
        else []).
Proof.
  unfold _validate_naming, command_name.
  destruct (match_name (Path.stem (command_path self)));
    cbn [negb command_path content lines results append_result];
    destruct (30 <? String.length (Path.stem (command_path self)))%nat;
    cbn [command_path content lines results append_result];
    rewrite ?app_nil_r, <- ?(assoc (++)); done.
Qed.

Lemma _validate_placeholders_levels self r :
  r ∈ results (_validate_placeholders (fresh self)) -> level r = WARNING.
Proof.
  unfold _validate_placeholders.
  destruct (any _ needs_arguments_keywords); [destruct (negb _)|];
    cbn [fresh results append_result app];
    rewrite ?elem_of_nil, ?list_elem_of_singleton; try done.
  by intros ->.
Qed.

End Rules.

(** Without the [yaml] module, the findings of a workflow validation are
    the findings each rule gives on its own, in the order structure, naming,
    placeholders, markdown, references, task tool, subagents: no rule
    changes what another one reports, and findings present before are kept
    in front. *)
Theorem workflow_validate_findings_in_rule_order fs self :
  results (workflow_validate_no_yaml fs self)
  = results self
    ++ results (_validate_structure (fresh self))
    ++ results (_validate_naming (fresh self))
    ++ results (_validate_placeholders (fresh self))
    ++ results (_validate_markdown (fresh self))
    ++ results (_validate_references fs (fresh self))
    ++ results (_validate_task_tool_usage (fresh self))
    ++ results (_validate_subagent_references (fresh self)).
Proof. apply workflow_validate_no_yaml_results. Qed.

(** Without the [yaml] module, a workflow validation started without
    findings can report only three errors: the empty file, the naming
    convention and the unclosed code block. Everything about headers,
    placeholders, references, task delegation and subagents is a warning. *)
Theorem workflow_validate_errors fs path text r :
  r ∈ results (workflow_validate_no_yaml fs (CommandValidator_init path text)) ->
  level r = ERROR ->
  r = empty_file_error path
  \/ r = naming_error path (Path.stem path)
  \/ r = unclosed_code_block path.
Proof.
  rewrite workflow_validate_no_yaml_results.
  set (self := CommandValidator_init path text).
  change (fresh self) with self. change (results self) with (@nil ValidationResult).
  rewrite app_nil_l, !elem_of_app.
  intros [H|[H|[H|[H|[H|[H|H]]]]]] Hl.
  - unfold self in H. rewrite _validate_structure_results in H.
    apply elem_of_app in H as [H|H].
    + destruct (strip text); [|by apply elem_of_nil in H].
      apply list_elem_of_singleton in H. auto.
    + destruct (any _ _); [by apply elem_of_nil in H|].
      apply list_elem_of_singleton in H. subst r. done.
  - rewrite _validate_naming_results in H.
    change (results self) with (@nil ValidationResult) in H.
    rewrite app_nil_l in H. apply elem_of_app in H as [H|H].
    + destruct (match_name _); [by apply elem_of_nil in H|].
      apply list_elem_of_singleton in H. auto.
    + destruct (_ <? _)%nat; [|by apply elem_of_nil in H].
      apply list_elem_of_singleton in H. subst r. done.
  - apply (_validate_placeholders_levels self) in H. congruence.
  - rewrite _validate_markdown_results in H.
    change (results self) with (@nil ValidationResult) in H.
    rewrite app_nil_l in H. apply elem_of_app in H as [H|H].
    + destruct (Nat.odd _); [|by apply elem_of_nil in H].
      apply list_elem_of_singleton in H. auto.
    + destruct (header_levels_from 0 (lines self)) as [|[first ?] rest];
        [by apply elem_of_nil in H|].
      pose proof (header_jumps_warnings (command_path self) first rest) as Hw.
      rewrite Forall_forall in Hw. apply Hw in H. congruence.
  - rewrite _validate_references_results in H.
    change (results self) with (@nil ValidationResult) in H. rewrite app_nil_l in H.
    apply list_elem_of_In, in_flat_map in H as (m & _ & Hm).
    apply list_elem_of_In, reference_finding_elem in Hm as (-> & _). done.
  - pose proof (_validate_task_tool_usage_added self) as Hadd. unfold added in Hadd.
    change (results self) with (@nil ValidationResult) in Hadd.
    rewrite app_nil_l in Hadd. rewrite Hadd in H.
    apply elem_of_app in H as [H|H];
      (destruct (_ && _); [apply list_elem_of_singleton in H; subst r; done
                          |by apply elem_of_nil in H]).
  - rewrite _validate_subagent_references_results in H.
    change (results self) with (@nil ValidationResult) in H. rewrite app_nil_l in H.
    apply list_elem_of_In, in_flat_map in H as (role & _ & Hm).
    destruct (bool_decide _); [done|]. destruct Hm as [<- | []]. done.
Qed.

(** A workflow named [Bad_Name] with an odd fence count. *)
Lemma workflow_validate_errors_witness :
  naming_error "workflows/Bad_Name.md" "Bad_Name" = empty_file_error "workflows/Bad_Name.md"
  \/ naming_error "workflows/Bad_Name.md" "Bad_Name"
     = naming_error "workflows/Bad_Name.md" (Path.stem "workflows/Bad_Name.md")
  \/ naming_error "workflows/Bad_Name.md" "Bad_Name"
     = unclosed_code_block "workflows/Bad_Name.md".
Proof.
  apply (workflow_validate_errors ∅ "workflows/Bad_Name.md" "# T ```").
  - vm_compute. apply list_elem_of_here.
  - reflexivity.
Defined.
